(** * The union website's resource API, embedded in Rocq

    The Express route handlers of [backend/routes] (news, messages,
    memberships, pages, media) and the guard of [backend/middleware/auth.js]
    are written here as functions from a world (the six tables and the
    upload directory tree) to a response and a new world.

    Conventions of the embedding:
    - a request-body field is a [Field]: JavaScript distinguishes a field
      that is missing ([undefined]), one that is [null], and one that holds
      a value, and the handlers test all three ([!x], [x || d],
      [x !== undefined]).  Each field carries values of the type of the
      column it feeds (text as [string], numbers and flags as [Z]);
    - a query-string parameter is an [option string];
    - the persistence helper is the synchronous [db.get]/[db.all]/[db.run]
      of [models/database.js], over sql.js; a table is the list of its
      rows in rowid order plus the AUTOINCREMENT counter.  A parameter
      that is [null] reaches a statement as SQL NULL; one that is
      [undefined] cannot be bound, and the statement throws before it
      runs.  A statement that would store NULL in a NOT NULL column
      throws as well, and the handler's [catch] answers 500 either way.
      Text is stored and compared as its UTF-8 bytes.  The
      [lastInsertRowid] that [run] reports is 0 (see
      [Db.lastInsertRowid]);
    - numbers are integers; a Number that [parseInt] yields is rounded
      to the nearest double;
    - [CURRENT_TIMESTAMP] is the argument [now] of a handler;
    - the routes that receive multipart uploads or rebuild their payload
      (the page listings, the specialty listings) are not part of the
      embedding.  The auth routes and [parseVideoUrl] are embedded apart
      from the router ([AuthRoutes], [VideoUrl]): [bcrypt.compareSync]
      and [bcrypt.hashSync] are the two variables of a section, and the
      expressions of [parseVideoUrl] are written as searches over the
      characters of the address. *)

From Stdlib Require Import List String Ascii ZArith Bool Lia DecimalString.
From Stdlib Require Import Sorting.Sorted Sorting.Permutation.
Import ListNotations.

Local Open Scope string_scope.
Local Open Scope Z_scope.

(* ================================================================== *)
(** ** JavaScript values and built-ins used by the handlers *)

Module Js.

Inductive Field (A : Type) : Type :=
| Undefined
| Null
| Given (a : A).
Arguments Undefined {A}.
Arguments Null {A}.
Arguments Given {A} a.

(** ToBoolean on the values a field can hold. *)
Class Truthy (A : Type) := truthy_val : A -> bool.

#[export] Instance Truthy_string : Truthy string :=
  fun s => negb (String.eqb s "").
#[export] Instance Truthy_Z : Truthy Z :=
  fun n => negb (Z.eqb n 0).
#[export] Instance Truthy_list {A} : Truthy (list A) :=
  fun _ => true.

Definition truthy {A} `{Truthy A} (f : Field A) : bool :=
  match f with
  | Given a => truthy_val a
  | _ => false
  end.

(** [f || d] with a value as default. *)
Definition or_else {A} `{Truthy A} (f : Field A) (d : A) : A :=
  match f with
  | Given a => if truthy_val a then a else d
  | _ => d
  end.

(** [f || null], as a statement parameter. *)
Definition or_null {A} `{Truthy A} (f : Field A) : option A :=
  match f with
  | Given a => if truthy_val a then Some a else None
  | _ => None
  end.

(** A field handed to a statement as a parameter.  [stmt.bind] of
    sql.js takes a value or [null] (SQL NULL) and throws on [undefined]:
    [None] is that throw, which comes before the statement runs. *)
Definition bind {A} (f : Field A) : option (option A) :=
  match f with
  | Undefined => None
  | Null => Some None
  | Given a => Some (Some a)
  end.

(** Whether a field can be bound. *)
Definition defined {A} (f : Field A) : bool :=
  match f with
  | Undefined => false
  | _ => true
  end.

(** The parameters of a statement, bound one after the other: the
    statement is [None] (it throws) when one of them is [undefined]. *)
Notation "'binding' x <- f ; k" :=
  (match bind f with
   | Some x => k
   | None => None
   end)
  (at level 10, x name, f at level 100, k at level 200, only parsing).

(** [s.startsWith(p)] *)
Definition startsWith (s p : string) : bool := String.prefix p s.

(** *** The code units of a string

    Text is held as its UTF-8 bytes, the way the store and the files
    hold it.  A regular expression, [length] and [parseInt] see the
    UTF-16 code units of the string instead: [units] decodes them (an
    ill-formed sequence reads as U+FFFD, as the decoder of the request
    body leaves it). *)

Definition code (c : ascii) : Z := Z.of_nat (nat_of_ascii c).

Definition in_range (lo hi : Z) (c : ascii) : bool :=
  (lo <=? code c) && (code c <=? hi).

(** The six payload bits of a continuation byte. *)
Definition tail6 (c : ascii) : Z := code c - 128.

(** A code point as one code unit, or as a surrogate pair. *)
Definition utf16 (cp : Z) : list Z :=
  if cp <? 65536 then [cp]
  else [55296 + Z.shiftr (cp - 65536) 10; 56320 + Z.land (cp - 65536) 1023].

Fixpoint units (s : string) : list Z :=
  match s with
  | EmptyString => []
  | String b0 r0 =>
      let n0 := code b0 in
      if n0 <? 128 then n0 :: units r0
      else if in_range 194 223 b0 then
        match r0 with
        | String b1 r1 =>
            if in_range 128 191 b1
            then ((n0 - 192) * 64 + tail6 b1) :: units r1
            else 65533 :: units r0
        | EmptyString => [65533]
        end
      else if in_range 224 239 b0 then
        match r0 with
        | String b1 r1 =>
            if in_range (if n0 =? 224 then 160 else 128)
                 (if n0 =? 237 then 159 else 191) b1
            then
              match r1 with
              | String b2 r2 =>
                  if in_range 128 191 b2
                  then ((n0 - 224) * 4096 + tail6 b1 * 64 + tail6 b2)
                       :: units r2
                  else 65533 :: units r1
              | EmptyString => [65533]
              end
            else 65533 :: units r0
        | EmptyString => [65533]
        end
      else if in_range 240 244 b0 then
        match r0 with
        | String b1 r1 =>
            if in_range (if n0 =? 240 then 144 else 128)
                 (if n0 =? 244 then 143 else 191) b1
            then
              match r1 with
              | String b2 r2 =>
                  if in_range 128 191 b2
                  then
                    match r2 with
                    | String b3 r3 =>
                        if in_range 128 191 b3
                        then (utf16 ((n0 - 240) * 262144 + tail6 b1 * 4096
                                     + tail6 b2 * 64 + tail6 b3)
                              ++ units r3)%list
                        else 65533 :: units r2
                    | EmptyString => [65533]
                    end
                  else 65533 :: units r1
              | EmptyString => [65533]
              end
            else 65533 :: units r0
        | EmptyString => [65533]
        end
      else 65533 :: units r0
  end.

(** [s.length] *)
Definition strlen (s : string) : Z := Z.of_nat (List.length (units s)).

(** White space as [\s] and [parseInt] know it: the ASCII controls and
    the space, U+00A0, U+1680, U+2000 to U+200A, U+2028, U+2029, U+202F,
    U+205F, U+3000 and U+FEFF. *)
Definition is_space (u : Z) : bool :=
  ((9 <=? u) && (u <=? 13)) || (u =? 32) || (u =? 160) || (u =? 5760)
  || ((8192 <=? u) && (u <=? 8202)) || (u =? 8232) || (u =? 8233)
  || (u =? 8239) || (u =? 8287) || (u =? 12288) || (u =? 65279).

(** *** parseInt *)

Fixpoint skip_spaces (l : list Z) : list Z :=
  match l with
  | u :: r => if is_space u then skip_spaces r else l
  | [] => l
  end.

Definition digit_val (radix : Z) (u : Z) : option Z :=
  let v :=
    if (48 <=? u) && (u <=? 57) then u - 48
    else if (97 <=? u) && (u <=? 122) then u - 87
    else if (65 <=? u) && (u <=? 90) then u - 55
    else radix in
  if v <? radix then Some v else None.

(** The longest prefix of digits; [None] when there is no digit. *)
Fixpoint parse_digits (radix : Z) (l : list Z) (acc : option Z) : option Z :=
  match l with
  | u :: r =>
      match digit_val radix u with
      | Some d =>
          parse_digits radix r
            (Some (match acc with
                   | Some a => a * radix + d
                   | None => d
                   end))
      | None => acc
      end
  | [] => acc
  end.

(** The Number nearest to an integer: 53 significant bits, a tie goes
    to the even neighbour.  (Past the largest double the value stands
    for Infinity; no column and no LIMIT takes either.) *)
Definition to_double (n : Z) : Z :=
  let a := Z.abs n in
  if a <? 2 ^ 53 then n
  else
    let e := Z.log2 a - 52 in
    let q := Z.shiftr a e in
    let r := a - Z.shiftl q e in
    let half := Z.shiftl 1 (e - 1) in
    let q' :=
      if r <? half then q
      else if half <? r then q + 1
      else if Z.even q then q else q + 1 in
    Z.sgn n * Z.shiftl q' e.

(** [parseInt(s)] without a radix; [None] is NaN. *)
Definition parseInt (s : string) : option Z :=
  let l0 := skip_spaces (units s) in
  let '(neg, l1) :=
    match l0 with
    | 45 :: r => (true, r)
    | 43 :: r => (false, r)
    | _ => (false, l0)
    end in
  let '(radix, l2) :=
    match l1 with
    | 48 :: 120 :: r => (16, r)
    | 48 :: 88 :: r => (16, r)
    | _ => (10, l1)
    end in
  match parse_digits radix l2 None with
  | Some v => Some (to_double (if neg : bool then - v else v))
  | None => None
  end.

(** *** Regular expressions (anchored [test]) *)

(** A class is a set of code units: the expressions carry no [u]
    flag. *)
Inductive Re : Type :=
| ReNone
| ReEps
| ReClass (p : Z -> bool)
| ReSeq (r1 r2 : Re)
| ReAlt (r1 r2 : Re)
| ReStar (r : Re).

Definition RePlus (r : Re) : Re := ReSeq r (ReStar r).

Fixpoint nullable (r : Re) : bool :=
  match r with
  | ReNone => false
  | ReEps => true
  | ReClass _ => false
  | ReSeq r1 r2 => nullable r1 && nullable r2
  | ReAlt r1 r2 => nullable r1 || nullable r2
  | ReStar _ => true
  end.

Fixpoint deriv (c : Z) (r : Re) : Re :=
  match r with
  | ReNone => ReNone
  | ReEps => ReNone
  | ReClass p => if p c then ReEps else ReNone
  | ReSeq r1 r2 =>
      if nullable r1
      then ReAlt (ReSeq (deriv c r1) r2) (deriv c r2)
      else ReSeq (deriv c r1) r2
  | ReAlt r1 r2 => ReAlt (deriv c r1) (deriv c r2)
  | ReStar r1 => ReSeq (deriv c r1) (ReStar r1)
  end.

(** Whether the whole of [l] is a word of [r]. *)
Fixpoint accepts (r : Re) (l : list Z) : bool :=
  match l with
  | [] => nullable r
  | c :: l' => accepts (deriv c r) l'
  end.

(** [/^r$/.test(s)] *)
Definition test (r : Re) (s : string) : bool := accepts r (units s).

Definition lit (c : Z) : Re := ReClass (Z.eqb c).

(** [[^\s@]] *)
Definition not_space_at (u : Z) : bool :=
  negb (is_space u) && negb (u =? 64).

(** [/^[^\s@]+@[^\s@]+\.[^\s@]+$/] *)
Definition emailRegex : Re :=
  ReSeq (RePlus (ReClass not_space_at))
    (ReSeq (lit 64)
       (ReSeq (RePlus (ReClass not_space_at))
          (ReSeq (lit 46) (RePlus (ReClass not_space_at))))).

End Js.
Export Js.

(* ================================================================== *)
(** ** Paths and the upload directory tree ([path], [fs]) *)

Module Fs.

(** An absolute path is the list of its segments below the root. *)
Definition Path := list string.

Inductive Node := File | Dir.

(** The part of the file system the handlers touch. *)
Definition Tree := list (Path * Node).

Fixpoint split_from (acc : string) (s : string) : list string :=
  match s with
  | EmptyString => [acc]
  | String c r =>
      if Ascii.eqb c "/"
      then acc :: split_from "" r
      else split_from (acc ++ String c "") r
  end.

(** [s.split('/')] *)
Definition split_slash (s : string) : list string := split_from "" s.

(** [path.normalize] on the segments of an absolute path: empty and
    [.] segments vanish, [..] drops the segment before it and stops at
    the root. *)
Fixpoint resolve (done : list string) (todo : list string) : Path :=
  match todo with
  | [] => rev done
  | seg :: rest =>
      if String.eqb seg "" || String.eqb seg "." then resolve done rest
      else if String.eqb seg ".."
           then resolve (tl done) rest
           else resolve (seg :: done) rest
  end.

Definition ends_with_slash (s : string) : bool :=
  match rev (split_slash s) with
  | last :: _ :: _ => String.eqb last ""
  | _ => false
  end.

(** [path.join(dir, '..', '..', 'frontend', url)] for an absolute
    [dir]: the segments, and whether the result keeps a trailing
    slash. *)
Definition join_frontend (dir : Path) (url : string) : Path * bool :=
  (resolve (rev dir) ([".."; ".."; "frontend"] ++ split_slash url),
   ends_with_slash url).

Definition path_eqb (p q : Path) : bool :=
  if list_eq_dec string_dec p q then true else false.

Definition lookup (t : Tree) (p : Path) : option Node :=
  match find (fun e => path_eqb (fst e) p) t with
  | Some e => Some (snd e)
  | None => None
  end.

(** [fs.existsSync]: a path with a trailing slash names a directory. *)
Definition existsSync (t : Tree) (p : Path * bool) : bool :=
  match lookup t (fst p) with
  | Some File => negb (snd p)
  | Some Dir => true
  | None => false
  end.

(** [fs.unlinkSync] on a path that exists: a file is removed, a
    directory makes it throw ([None]). *)
Definition unlinkSync (t : Tree) (p : Path * bool) : option Tree :=
  match lookup t (fst p) with
  | Some File => Some (filter (fun e => negb (path_eqb (fst e) (fst p))) t)
  | _ => None
  end.

(** [p] lies strictly below the directory [root]. *)
Fixpoint below (root p : Path) : bool :=
  match root, p with
  | [], _ :: _ => true
  | r :: root', s :: p' => String.eqb r s && below root' p'
  | _, _ => false
  end.

End Fs.


(* ================================================================== *)
(** ** The persistence layer ([models/database.js]) *)

Module Db.

(** A table: its rows in rowid order, and the AUTOINCREMENT counter
    (the largest id handed out so far). *)
Record Table (R : Type) : Type := mkTable { rows : list R; seq : Z }.
Arguments mkTable {R} rows seq.
Arguments rows {R} t.
Arguments seq {R} t.

(** The [id INTEGER PRIMARY KEY AUTOINCREMENT] column of a row type. *)
Class Keyed (R : Type) := key : R -> Z.

Section Statements.
Context {R : Type} `{Keyed R}.

Definition max_key (l : list R) : Z :=
  fold_right (fun r m => Z.max (key r) m) 0 l.

(** The id of the next inserted row: one more than the counter and than
    every id in the table. *)
Definition next_id (t : Table R) : Z :=
  Z.max (seq t) (max_key (rows t)) + 1.

(** [INSERT]: the new table and [lastInsertRowid]. *)
Definition insert (mk : Z -> R) (t : Table R) : Table R * Z :=
  let i := next_id t in
  (mkTable (rows t ++ [mk i]) i, i).

(** What [run] of the helper reports as [lastInsertRowid].  It asks
    for [last_insert_rowid()] after [saveDatabase()], and the
    [db.export()] in there has closed and reopened the database: the
    answer is that of a connection which has inserted nothing. *)
Definition lastInsertRowid : Z := 0.

(** [db.get]: the first row the statement yields, or null. *)
Definition get (where_ : R -> bool) (t : Table R) : option R :=
  find where_ (rows t).

(** [db.all] without ORDER BY. *)
Definition all (where_ : R -> bool) (t : Table R) : list R :=
  filter where_ (rows t).

(** [UPDATE ... SET ... WHERE]. *)
Definition update (where_ : R -> bool) (set : R -> R) (t : Table R) : Table R :=
  mkTable (map (fun r => if where_ r then set r else r) (rows t)) (seq t).

(** [UPDATE] whose SET may break a NOT NULL constraint: [set] yields
    [None] for a row it cannot store, the statement then throws and
    changes nothing. *)
Fixpoint update_rows (where_ : R -> bool) (set : R -> option R)
    (l : list R) : option (list R) :=
  match l with
  | [] => Some []
  | r :: l' =>
      match (if where_ r then set r else Some r), update_rows where_ set l' with
      | Some r', Some l'' => Some (r' :: l'')
      | _, _ => None
      end
  end.

Definition update_checked (where_ : R -> bool) (set : R -> option R)
    (t : Table R) : option (Table R) :=
  match update_rows where_ set (rows t) with
  | Some l => Some (mkTable l (seq t))
  | None => None
  end.

(** [DELETE FROM ... WHERE]. *)
Definition delete (where_ : R -> bool) (t : Table R) : Table R :=
  mkTable (filter (fun r => negb (where_ r)) (rows t)) (seq t).

(** [SELECT COUNT( * ) ... WHERE]. *)
Definition count (where_ : R -> bool) (t : Table R) : Z :=
  Z.of_nat (List.length (filter where_ (rows t))).

(** [ORDER BY]: a stable insertion sort; [le a b] says that [a] may
    stand before [b]. *)
Fixpoint place (le : R -> R -> bool) (x : R) (l : list R) : list R :=
  match l with
  | [] => [x]
  | y :: l' => if le x y then x :: l else y :: place le x l'
  end.

Definition order_by (le : R -> R -> bool) (l : list R) : list R :=
  fold_right (place le) [] l.

(** [LIMIT n]: a negative limit is no limit. *)
Definition limit (n : Z) (l : list R) : list R :=
  if n <? 0 then l else firstn (Z.to_nat n) l.

(** The parameter of [LIMIT ?] has to be a 64-bit integer: NULL (a NaN
    is bound as NULL) and a Number that is no such integer are a
    "datatype mismatch", and the statement throws ([None]). *)
Definition limit_param (n : option Z) : option Z :=
  match n with
  | Some v => if (- 2 ^ 63 <? v) && (v <? 2 ^ 63) then Some v else None
  | None => None
  end.

End Statements.

Definition desc {R} (col : R -> Z) (a b : R) : bool := col b <=? col a.

(** Ascending on a column that may hold NULL: NULL sorts first. *)
Definition asc_null {R} (col : R -> option Z) (a b : R) : bool :=
  match col a, col b with
  | None, _ => true
  | Some _, None => false
  | Some x, Some y => x <=? y
  end.

(** [col = ?]: a comparison with NULL on either side selects nothing. *)
Definition eq_text (col param : option string) : bool :=
  match col, param with
  | Some a, Some b => String.eqb a b
  | _, _ => false
  end.

Definition eq_int (col param : option Z) : bool :=
  match col, param with
  | Some a, Some b => Z.eqb a b
  | _, _ => false
  end.

(** [COALESCE(?, col)] *)
Definition coalesce {A} (param : option A) (col : A) : A :=
  match param with
  | Some v => v
  | None => col
  end.

Definition coalesce_null {A} (param col : option A) : option A :=
  match param with
  | Some v => Some v
  | None => col
  end.

(** [MAX(col)]: NULL over no rows. *)
Definition max_of {R} (col : R -> Z) (l : list R) : option Z :=
  fold_right
    (fun r m => match m with
                | Some v => Some (Z.max (col r) v)
                | None => Some (col r)
                end)
    None l.

End Db.

(** *** The tables of [createTables] *)

Module news.
Record row : Type := mk {
  id : Z;
  title : string;
  content : string;
  category : string;
  image_url : option string;
  location : option string;
  published : option Z;
  created_at : Z;
  updated_at : Z }.
#[global] Instance keyed : Db.Keyed row := id.
End news.

Module messages.
Record row : Type := mk {
  id : Z;
  name : string;
  email : string;
  phone : option string;
  subject : string;
  message : string;
  is_read : Z;
  created_at : Z }.
#[global] Instance keyed : Db.Keyed row := id.
End messages.

Module page_content.
Record row : Type := mk {
  id : Z;
  page_name : string;
  section_id : string;
  section_title : option string;
  content : string;
  content_type : string;
  display_order : Z;
  updated_at : Z }.
#[global] Instance keyed : Db.Keyed row := id.
End page_content.

Module memberships.
Record row : Type := mk {
  id : Z;
  full_name : string;
  email : string;
  phone : string;
  university : string;
  major : string;
  academic_level : string;
  wilaya : string;
  status : option string;
  created_at : Z }.
#[global] Instance keyed : Db.Keyed row := id.
End memberships.

Module hero_slides.
Record row : Type := mk {
  id : Z;
  title : option string;
  subtitle : option string;
  image_url : string;
  link_url : option string;
  link_text : option string;
  display_order : option Z;
  is_active : Z;
  created_at : Z }.
#[global] Instance keyed : Db.Keyed row := id.
End hero_slides.

Module specialties.
(** The [items] column holds text: either [JSON.stringify] of the array
    the request carried, kept here as that array, or the text the request
    carried itself. *)
Inductive items_text : Type :=
| Stringified (l : list string)
| Raw (s : string).

Record row : Type := mk {
  id : Z;
  name : string;
  name_ar : string;
  icon : option string;
  description : option string;
  image_url : option string;
  video_url : option string;
  video_type : option string;
  items : option items_text;
  duration : option string;
  display_order : option Z;
  is_active : Z;
  created_at : Z;
  updated_at : Z }.
#[global] Instance keyed : Db.Keyed row := id.
End specialties.

(** The world a request runs in: the six tables and the directory tree
    the media routes delete from. *)
Record World : Type := mkWorld {
  t_news : Db.Table news.row;
  t_messages : Db.Table messages.row;
  t_page_content : Db.Table page_content.row;
  t_memberships : Db.Table memberships.row;
  t_hero_slides : Db.Table hero_slides.row;
  t_specialties : Db.Table specialties.row;
  disk : Fs.Tree }.

Definition with_news (w : World) (t : Db.Table news.row) : World :=
  mkWorld t (t_messages w) (t_page_content w) (t_memberships w)
    (t_hero_slides w) (t_specialties w) (disk w).
Definition with_messages (w : World) (t : Db.Table messages.row) : World :=
  mkWorld (t_news w) t (t_page_content w) (t_memberships w)
    (t_hero_slides w) (t_specialties w) (disk w).
Definition with_page_content (w : World) (t : Db.Table page_content.row) : World :=
  mkWorld (t_news w) (t_messages w) t (t_memberships w)
    (t_hero_slides w) (t_specialties w) (disk w).
Definition with_memberships (w : World) (t : Db.Table memberships.row) : World :=
  mkWorld (t_news w) (t_messages w) (t_page_content w) t
    (t_hero_slides w) (t_specialties w) (disk w).
Definition with_hero_slides (w : World) (t : Db.Table hero_slides.row) : World :=
  mkWorld (t_news w) (t_messages w) (t_page_content w) (t_memberships w)
    t (t_specialties w) (disk w).
Definition with_specialties (w : World) (t : Db.Table specialties.row) : World :=
  mkWorld (t_news w) (t_messages w) (t_page_content w) (t_memberships w)
    (t_hero_slides w) t (disk w).
Definition with_disk (w : World) (d : Fs.Tree) : World :=
  mkWorld (t_news w) (t_messages w) (t_page_content w) (t_memberships w)
    (t_hero_slides w) (t_specialties w) d.

(* ================================================================== *)
(** ** Requests and responses *)

(** The messages of the media routes are Arabic text; they are named
    here by what they say.  [Text] is a message given literally. *)
Inductive Msg : Type :=
| Text (s : string)
| SlidesFetchError
| ImageUrlRequired
| SlideAdded
| SlideAddError
| SlideUpdated
| SlideUpdateError
| SlideDeleted
| SlideDeleteError
| SpecialtiesFetchError
| SpecialtyNotFound
| SpecialtyNameRequired
| SpecialtyAdded
| SpecialtyUpdated
| SpecialtyUpdateError
| SpecialtyDeleted
| SpecialtyDeleteError
| FileUrlInvalid
| FileDeleted
| FileNotFound
| FileDeleteError.

(** What a response carries besides [success] and [message]. *)
Inductive Payload : Type :=
| NoData
| NewsItem (r : option news.row)
| NewsRows (l : list news.row)
| PublishedFlag (n : Z)
| MessageItem (r : messages.row)
| MessageRows (l : list messages.row)
| CountOf (n : Z)
| MembershipItem (r : memberships.row)
| MembershipRows (l : list memberships.row)
| Stats (total pending approved rejected : Z)
| SectionItem (r : option page_content.row)
| InsertedId (id : Z)
| SlideRows (l : list hero_slides.row)
| SpecialtyItem (r : specialties.row)
| SpecialtyRows (l : list specialties.row).

Record Response : Type := mkResponse {
  status : Z;
  success : bool;
  message : option Msg;
  data : Payload }.

(** [res.json({ success: true, ... })] *)
Definition ok (m : option Msg) (d : Payload) : Response :=
  mkResponse 200 true m d.

(** [res.status(201).json({ success: true, message, ... })] *)
Definition created (m : string) (d : Payload) : Response :=
  mkResponse 201 true (Some (Text m)) d.

(** [res.status(code).json({ success: false, message })] *)
Definition failure (code : Z) (m : Msg) : Response :=
  mkResponse code false (Some m) NoData.

Definition Handler : Type := World -> Response * World.

(** [req.session] *)
Record Session : Type := mkSession {
  adminId : Field Z;
  adminUsername : Field string }.

(* ================================================================== *)
(** ** [middleware/auth.js] *)

Definition logged_in (session : option Session) : bool :=
  match session with
  | Some s => truthy (adminId s)
  | None => false
  end.

Definition isAuthenticated (session : option Session) (next : Handler) : Handler :=
  fun w =>
    if logged_in session then next w
    else (failure 401 (Text "Unauthorized. Please login first."), w).

(* ================================================================== *)
(** ** [routes/news.js] *)

Module NewsRoutes.

Record Query : Type := mkQuery {
  q_category : option string;
  q_limit : option string;
  q_published : option string }.

Record Body : Type := mkBody {
  title : Field string;
  content : Field string;
  category : Field string;
  image_url : Field string;
  location : Field string;
  published : Field Z }.

Definition by_id (i : Z) (r : news.row) : bool := news.id r =? i.

(** The WHERE clause the handler of [GET /] assembles. *)
Definition where_published (q : Query) (r : news.row) : bool :=
  match q_published q with
  | Some p => Db.eq_int (news.published r) (parseInt p)
  | None => Db.eq_int (news.published r) (Some 1)
  end.

Definition where_category (q : Query) (r : news.row) : bool :=
  match q_category q with
  | Some c =>
      if truthy_val c && negb (String.eqb c "all")
      then String.eqb (news.category r) c
      else true
  | None => true
  end.

(** GET /api/news *)
Definition list (q : Query) : Handler :=
  fun w =>
    let found :=
      Db.order_by (Db.desc news.created_at)
        (Db.all (fun r => where_published q r && where_category q r)
           (t_news w)) in
    match q_limit q with
    | Some l =>
        if truthy_val l
        then match Db.limit_param (parseInt l) with
             | Some n => (ok None (NewsRows (Db.limit n found)), w)
             | None => (failure 500 (Text "Error fetching news"), w)
             end
        else (ok None (NewsRows found), w)
    | None => (ok None (NewsRows found), w)
    end.

(** GET /api/news/all *)
Definition all : Handler :=
  fun w =>
    (ok None
       (NewsRows (Db.order_by (Db.desc news.created_at)
                    (Db.all (fun _ => true) (t_news w)))), w).

(** GET /api/news/:id *)
Definition get (i : Z) : Handler :=
  fun w =>
    match Db.get (by_id i) (t_news w) with
    | None => (failure 404 (Text "News not found"), w)
    | Some r => (ok None (NewsItem (Some r)), w)
    end.

(** POST /api/news *)
Definition create (now : Z) (b : Body) : Handler :=
  fun w =>
    match or_null (title b), or_null (content b) with
    | Some t, Some c =>
        let '(tbl, _) :=
          Db.insert
            (fun i =>
               news.mk i t c
                 (or_else (category b) "news")
                 (or_null (image_url b))
                 (or_null (location b))
                 (match published b with
                  | Undefined => Some 1
                  | Null => None
                  | Given p => Some p
                  end)
                 now now)
            (t_news w) in
        let w' := with_news w tbl in
        (created "News created successfully"
           (NewsItem (Db.get (by_id Db.lastInsertRowid) (t_news w'))), w')
    | _, _ => (failure 400 (Text "Title and content are required"), w)
    end.

(** PUT /api/news/:id *)
Definition update (now : Z) (i : Z) (b : Body) : Handler :=
  fun w =>
    match Db.get (by_id i) (t_news w) with
    | None => (failure 404 (Text "News not found"), w)
    | Some _ =>
        let statement :=
          binding t <- title b;
          binding c <- content b;
          binding g <- category b;
          binding img <- image_url b;
          binding l <- location b;
          binding p <- published b;
          Some (Db.update (by_id i)
                  (fun r =>
                     news.mk (news.id r)
                       (Db.coalesce t (news.title r))
                       (Db.coalesce c (news.content r))
                       (Db.coalesce g (news.category r))
                       (Db.coalesce_null img (news.image_url r))
                       (Db.coalesce_null l (news.location r))
                       (Db.coalesce_null p (news.published r))
                       (news.created_at r) now)
                  (t_news w)) in
        match statement with
        | Some tbl =>
            let w' := with_news w tbl in
            (ok (Some (Text "News updated successfully"))
               (NewsItem (Db.get (by_id i) (t_news w'))), w')
        | None => (failure 500 (Text "Error updating news"), w)
        end
    end.

(** DELETE /api/news/:id *)
Definition delete (i : Z) : Handler :=
  fun w =>
    match Db.get (by_id i) (t_news w) with
    | None => (failure 404 (Text "News not found"), w)
    | Some _ =>
        (ok (Some (Text "News deleted successfully")) NoData,
         with_news w (Db.delete (by_id i) (t_news w)))
    end.

(** PATCH /api/news/:id/toggle-publish *)
Definition toggle_publish (now : Z) (i : Z) : Handler :=
  fun w =>
    match Db.get (by_id i) (t_news w) with
    | None => (failure 404 (Text "News not found"), w)
    | Some existing =>
        let newStatus :=
          match news.published existing with
          | Some p => if truthy_val p then 0 else 1
          | None => 1
          end in
        let set r :=
          news.mk (news.id r) (news.title r) (news.content r)
            (news.category r) (news.image_url r) (news.location r)
            (Some newStatus) (news.created_at r) now in
        (ok (Some (Text (if truthy_val newStatus then "News published"
                         else "News unpublished")))
           (PublishedFlag newStatus),
         with_news w (Db.update (by_id i) set (t_news w)))
    end.

End NewsRoutes.

(* ================================================================== *)
(** ** [routes/messages.js] *)

Module MessagesRoutes.

Record Body : Type := mkBody {
  name : Field string;
  email : Field string;
  phone : Field string;
  subject : Field string;
  message : Field string }.

Definition by_id (i : Z) (r : messages.row) : bool := messages.id r =? i.

(** POST /api/messages *)
Definition submit (now : Z) (b : Body) : Handler :=
  fun w =>
    match or_null (name b), or_null (email b),
          or_null (subject b), or_null (message b) with
    | Some n, Some e, Some s, Some m =>
        if negb (test emailRegex e)
        then (failure 400 (Text "Invalid email format"), w)
        else
          let '(tbl, _) :=
            Db.insert
              (fun i => messages.mk i n e (or_null (phone b)) s m 0 now)
              (t_messages w) in
          (created "Message sent successfully!" NoData, with_messages w tbl)
    | _, _, _, _ =>
        (failure 400
           (Text "Name, email, subject, and message are required"), w)
    end.

(** GET /api/messages *)
Definition list : Handler :=
  fun w =>
    (ok None
       (MessageRows (Db.order_by (Db.desc messages.created_at)
                       (Db.all (fun _ => true) (t_messages w)))), w).

(** GET /api/messages/unread-count *)
Definition unread_count : Handler :=
  fun w =>
    (ok None
       (CountOf (Db.count (fun r => messages.is_read r =? 0) (t_messages w))),
     w).

(** GET /api/messages/:id *)
Definition get (i : Z) : Handler :=
  fun w =>
    match Db.get (by_id i) (t_messages w) with
    | None => (failure 404 (Text "Message not found"), w)
    | Some r => (ok None (MessageItem r), w)
    end.

Definition set_read (flag : Z) (r : messages.row) : messages.row :=
  messages.mk (messages.id r) (messages.name r) (messages.email r)
    (messages.phone r) (messages.subject r) (messages.message r)
    flag (messages.created_at r).

(** PATCH /api/messages/:id/read *)
Definition mark_read (i : Z) : Handler :=
  fun w =>
    match Db.get (by_id i) (t_messages w) with
    | None => (failure 404 (Text "Message not found"), w)
    | Some _ =>
        (ok (Some (Text "Message marked as read")) NoData,
         with_messages w (Db.update (by_id i) (set_read 1) (t_messages w)))
    end.

(** PATCH /api/messages/:id/unread *)
Definition mark_unread (i : Z) : Handler :=
  fun w =>
    match Db.get (by_id i) (t_messages w) with
    | None => (failure 404 (Text "Message not found"), w)
    | Some _ =>
        (ok (Some (Text "Message marked as unread")) NoData,
         with_messages w (Db.update (by_id i) (set_read 0) (t_messages w)))
    end.

(** DELETE /api/messages/:id *)
Definition delete (i : Z) : Handler :=
  fun w =>
    match Db.get (by_id i) (t_messages w) with
    | None => (failure 404 (Text "Message not found"), w)
    | Some _ =>
        (ok (Some (Text "Message deleted successfully")) NoData,
         with_messages w (Db.delete (by_id i) (t_messages w)))
    end.

End MessagesRoutes.

(* ================================================================== *)
(** ** [routes/memberships.js] *)

Module MembershipsRoutes.

Record Body : Type := mkBody {
  full_name : Field string;
  email : Field string;
  phone : Field string;
  university : Field string;
  major : Field string;
  academic_level : Field string;
  wilaya : Field string }.

Definition by_id (i : Z) (r : memberships.row) : bool :=
  memberships.id r =? i.

Definition by_email (e : string) (r : memberships.row) : bool :=
  String.eqb (memberships.email r) e.

Definition by_status (s : string) (r : memberships.row) : bool :=
  Db.eq_text (memberships.status r) (Some s).

(** Every field of the form is there and not empty. *)
Definition complete (b : Body) : bool :=
  truthy (full_name b) && truthy (email b) && truthy (phone b)
  && truthy (university b) && truthy (major b)
  && truthy (academic_level b) && truthy (wilaya b).

(** POST /api/memberships.  The statement names no status: the column
    default ['pending'] is stored. *)
Definition submit (now : Z) (b : Body) : Handler :=
  fun w =>
    match or_null (full_name b), or_null (email b), or_null (phone b),
          or_null (university b), or_null (major b),
          or_null (academic_level b), or_null (wilaya b) with
    | Some fn, Some e, Some ph, Some un, Some mj, Some al, Some wi =>
        if negb (test emailRegex e)
        then (failure 400 (Text "Invalid email format"), w)
        else
          match Db.get (by_email e) (t_memberships w) with
          | Some _ =>
              (failure 400 (Text "This email is already registered"), w)
          | None =>
              let '(tbl, _) :=
                Db.insert
                  (fun i =>
                     memberships.mk i fn e ph un mj al wi
                       (Some "pending") now)
                  (t_memberships w) in
              (created "Membership application submitted successfully!"
                 NoData,
               with_memberships w tbl)
          end
    | _, _, _, _, _, _, _ =>
        (failure 400 (Text "All fields are required"), w)
    end.

(** GET /api/memberships *)
Definition list (q_status : option string) : Handler :=
  fun w =>
    let where_ r :=
      match q_status with
      | Some s => if truthy_val s then by_status s r else true
      | None => true
      end in
    (ok None
       (MembershipRows (Db.order_by (Db.desc memberships.created_at)
                          (Db.all where_ (t_memberships w)))), w).

(** GET /api/memberships/stats *)
Definition stats : Handler :=
  fun w =>
    (ok None
       (Stats (Db.count (fun _ => true) (t_memberships w))
          (Db.count (by_status "pending") (t_memberships w))
          (Db.count (by_status "approved") (t_memberships w))
          (Db.count (by_status "rejected") (t_memberships w))),
     w).

(** GET /api/memberships/:id *)
Definition get (i : Z) : Handler :=
  fun w =>
    match Db.get (by_id i) (t_memberships w) with
    | None => (failure 404 (Text "Application not found"), w)
    | Some r => (ok None (MembershipItem r), w)
    end.

(** [['pending', 'approved', 'rejected'].includes(status)] *)
Definition allowed_status (s : string) : bool :=
  existsb (String.eqb s) ["pending"; "approved"; "rejected"].

Definition set_status (s : string) (r : memberships.row) : memberships.row :=
  memberships.mk (memberships.id r) (memberships.full_name r)
    (memberships.email r) (memberships.phone r) (memberships.university r)
    (memberships.major r) (memberships.academic_level r)
    (memberships.wilaya r) (Some s) (memberships.created_at r).

(** PATCH /api/memberships/:id/status *)
Definition update_status (i : Z) (st : Field string) : Handler :=
  fun w =>
    match or_null st with
    | Some s =>
        if negb (allowed_status s)
        then (failure 400 (Text "Invalid status"), w)
        else
          match Db.get (by_id i) (t_memberships w) with
          | None => (failure 404 (Text "Application not found"), w)
          | Some _ =>
              (ok (Some (Text ("Membership " ++ s ++ " successfully")))
                 NoData,
               with_memberships w
                 (Db.update (by_id i) (set_status s) (t_memberships w)))
          end
    | None => (failure 400 (Text "Invalid status"), w)
    end.

(** DELETE /api/memberships/:id *)
Definition delete (i : Z) : Handler :=
  fun w =>
    match Db.get (by_id i) (t_memberships w) with
    | None => (failure 404 (Text "Application not found"), w)
    | Some _ =>
        (ok (Some (Text "Application deleted successfully")) NoData,
         with_memberships w (Db.delete (by_id i) (t_memberships w)))
    end.

End MembershipsRoutes.

(* ================================================================== *)
(** ** [routes/pages.js] *)

Module PagesRoutes.

(** An element of the [sections] array of a bulk update. *)
Record Section : Type := mkSection {
  s_section_id : Field string;
  s_content : Field string;
  s_section_title : Field string }.

Record Body : Type := mkBody {
  section_id : Field string;
  section_title : Field string;
  content : Field string;
  content_type : Field string;
  display_order : Field Z }.

Definition by_page (pageName : string) (r : page_content.row) : bool :=
  String.eqb (page_content.page_name r) pageName.

(** [WHERE page_name = ? AND section_id = ?] *)
Definition by_section (pageName : string) (sectionId : option string)
    (r : page_content.row) : bool :=
  by_page pageName r
  && Db.eq_text (Some (page_content.section_id r)) sectionId.

(** The SET clause one element of a bulk update runs: [content]
    always, [section_title] when the element has one.  [content] is NOT
    NULL: a row that would get NULL makes the statement throw. *)
Definition bulk_set (now : Z) (c : option string) (title : Field string)
    (r : page_content.row) : option page_content.row :=
  match c with
  | Some c =>
      Some (page_content.mk (page_content.id r) (page_content.page_name r)
              (page_content.section_id r)
              (match title with
               | Undefined => page_content.section_title r
               | Null => None
               | Given x => Some x
               end)
              c (page_content.content_type r)
              (page_content.display_order r) now)
  | None => None
  end.

(** The [db.run] of one element: [None] when it throws, on a [content]
    or a [section_id] that is [undefined] or on the constraint. *)
Definition bulk_statement (now : Z) (pageName : string) (s : Section)
    (t : Db.Table page_content.row) : option (Db.Table page_content.row) :=
  binding c <- s_content s;
  binding sid <- s_section_id s;
  Db.update_checked (by_section pageName sid)
    (bulk_set now c (s_section_title s)) t.

(** The [for ... of] loop: the table after the statements that ran, and
    whether every statement ran. *)
Fixpoint bulk_loop (now : Z) (pageName : string) (sections : list Section)
    (t : Db.Table page_content.row) : Db.Table page_content.row * bool :=
  match sections with
  | [] => (t, true)
  | s :: rest =>
      match bulk_statement now pageName s t with
      | Some t' => bulk_loop now pageName rest t'
      | None => (t, false)
      end
  end.

Definition uint_text (n : nat) : string :=
  DecimalString.NilZero.string_of_uint (Nat.to_uint n).

(** PUT /api/pages/:pageName/bulk *)
Definition bulk_update (now : Z) (pageName : string)
    (sections : Field (list Section)) : Handler :=
  fun w =>
    match or_null sections with
    | None => (failure 400 (Text "sections array is required"), w)
    | Some l =>
        let '(t, done) := bulk_loop now pageName l (t_page_content w) in
        if done
        then (ok (Some (Text ("Updated " ++ uint_text (List.length l)
                              ++ " sections successfully"))) NoData,
              with_page_content w t)
        else (failure 500 (Text "Error updating sections"),
              with_page_content w t)
    end.

(** GET /api/pages/:pageName/:sectionId *)
Definition get_section (pageName sectionId : string) : Handler :=
  fun w =>
    match Db.get (by_section pageName (Some sectionId)) (t_page_content w) with
    | None => (failure 404 (Text "Section not found"), w)
    | Some r => (ok None (SectionItem (Some r)), w)
    end.

(** PUT /api/pages/:pageName/:sectionId *)
Definition update_section (now : Z) (pageName sectionId : string) (b : Body)
    : Handler :=
  fun w =>
    match Db.get (by_section pageName (Some sectionId)) (t_page_content w) with
    | None => (failure 404 (Text "Section not found"), w)
    | Some _ =>
        let statement :=
          binding ti <- section_title b;
          binding c <- content b;
          binding ty <- content_type b;
          Some (Db.update (by_section pageName (Some sectionId))
                  (fun r =>
                     page_content.mk (page_content.id r)
                       (page_content.page_name r)
                       (page_content.section_id r)
                       (Db.coalesce_null ti (page_content.section_title r))
                       (Db.coalesce c (page_content.content r))
                       (Db.coalesce ty (page_content.content_type r))
                       (page_content.display_order r) now)
                  (t_page_content w)) in
        match statement with
        | Some tbl =>
            let w' := with_page_content w tbl in
            (ok (Some (Text "Section updated successfully"))
               (SectionItem
                  (Db.get (by_section pageName (Some sectionId))
                     (t_page_content w'))), w')
        | None => (failure 500 (Text "Error updating section"), w)
        end
    end.

(** [(maxOrder?.max_order || 0) + 1] *)
Definition next_order (pageName : string) (t : Db.Table page_content.row) : Z :=
  match Db.max_of page_content.display_order (Db.all (by_page pageName) t) with
  | Some m => (if truthy_val m then m else 0) + 1
  | None => 0 + 1
  end.

(** POST /api/pages/:pageName *)
Definition create_section (now : Z) (pageName : string) (b : Body) : Handler :=
  fun w =>
    match or_null (section_id b), or_null (content b) with
    | Some sid, Some c =>
        match Db.get (by_section pageName (Some sid)) (t_page_content w) with
        | Some _ => (failure 400 (Text "Section already exists"), w)
        | None =>
            let order :=
              match or_null (display_order b) with
              | Some d => d
              | None => next_order pageName (t_page_content w)
              end in
            let '(tbl, _) :=
              Db.insert
                (fun i =>
                   page_content.mk i pageName sid
                     (Some (or_else (section_title b) ""))
                     c (or_else (content_type b) "text") order now)
                (t_page_content w) in
            let w' := with_page_content w tbl in
            (created "Section created successfully"
               (SectionItem
                  (Db.get (by_section pageName (Some sid))
                     (t_page_content w'))), w')
        end
    | _, _ => (failure 400 (Text "section_id and content are required"), w)
    end.

(** DELETE /api/pages/:pageName/:sectionId *)
Definition delete_section (pageName sectionId : string) : Handler :=
  fun w =>
    match Db.get (by_section pageName (Some sectionId)) (t_page_content w) with
    | None => (failure 404 (Text "Section not found"), w)
    | Some _ =>
        (ok (Some (Text "Section deleted successfully")) NoData,
         with_page_content w
           (Db.delete (by_section pageName (Some sectionId))
              (t_page_content w)))
    end.

End PagesRoutes.

(* ================================================================== *)
(** ** [routes/media.js]: hero slides, specialties, uploaded files *)

Module MediaRoutes.

Record SlideBody : Type := mkSlideBody {
  title : Field string;
  subtitle : Field string;
  image_url : Field string;
  link_url : Field string;
  link_text : Field string;
  display_order : Field Z;
  is_active : Field Z }.

(** The [items] of a request: an array, or text already serialised. *)
Inductive ItemsValue : Type :=
| ItemsArray (l : list string)
| ItemsString (s : string).

#[global] Instance Truthy_items : Truthy specialties.items_text :=
  fun v =>
    match v with
    | specialties.Stringified _ => true
    | specialties.Raw s => truthy_val s
    end.

Record SpecialtyBody : Type := mkSpecialtyBody {
  name : Field string;
  name_ar : Field string;
  icon : Field string;
  description : Field string;
  sp_image_url : Field string;
  video_url : Field string;
  video_type : Field string;
  items : Field ItemsValue;
  duration : Field string;
  sp_display_order : Field Z;
  sp_is_active : Field Z }.

(** [Array.isArray(items) ? JSON.stringify(items) : items] *)
Definition itemsJson (f : Field ItemsValue) : Field specialties.items_text :=
  match f with
  | Given (ItemsArray l) => Given (specialties.Stringified l)
  | Given (ItemsString s) => Given (specialties.Raw s)
  | Null => Null
  | Undefined => Undefined
  end.

(** The default icon, the four UTF-8 bytes of U+1F4DA. *)
Definition books_icon : string :=
  String "240" (String "159" (String "147" (String "154" ""))).

(** [flag ? 1 : 0] *)
Definition flag (f : Field Z) : Z := if truthy f then 1 else 0.

Definition slide_by_id (i : Z) (r : hero_slides.row) : bool :=
  hero_slides.id r =? i.

Definition specialty_by_id (i : Z) (r : specialties.row) : bool :=
  specialties.id r =? i.

Section Routes.

(** [__dirname] of the routes module, an absolute normalised path. *)
Variable dirname : Fs.Path.

(** [uploadsDir] *)
Definition uploadsDir : Fs.Path :=
  Fs.resolve (rev dirname) [".."; ".."; "frontend"; "assets"; "uploads"].

(** The image of a deleted slide or specialty goes with it when it is a
    local upload: [None] when [fs.unlinkSync] throws. *)
Definition remove_image (url : option string) (d : Fs.Tree) : option Fs.Tree :=
  match url with
  | Some u =>
      if truthy_val u && startsWith u "/assets/uploads/"
      then
        let imagePath := Fs.join_frontend dirname u in
        if Fs.existsSync d imagePath then Fs.unlinkSync d imagePath
        else Some d
      else Some d
  | None => Some d
  end.

(** GET /api/media/hero *)
Definition hero_list : Handler :=
  fun w =>
    (ok None
       (SlideRows
          (Db.order_by (Db.asc_null hero_slides.display_order)
             (Db.all (fun r => hero_slides.is_active r =? 1)
                (t_hero_slides w)))), w).

(** GET /api/media/hero/all *)
Definition hero_all : Handler :=
  fun w =>
    (ok None
       (SlideRows
          (Db.order_by (Db.asc_null hero_slides.display_order)
             (Db.all (fun _ => true) (t_hero_slides w)))), w).

(** POST /api/media/hero *)
Definition hero_create (now : Z) (b : SlideBody) : Handler :=
  fun w =>
    match or_null (image_url b) with
    | None => (failure 400 ImageUrlRequired, w)
    | Some img =>
        let '(tbl, _) :=
          Db.insert
            (fun i =>
               hero_slides.mk i
                 (Some (or_else (title b) ""))
                 (Some (or_else (subtitle b) ""))
                 img
                 (Some (or_else (link_url b) ""))
                 (Some (or_else (link_text b) ""))
                 (Some (or_else (display_order b) 0))
                 1 now)
            (t_hero_slides w) in
        (ok (Some SlideAdded) (InsertedId Db.lastInsertRowid),
         with_hero_slides w tbl)
    end.

(** PUT /api/media/hero/:id *)
Definition hero_update (i : Z) (b : SlideBody) : Handler :=
  fun w =>
    let statement :=
      binding t <- title b;
      binding st <- subtitle b;
      binding img <- image_url b;
      binding lu <- link_url b;
      binding lt <- link_text b;
      binding d <- display_order b;
      Db.update_checked (slide_by_id i)
        (fun r =>
           match img with
           | Some img =>
               Some (hero_slides.mk (hero_slides.id r) t st img lu lt d
                       (flag (is_active b)) (hero_slides.created_at r))
           | None => None
           end)
        (t_hero_slides w) in
    match statement with
    | Some tbl => (ok (Some SlideUpdated) NoData, with_hero_slides w tbl)
    | None => (failure 500 SlideUpdateError, w)
    end.

(** DELETE /api/media/hero/:id *)
Definition hero_delete (i : Z) : Handler :=
  fun w =>
    let slide := Db.get (slide_by_id i) (t_hero_slides w) in
    let w' := with_hero_slides w (Db.delete (slide_by_id i) (t_hero_slides w)) in
    match slide with
    | Some s =>
        match remove_image (Some (hero_slides.image_url s)) (disk w') with
        | Some d => (ok (Some SlideDeleted) NoData, with_disk w' d)
        | None => (failure 500 SlideDeleteError, w')
        end
    | None => (ok (Some SlideDeleted) NoData, w')
    end.

(** POST /api/media/specialties *)
Definition specialty_create (now : Z) (b : SpecialtyBody) : Handler :=
  fun w =>
    match or_null (name b), or_null (name_ar b) with
    | Some n, Some n_ar =>
        let '(tbl, _) :=
          Db.insert
            (fun i =>
               specialties.mk i n n_ar
                 (Some (or_else (icon b) books_icon))
                 (Some (or_else (description b) ""))
                 (Some (or_else (sp_image_url b) ""))
                 (Some (or_else (video_url b) ""))
                 (Some (or_else (video_type b) "youtube"))
                 (Some (or_else (itemsJson (items b))
                          (specialties.Stringified [])))
                 (Some (or_else (duration b) ""))
                 (Some (or_else (sp_display_order b) 0))
                 1 now now)
            (t_specialties w) in
        (ok (Some SpecialtyAdded) (InsertedId Db.lastInsertRowid),
         with_specialties w tbl)
    | _, _ => (failure 400 SpecialtyNameRequired, w)
    end.

(** PUT /api/media/specialties/:id *)
Definition specialty_update (now : Z) (i : Z) (b : SpecialtyBody) : Handler :=
  fun w =>
    let statement :=
      binding n <- name b;
      binding n_ar <- name_ar b;
      binding ic <- icon b;
      binding de <- description b;
      binding img <- sp_image_url b;
      binding vu <- video_url b;
      binding vt <- video_type b;
      binding it <- itemsJson (items b);
      binding du <- duration b;
      binding d <- sp_display_order b;
      Db.update_checked (specialty_by_id i)
        (fun r =>
           match n, n_ar with
           | Some n, Some n_ar =>
               Some (specialties.mk (specialties.id r) n n_ar ic de img vu vt
                       it du d (flag (sp_is_active b))
                       (specialties.created_at r) now)
           | _, _ => None
           end)
        (t_specialties w) in
    match statement with
    | Some tbl => (ok (Some SpecialtyUpdated) NoData, with_specialties w tbl)
    | None => (failure 500 SpecialtyUpdateError, w)
    end.

(** DELETE /api/media/specialties/:id *)
Definition specialty_delete (i : Z) : Handler :=
  fun w =>
    let specialty := Db.get (specialty_by_id i) (t_specialties w) in
    let w' :=
      with_specialties w (Db.delete (specialty_by_id i) (t_specialties w)) in
    match specialty with
    | Some s =>
        match remove_image (specialties.image_url s) (disk w') with
        | Some d => (ok (Some SpecialtyDeleted) NoData, with_disk w' d)
        | None => (failure 500 SpecialtyDeleteError, w')
        end
    | None => (ok (Some SpecialtyDeleted) NoData, w')
    end.

(** DELETE /api/media/upload *)
Definition delete_upload (url : Field string) : Handler :=
  fun w =>
    match or_null url with
    | Some u =>
        if negb (startsWith u "/assets/uploads/")
        then (failure 400 FileUrlInvalid, w)
        else
          let filePath := Fs.join_frontend dirname u in
          if Fs.existsSync (disk w) filePath
          then match Fs.unlinkSync (disk w) filePath with
               | Some d => (ok (Some FileDeleted) NoData, with_disk w d)
               | None => (failure 500 FileDeleteError, w)
               end
          else (failure 404 FileNotFound, w)
    | None => (failure 400 FileUrlInvalid, w)
    end.

End Routes.

End MediaRoutes.

(* ================================================================== *)
(** ** The router ([server.js] and the [router.METHOD] calls) *)

(** One constructor per route, with the parameters the handler reads.
    A [:id] is the number the store compares it with.  Express tries the
    routes in the order they are registered, so a PUT on
    [/api/pages/:pageName/bulk] is a [PutPageBulk], never a
    [PutSection]. *)
Inductive Request : Type :=
| GetNews (q : NewsRoutes.Query)
| GetNewsAll
| GetNewsById (id : Z)
| PostNews (b : NewsRoutes.Body)
| PutNews (id : Z) (b : NewsRoutes.Body)
| DeleteNews (id : Z)
| PatchNewsTogglePublish (id : Z)
| PostMessage (b : MessagesRoutes.Body)
| GetMessages
| GetMessagesUnreadCount
| GetMessage (id : Z)
| PatchMessageRead (id : Z)
| PatchMessageUnread (id : Z)
| DeleteMessage (id : Z)
| PostMembership (b : MembershipsRoutes.Body)
| GetMemberships (status : option string)
| GetMembershipsStats
| GetMembership (id : Z)
| PatchMembershipStatus (id : Z) (status : Field string)
| DeleteMembership (id : Z)
| PutPageBulk (pageName : string) (sections : Field (list PagesRoutes.Section))
| GetSection (pageName sectionId : string)
| PutSection (pageName sectionId : string) (b : PagesRoutes.Body)
| PostSection (pageName : string) (b : PagesRoutes.Body)
| DeleteSection (pageName sectionId : string)
| GetHero
| GetHeroAll
| PostHero (b : MediaRoutes.SlideBody)
| PutHero (id : Z) (b : MediaRoutes.SlideBody)
| DeleteHero (id : Z)
| PostSpecialty (b : MediaRoutes.SpecialtyBody)
| PutSpecialty (id : Z) (b : MediaRoutes.SpecialtyBody)
| DeleteSpecialty (id : Z)
| DeleteUpload (url : Field string).

(** The middleware chain of each route, as registered: whether
    [isAuthenticated] stands before the handler, and the handler. *)
Definition route (dirname : Fs.Path) (now : Z) (req : Request)
    : bool * Handler :=
  match req with
  | GetNews q => (false, NewsRoutes.list q)
  | GetNewsAll => (true, NewsRoutes.all)
  | GetNewsById i => (false, NewsRoutes.get i)
  | PostNews b => (true, NewsRoutes.create now b)
  | PutNews i b => (true, NewsRoutes.update now i b)
  | DeleteNews i => (true, NewsRoutes.delete i)
  | PatchNewsTogglePublish i => (true, NewsRoutes.toggle_publish now i)
  | PostMessage b => (false, MessagesRoutes.submit now b)
  | GetMessages => (true, MessagesRoutes.list)
  | GetMessagesUnreadCount => (true, MessagesRoutes.unread_count)
  | GetMessage i => (true, MessagesRoutes.get i)
  | PatchMessageRead i => (true, MessagesRoutes.mark_read i)
  | PatchMessageUnread i => (true, MessagesRoutes.mark_unread i)
  | DeleteMessage i => (true, MessagesRoutes.delete i)
  | PostMembership b => (false, MembershipsRoutes.submit now b)
  | GetMemberships s => (true, MembershipsRoutes.list s)
  | GetMembershipsStats => (true, MembershipsRoutes.stats)
  | GetMembership i => (true, MembershipsRoutes.get i)
  | PatchMembershipStatus i s => (true, MembershipsRoutes.update_status i s)
  | DeleteMembership i => (true, MembershipsRoutes.delete i)
  | PutPageBulk p l => (true, PagesRoutes.bulk_update now p l)
  | GetSection p s => (false, PagesRoutes.get_section p s)
  | PutSection p s b => (true, PagesRoutes.update_section now p s b)
  | PostSection p b => (true, PagesRoutes.create_section now p b)
  | DeleteSection p s => (true, PagesRoutes.delete_section p s)
  | GetHero => (false, MediaRoutes.hero_list)
  | GetHeroAll => (true, MediaRoutes.hero_all)
  | PostHero b => (true, MediaRoutes.hero_create now b)
  | PutHero i b => (true, MediaRoutes.hero_update i b)
  | DeleteHero i => (true, MediaRoutes.hero_delete dirname i)
  | PostSpecialty b => (true, MediaRoutes.specialty_create now b)
  | PutSpecialty i b => (true, MediaRoutes.specialty_update now i b)
  | DeleteSpecialty i => (true, MediaRoutes.specialty_delete dirname i)
  | DeleteUpload u => (true, MediaRoutes.delete_upload dirname u)
  end.

Definition handle (dirname : Fs.Path) (now : Z) (session : option Session)
    (req : Request) : Handler :=
  let '(guarded, handler) := route dirname now req in
  if guarded then isAuthenticated session handler else handler.

(** The routes the interface table of the specification marks as needing
    a session. *)
Definition admin_only (req : Request) : bool :=
  match req with
  | GetNews _ | GetNewsById _ => false
  | PostMessage _ => false
  | PostMembership _ => false
  | GetSection _ _ => false
  | GetHero => false
  | _ => true
  end.

(** One request served. *)
Inductive step (dirname : Fs.Path) : World -> World -> Prop :=
| served now session req w :
    step dirname w (snd (handle dirname now session req w)).

(** The worlds the server can be in: it boots with no membership
    application, then serves requests. *)
Inductive reachable (dirname : Fs.Path) : World -> Prop :=
| booted w :
    Db.rows (t_memberships w) = [] -> reachable dirname w
| after w w' :
    reachable dirname w -> step dirname w w' -> reachable dirname w'.

(* ================================================================== *)
(** ** What the claims speak of *)

(** What [GET /api/news] answers before LIMIT is applied. *)
Definition unlimited (q : NewsRoutes.Query) (w : World) : list news.row :=
  Db.order_by (Db.desc news.created_at)
    (Db.all (fun r => NewsRoutes.where_published q r
                      && NewsRoutes.where_category q r) (t_news w)).

(** The status of an application is one of the three the data model
    names. *)
Definition known_status (r : memberships.row) : Prop :=
  memberships.status r = Some "pending"
  \/ memberships.status r = Some "approved"
  \/ memberships.status r = Some "rejected".

(** A well-formed element of a bulk update carries a section id and a
    content, both text. *)
Definition well_formed (s : PagesRoutes.Section) : bool :=
  match PagesRoutes.s_section_id s, PagesRoutes.s_content s with
  | Given _, Given _ => true
  | _, _ => false
  end.

(** What the specification has one element of a bulk update do, written
    out on the rows: the section of the page under the element's id
    gets the element's content, its title when it carries one ([null]
    empties the title) and the time of the update; every other row
    stays as it is, and so does the table when no row is that
    section. *)
Definition apply_section (now : Z) (pageName : string)
    (s : PagesRoutes.Section) (t : Db.Table page_content.row)
    : Db.Table page_content.row :=
  match PagesRoutes.s_section_id s, PagesRoutes.s_content s with
  | Given sid, Given c =>
      Db.mkTable
        (map (fun r =>
                if String.eqb (page_content.page_name r) pageName
                   && String.eqb (page_content.section_id r) sid
                then page_content.mk (page_content.id r)
                       (page_content.page_name r)
                       (page_content.section_id r)
                       (match PagesRoutes.s_section_title s with
                        | Undefined => page_content.section_title r
                        | Null => None
                        | Given x => Some x
                        end)
                       c (page_content.content_type r)
                       (page_content.display_order r) now
                else r)
           (Db.rows t))
        (Db.seq t)
  | _, _ => t
  end.

(** An element of a bulk update whose statement throws on the table
    [t]: its content or its section id is left out, or its content is
    [null] and the page has its section. *)
Definition cannot_run (pageName : string) (s : PagesRoutes.Section)
    (t : Db.Table page_content.row) : Prop :=
  PagesRoutes.s_content s = Undefined
  \/ PagesRoutes.s_section_id s = Undefined
  \/ (PagesRoutes.s_content s = Null
      /\ exists r, In r (Db.rows t)
                   /\ page_content.page_name r = pageName
                   /\ PagesRoutes.s_section_id s
                      = Given (page_content.section_id r)).

(** A field of a partial update: a value replaces the stored one, and
    without a value the stored one stays. *)
Definition kept_or_set {A : Type} (f : Field A) (old new : A) : Prop :=
  match f with
  | Given v => new = v
  | _ => new = old
  end.

(** [new] is what a partial update with body [b] makes of [old]. *)
Definition patched (now : Z) (b : PagesRoutes.Body)
    (old new : page_content.row) : Prop :=
  page_content.id new = page_content.id old
  /\ page_content.page_name new = page_content.page_name old
  /\ page_content.section_id new = page_content.section_id old
  /\ page_content.display_order new = page_content.display_order old
  /\ page_content.updated_at new = now
  /\ match PagesRoutes.section_title b with
     | Given v => page_content.section_title new = Some v
     | _ => page_content.section_title new = page_content.section_title old
     end
  /\ kept_or_set (PagesRoutes.content b)
       (page_content.content old) (page_content.content new)
  /\ kept_or_set (PagesRoutes.content_type b)
       (page_content.content_type old) (page_content.content_type new).

(** No field of the body is left out: each carries a value or [null]. *)
Definition all_given (b : PagesRoutes.Body) : Prop :=
  PagesRoutes.section_title b <> Undefined
  /\ PagesRoutes.content b <> Undefined
  /\ PagesRoutes.content_type b <> Undefined.

(** The body of a slide update carries each field the statement binds
    as it comes ([is_active] goes through [? 1 : 0]). *)
Definition slide_complete (b : MediaRoutes.SlideBody) : bool :=
  defined (MediaRoutes.title b) && defined (MediaRoutes.subtitle b)
  && defined (MediaRoutes.image_url b) && defined (MediaRoutes.link_url b)
  && defined (MediaRoutes.link_text b)
  && defined (MediaRoutes.display_order b).

Definition specialty_complete (b : MediaRoutes.SpecialtyBody) : bool :=
  defined (MediaRoutes.name b) && defined (MediaRoutes.name_ar b)
  && defined (MediaRoutes.icon b) && defined (MediaRoutes.description b)
  && defined (MediaRoutes.sp_image_url b) && defined (MediaRoutes.video_url b)
  && defined (MediaRoutes.video_type b) && defined (MediaRoutes.items b)
  && defined (MediaRoutes.duration b)
  && defined (MediaRoutes.sp_display_order b).

(** The sections of a page. *)
Definition sections_of (pageName : string) (w : World)
    : list page_content.row :=
  Db.all (PagesRoutes.by_page pageName) (t_page_content w).

(** [m] is the largest display order among the rows [l]. *)
Definition is_max_order (m : Z) (l : list page_content.row) : Prop :=
  (exists r, In r l /\ page_content.display_order r = m)
  /\ (forall r, In r l -> page_content.display_order r <= m).

(* ================================================================== *)
(** ** Sample worlds and requests *)

Module Sample.

Definition empty {R : Type} : Db.Table R := Db.mkTable [] 0.

(** A freshly created database without seed rows, and an empty disk. *)
Definition blank : World :=
  mkWorld empty empty empty empty empty empty [].

Definition dirname : Fs.Path := ["srv"; "union-website"; "backend"; "routes"].

Definition admin : option Session :=
  Some (mkSession (Given 1) (Given "admin")).

Definition article : NewsRoutes.Body :=
  NewsRoutes.mkBody (Given "Welcome day") (Given "Saturday at ten")
    Undefined Undefined Undefined Undefined.

(** An article an administrator has not published. *)
Definition draft : news.row :=
  news.mk 1 "Budget vote" "Not to be announced yet" "news" None None
    (Some 0) 100 100.

Definition newsroom : World :=
  with_news blank (Db.mkTable [draft] 1).

(** [GET /api/news?published=0] *)
Definition ask_unpublished : NewsRoutes.Query :=
  NewsRoutes.mkQuery None None (Some "0").

Definition applicant : MembershipsRoutes.Body :=
  MembershipsRoutes.mkBody (Given "Aicha Sy") (Given "aicha@example.org")
    (Given "0550000000") (Given "USTHB") (Given "Physics") (Given "L3")
    (Given "Nouakchott").

(** Another person's form with the same address. *)
Definition impostor : MembershipsRoutes.Body :=
  MembershipsRoutes.mkBody (Given "Someone Else") (Given "aicha@example.org")
    (Given "0660000000") (Given "ENP") (Given "Chemistry") (Given "M1")
    (Given "Atar").

(** [a b@c.d] with U+2003 (an em space; its UTF-8 bytes) for the
    space, and an address whose first letter is U+00E0. *)
Definition spaced_address : string :=
  String "a" (String "226" (String "128" (String "131" "b@c.d"))).

Definition accented_address : string :=
  String "a" (String "195" (String "160" "@b.c")).

(** Two stored messages, the first unread. *)
Definition question : messages.row :=
  messages.mk 1 "Sidi" "sidi@example.org" None "Fees"
    "When are the fees due?" 0 5.

Definition greeting : messages.row :=
  messages.mk 2 "Mariem" "mariem@example.org" (Some "0660000001") "Thanks"
    "Thank you for the open day." 1 6.

Definition inbox : World :=
  with_messages blank (Db.mkTable [question; greeting] 2).

(** [{section_id: "missing_section", content: "x"}] *)
Definition missing_section : PagesRoutes.Section :=
  PagesRoutes.mkSection (Given "missing_section") (Given "x") Undefined.

(** [{section_id: "hero_title", content: "Marhaba"}] *)
Definition new_welcome : PagesRoutes.Section :=
  PagesRoutes.mkSection (Given "hero_title") (Given "Marhaba") Undefined.

Definition hero_title : page_content.row :=
  page_content.mk 1 "home" "hero_title" (Some "Hero Title") "Welcome" "text"
    1 50.

Definition home : World :=
  with_page_content blank (Db.mkTable [hero_title] 1).

(** A body that supplies [content] and nothing else. *)
Definition only_content (c : string) : PagesRoutes.Body :=
  PagesRoutes.mkBody Undefined Undefined (Given c) Undefined Undefined.

(** [{section_id: "x", content: "y", display_order: 0}] *)
Definition order_zero : PagesRoutes.Body :=
  PagesRoutes.mkBody (Given "x") Undefined (Given "y") Undefined (Given 0).

(** The site's front page and one uploaded image. *)
Definition front_page : Fs.Path :=
  ["srv"; "union-website"; "frontend"; "index.html"].

Definition upload : Fs.Path :=
  ["srv"; "union-website"; "frontend"; "assets"; "uploads"; "hero"; "a.png"].

Definition site : World :=
  with_disk blank [(front_page, Fs.File); (upload, Fs.File)].

(** The body [{}] of a slide and of a specialty. *)
Definition empty_slide : MediaRoutes.SlideBody :=
  MediaRoutes.mkSlideBody Undefined Undefined Undefined Undefined Undefined
    Undefined Undefined.

Definition empty_specialty : MediaRoutes.SpecialtyBody :=
  MediaRoutes.mkSpecialtyBody Undefined Undefined Undefined Undefined
    Undefined Undefined Undefined Undefined Undefined Undefined Undefined.

(** A slide body with every field, some of them [null]. *)
Definition full_slide : MediaRoutes.SlideBody :=
  MediaRoutes.mkSlideBody (Given "Welcome") Null (Given "/img/a.png") Null
    Null (Given 2) (Given 1).

Definition full_specialty : MediaRoutes.SpecialtyBody :=
  MediaRoutes.mkSpecialtyBody (Given "Physics") (Given "Fizya") Null Null
    Null Null Null (Given (MediaRoutes.ItemsArray [])) Null (Given 1)
    (Given 1).

(** A url that starts with the upload prefix and climbs out of it. *)
Definition climbing_url : string := "/assets/uploads/../../index.html".

End Sample.

(* ================================================================== *)
(** ** Notions for the properties of the routes as a whole *)

(** The routes registered with [router.get]. *)
Definition is_get (req : Request) : bool :=
  match req with
  | GetNews _ | GetNewsAll | GetNewsById _ => true
  | GetMessages | GetMessagesUnreadCount | GetMessage _ => true
  | GetMemberships _ | GetMembershipsStats | GetMembership _ => true
  | GetSection _ _ => true
  | GetHero | GetHeroAll => true
  | _ => false
  end.

(** The status codes of a refusal: bad input, no session, no such row. *)
Definition refused (r : Response) : Prop :=
  status r = 400 \/ status r = 401 \/ status r = 404.


(** How one request may change a table: it rewrites rows in place and
    keeps their ids, or appends one row under the next id, or removes
    rows. *)
Inductive evolves {R : Type} `{Db.Keyed R} (t t' : Db.Table R) : Prop :=
| kept :
    map Db.key (Db.rows t') = map Db.key (Db.rows t) ->
    Db.seq t' = Db.seq t -> evolves t t'
| grown (r : R) :
    Db.rows t' = (Db.rows t ++ [r])%list ->
    Db.key r = Db.next_id t ->
    Db.seq t' = Db.next_id t -> evolves t t'
| shrunk (q : R -> bool) :
    Db.rows t' = filter q (Db.rows t) ->
    Db.seq t' = Db.seq t -> evolves t t'.

(** The ids of a table are pairwise different and none is above the
    AUTOINCREMENT counter. *)
Definition keys_ok {R : Type} `{Db.Keyed R} (t : Db.Table R) : Prop :=
  NoDup (map Db.key (Db.rows t))
  /\ Forall (fun r => Db.key r <= Db.seq t) (Db.rows t).

Definition world_keys_ok (w : World) : Prop :=
  keys_ok (t_news w) /\ keys_ok (t_messages w) /\ keys_ok (t_page_content w)
  /\ keys_ok (t_memberships w) /\ keys_ok (t_hero_slides w)
  /\ keys_ok (t_specialties w).


(** A relation between a table before and after, asked of each of the
    six tables. *)
Definition every_table
    (P : forall (R : Type) (K : Db.Keyed R), Db.Table R -> Db.Table R -> Prop)
    (w w' : World) : Prop :=
  P _ _ (t_news w) (t_news w')
  /\ P _ _ (t_messages w) (t_messages w')
  /\ P _ _ (t_page_content w) (t_page_content w')
  /\ P _ _ (t_memberships w) (t_memberships w')
  /\ P _ _ (t_hero_slides w) (t_hero_slides w')
  /\ P _ _ (t_specialties w) (t_specialties w').

(** The counter has not gone down, and a row of the table after has an
    id the table had before or one above the old counter. *)
Definition no_id_reused (R : Type) (K : Db.Keyed R) (t t' : Db.Table R)
    : Prop :=
  Db.seq t <= Db.seq t'
  /\ forall r', In r' (Db.rows t') ->
                In (Db.key r') (map Db.key (Db.rows t)) \/ Db.seq t < Db.key r'.


(** The composite identity of a section. *)
Definition section_key (r : page_content.row) : string * string :=
  (page_content.page_name r, page_content.section_id r).

(** Two applications that differ at most in their status. *)
Definition same_but_status (r r' : memberships.row) : Prop :=
  memberships.id r' = memberships.id r
  /\ memberships.full_name r' = memberships.full_name r
  /\ memberships.email r' = memberships.email r
  /\ memberships.phone r' = memberships.phone r
  /\ memberships.university r' = memberships.university r
  /\ memberships.major r' = memberships.major r
  /\ memberships.academic_level r' = memberships.academic_level r
  /\ memberships.wilaya r' = memberships.wilaya r
  /\ memberships.created_at r' = memberships.created_at r.

(** Two messages that differ at most in their read flag. *)
Definition same_but_read (r r' : messages.row) : Prop :=
  messages.id r' = messages.id r
  /\ messages.name r' = messages.name r
  /\ messages.email r' = messages.email r
  /\ messages.phone r' = messages.phone r
  /\ messages.subject r' = messages.subject r
  /\ messages.message r' = messages.message r
  /\ messages.created_at r' = messages.created_at r.


(** What a row adds to a COUNT. *)
Definition hit {R : Type} (q : R -> bool) (r : R) : Z :=
  if q r then 1 else 0.

(** The number [GET /api/messages/unread-count] reports. *)
Definition unread (w : World) : Z :=
  Db.count (fun r => messages.is_read r =? 0) (t_messages w).


(** What a bulk update of [pageName] may do to a stored section: its
    id, page, section id, type and display order stay, and a section of
    another page stays as a whole. *)
Definition bulk_frame (pageName : string) (old new : page_content.row)
    : Prop :=
  page_content.id new = page_content.id old
  /\ page_content.page_name new = page_content.page_name old
  /\ page_content.section_id new = page_content.section_id old
  /\ page_content.content_type new = page_content.content_type old
  /\ page_content.display_order new = page_content.display_order old
  /\ (page_content.page_name old <> pageName -> new = old).


(* ================================================================== *)
(** ** What a regular expression matches *)

(** [matches r l]: the whole of [l] is a word of [r]. *)
Inductive matches : Re -> list Z -> Prop :=
| m_eps : matches ReEps []
| m_class p c : p c = true -> matches (ReClass p) [c]
| m_seq r1 r2 l1 l2 :
    matches r1 l1 -> matches r2 l2 -> matches (ReSeq r1 r2) (l1 ++ l2)
| m_alt_l r1 r2 l : matches r1 l -> matches (ReAlt r1 r2) l
| m_alt_r r1 r2 l : matches r2 l -> matches (ReAlt r1 r2) l
| m_star_nil r : matches (ReStar r) []
| m_star_cons r l1 l2 :
    matches r l1 -> matches (ReStar r) l2 -> matches (ReStar r) (l1 ++ l2).

(** Every character of [s] is in the class [p]. *)
Fixpoint all_chars (p : ascii -> bool) (s : string) : bool :=
  match s with
  | EmptyString => true
  | String c s' => p c && all_chars p s'
  end.

(** A non-empty run of code units other than white space and [@]. *)
Definition address_part (l : list Z) : Prop :=
  l <> [] /\ forallb not_space_at l = true.

(** The code units of [local@domain.tld]. *)
Definition address (l : list Z) : Prop :=
  exists local domain tld,
    l = (local ++ [64] ++ domain ++ [46] ++ tld)%list
    /\ address_part local /\ address_part domain /\ address_part tld.


(* ================================================================== *)
(** ** [parseVideoUrl] of [routes/media.js] *)

Module VideoUrl.

Record Info : Type := mkInfo {
  type : string;
  id : string;
  embedUrl : string }.

Definition between (lo hi : Z) (c : ascii) : bool :=
  let n := Z.of_nat (nat_of_ascii c) in (lo <=? n) && (n <=? hi).

(** [[a-zA-Z0-9_-]] *)
Definition id_char (c : ascii) : bool :=
  between 97 122 c || between 65 90 c || between 48 57 c
  || Ascii.eqb c "_" || Ascii.eqb c "-".

(** [\d] *)
Definition digit (c : ascii) : bool := between 48 57 c.

(** The rest of [s] after the literal [pre], when [s] starts with it. *)
Fixpoint strip_prefix (pre s : string) : option string :=
  match pre with
  | EmptyString => Some s
  | String a pre' =>
      match s with
      | String b s' => if Ascii.eqb a b then strip_prefix pre' s' else None
      | EmptyString => None
      end
  end.

(** [[class]{n}] at the head of [s]. *)
Fixpoint take_exact (n : nat) (p : ascii -> bool) (s : string)
    : option string :=
  match n with
  | O => Some ""
  | S n' =>
      match s with
      | String c r =>
          if p c
          then match take_exact n' p r with
               | Some t => Some (String c t)
               | None => None
               end
          else None
      | EmptyString => None
      end
  end.

(** [[class]+] at the head of [s], greedy; nothing follows it in the
    expressions below, so the longest run is the capture. *)
Fixpoint take_while (p : ascii -> bool) (s : string) : string :=
  match s with
  | String c r => if p c then String c (take_while p r) else ""
  | EmptyString => ""
  end.

Definition take_some (p : ascii -> bool) (s : string) : option string :=
  match take_while p s with
  | EmptyString => None
  | t => Some t
  end.

(** [(?:youtube\.com\/(?:watch\?v=|embed\/)|youtu\.be\/)([a-zA-Z0-9_-]{11})]
    tried at the head of [s]: the alternatives in their order. *)
Definition youtube_at (s : string) : option string :=
  let capture pre :=
    match strip_prefix pre s with
    | Some r => take_exact 11 id_char r
    | None => None
    end in
  match capture "youtube.com/watch?v=" with
  | Some v => Some v
  | None =>
      match capture "youtube.com/embed/" with
      | Some v => Some v
      | None => capture "youtu.be/"
      end
  end.

(** [(?:vimeo\.com\/)(\d+)] at the head of [s]. *)
Definition vimeo_at (s : string) : option string :=
  match strip_prefix "vimeo.com/" s with
  | Some r => take_some digit r
  | None => None
  end.

(** [(?:drive\.google\.com\/file\/d\/)([a-zA-Z0-9_-]+)] at the head of
    [s]. *)
Definition drive_at (s : string) : option string :=
  match strip_prefix "drive.google.com/file/d/" s with
  | Some r => take_some id_char r
  | None => None
  end.

(** [s.match(re)[1]]: the capture of the leftmost match. *)
Fixpoint search (at_head : string -> option string) (s : string)
    : option string :=
  match at_head s with
  | Some v => Some v
  | None =>
      match s with
      | String _ r => search at_head r
      | EmptyString => None
      end
  end.

Definition parseVideoUrl (url : string) : option Info :=
  match search youtube_at url with
  | Some v => Some (mkInfo "youtube" v ("https://www.youtube.com/embed/" ++ v))
  | None =>
      match search vimeo_at url with
      | Some v =>
          Some (mkInfo "vimeo" v ("https://player.vimeo.com/video/" ++ v))
      | None =>
          match search drive_at url with
          | Some v =>
              Some (mkInfo "drive" v
                      ("https://drive.google.com/file/d/" ++ v ++ "/preview"))
          | None => None
          end
      end
  end.

(** POST /api/media/parse-video: the status and the [data] of the
    answer. *)
Definition parse_video (url : Field string) : Z * option Info :=
  match or_null url with
  | None => (400, None)
  | Some u =>
      match parseVideoUrl u with
      | Some info => (200, Some info)
      | None => (400, None)
      end
  end.

End VideoUrl.


(** [s] holds no dot. *)
Definition no_dot (s : string) : bool :=
  all_chars (fun c => negb (Ascii.eqb c ".")) s.


(* ================================================================== *)
(** ** [routes/auth.js], [isNotAuthenticated] and [createDefaultAdmin] *)

Module admins.
Record row : Type := mk {
  id : Z;
  username : string;
  password : string;
  created_at : Z }.
#[global] Instance keyed : Db.Keyed row := id.
End admins.

Module AuthRoutes.

(** The answer of an auth route: status, [success], [message], and the
    [admin] and [authenticated] members some of them carry. *)
Record Answer : Type := mkAnswer {
  code : Z;
  succeeded : bool;
  says : option string;
  admin : option (Field Z * Field string);
  authenticated : option bool }.

Definition refuse (c : Z) (m : string) : Answer :=
  mkAnswer c false (Some m) None None.

Record Credentials : Type := mkCredentials {
  username : Field string;
  password : Field string }.

Record PasswordChange : Type := mkPasswordChange {
  currentPassword : Field string;
  newPassword : Field string }.

Definition by_username (u : string) (r : admins.row) : bool :=
  String.eqb (admins.username r) u.

(** [req.session.adminId] as a parameter. *)
Definition session_id (s : Session) : option Z :=
  match adminId s with
  | Given i => Some i
  | _ => None
  end.

Section Bcrypt.

(** [bcrypt.compareSync(password, hash)] and [bcrypt.hashSync(password,
    rounds)]; the salt [hashSync] draws is its first argument here. *)
Variable compareSync : string -> string -> bool.
Variable hashSync : string -> string -> Z -> string.

(** [createDefaultAdmin] *)
Definition createDefaultAdmin (salt : string) (now : Z)
    (t : Db.Table admins.row) : Db.Table admins.row :=
  match Db.all (by_username "admin") t with
  | [] =>
      fst (Db.insert
             (fun i => admins.mk i "admin" (hashSync salt "admin123" 10) now)
             t)
  | _ :: _ => t
  end.

(** [isNotAuthenticated] followed by the handler of POST /login: the
    answer and the session afterwards. *)
Definition login (session : option Session) (b : Credentials)
    (t : Db.Table admins.row) : Answer * option Session :=
  if logged_in session then (refuse 400 "Already logged in.", session)
  else
    match or_null (username b), or_null (password b) with
    | Some u, Some p =>
        match Db.get (by_username u) t with
        | None => (refuse 401 "Invalid username or password", session)
        | Some a =>
            if negb (compareSync p (admins.password a))
            then (refuse 401 "Invalid username or password", session)
            else
              match session with
              | Some _ =>
                  (mkAnswer 200 true (Some "Login successful")
                     (Some (Given (admins.id a), Given (admins.username a)))
                     None,
                   Some (mkSession (Given (admins.id a))
                           (Given (admins.username a))))
              | None => (refuse 500 "Server error during login", session)
              end
        end
    | _, _ => (refuse 400 "Username and password are required", session)
    end.

(** POST /logout; [store_error] is the error the session store may hand
    to the callback of [destroy]. *)
Definition logout (store_error : bool) (session : option Session)
    : Answer * option Session :=
  if logged_in session then
    if store_error then (refuse 500 "Error during logout", session)
    else (mkAnswer 200 true (Some "Logged out successfully") None None, None)
  else (refuse 401 "Unauthorized. Please login first.", session).

(** GET /check *)
Definition check (session : option Session) : Answer :=
  match session with
  | Some s =>
      if truthy (adminId s)
      then mkAnswer 200 true None (Some (adminId s, adminUsername s))
             (Some true)
      else mkAnswer 200 true None None (Some false)
  | None => mkAnswer 200 true None None (Some false)
  end.

(** PUT /change-password: the answer and the table of admins
    afterwards. *)
Definition change_password (salt : string) (session : option Session)
    (b : PasswordChange) (t : Db.Table admins.row)
    : Answer * Db.Table admins.row :=
  match session with
  | Some s =>
      if truthy (adminId s) then
        match or_null (currentPassword b), or_null (newPassword b) with
        | Some cur, Some new =>
            if strlen new <? 6
            then (refuse 400 "New password must be at least 6 characters", t)
            else
              let mine r := Db.eq_int (Some (admins.id r)) (session_id s) in
              match Db.get mine t with
              | None =>
                  (refuse 500 "Server error while changing password", t)
              | Some a =>
                  if negb (compareSync cur (admins.password a))
                  then (refuse 401 "Current password is incorrect", t)
                  else
                    (mkAnswer 200 true (Some "Password changed successfully")
                       None None,
                     Db.update mine
                       (fun r => admins.mk (admins.id r) (admins.username r)
                                   (hashSync salt new 10)
                                   (admins.created_at r)) t)
              end
        | _, _ =>
            (refuse 400 "Current password and new password are required", t)
        end
      else (refuse 401 "Unauthorized. Please login first.", t)
  | None => (refuse 401 "Unauthorized. Please login first.", t)
  end.

End Bcrypt.

End AuthRoutes.


(** A stand-in for bcrypt in examples: the hash of a password is the
    password behind a mark. *)
Definition toy_hash (salt password : string) (rounds : Z) : string :=
  "#" ++ password.

Definition toy_compare (password hash : string) : bool :=
  String.eqb hash ("#" ++ password).

(** A session that [express-session] has opened and nobody has logged
    into. *)
Definition anonymous : option Session :=
  Some (mkSession Undefined Undefined).


(* ================================================================== *)
(** * Properties *)

(** ** Statements of the persistence layer *)

Section DbFacts.
Context {R : Type} `{Db.Keyed R}.

Lemma table_eta (t : Db.Table R) : Db.mkTable (Db.rows t) (Db.seq t) = t.
Proof. destruct t; reflexivity. Qed.

Lemma max_key_bound (l : list R) (r : R) :
  In r l -> Db.key r <= Db.max_key l.
Proof.
  induction l as [|x l IH]; simpl; intros Hin; [contradiction|].
  destruct Hin as [->|Hin]; [lia|].
  specialize (IH Hin). lia.
Qed.

(** No row of the table already carries the id an insert hands out. *)
Lemma next_id_fresh (t : Db.Table R) (r : R) :
  In r (Db.rows t) -> Db.key r < Db.next_id t.
Proof.
  intros Hin. unfold Db.next_id.
  pose proof (max_key_bound _ _ Hin). lia.
Qed.

Lemma find_none_iff (p : R -> bool) (l : list R) :
  find p l = None <-> forall r, In r l -> p r = false.
Proof.
  split.
  - apply find_none.
  - induction l as [|x l IH]; simpl; intros Hall; [reflexivity|].
    rewrite (Hall x (or_introl eq_refl)). apply IH.
    intros r Hr. apply Hall. now right.
Qed.

Lemma find_app_new (p : R -> bool) (l : list R) (x : R) :
  find p l = None -> p x = true -> find p (l ++ [x])%list = Some x.
Proof.
  induction l as [|y l IH]; simpl; intros Hnone Hx.
  - now rewrite Hx.
  - destruct (p y); [discriminate|]. now apply IH.
Qed.

(** [db.get] by id after an insert finds the inserted row. *)
Lemma get_inserted (mk : Z -> R) (t : Db.Table R) :
  (forall i, Db.key (mk i) = i) ->
  let '(t', i) := Db.insert mk t in
  Db.get (fun r => Db.key r =? i) t' = Some (mk i)
  /\ Db.rows t' = (Db.rows t ++ [mk i])%list
  /\ i = Db.next_id t.
Proof.
  intros Hkey. unfold Db.insert, Db.get. simpl.
  repeat split.
  apply find_app_new.
  - apply find_none_iff. intros r Hr.
    pose proof (next_id_fresh t r Hr). apply Z.eqb_neq. lia.
  - rewrite Hkey. apply Z.eqb_refl.
Qed.

(** An UPDATE whose WHERE selects no row changes nothing. *)
Lemma update_no_match (p : R -> bool) (f : R -> R) (t : Db.Table R) :
  Db.get p t = None -> Db.update p f t = t.
Proof.
  destruct t as [l s]. unfold Db.get, Db.update. simpl. intros Hnone.
  f_equal. rewrite find_none_iff in Hnone.
  induction l as [|x l IH]; simpl; [reflexivity|].
  rewrite (Hnone x (or_introl eq_refl)). f_equal.
  apply IH. intros r Hr. apply Hnone. now right.
Qed.

Lemma update_rows_no_match (p : R -> bool) (f : R -> option R) (l : list R) :
  find p l = None -> Db.update_rows p f l = Some l.
Proof.
  induction l as [|x l IH]; simpl; [reflexivity|].
  destruct (p x); [discriminate|]. intros Hnone.
  now rewrite (IH Hnone).
Qed.

Lemma update_checked_no_match (p : R -> bool) (f : R -> option R)
    (t : Db.Table R) :
  Db.get p t = None -> Db.update_checked p f t = Some t.
Proof.
  unfold Db.get, Db.update_checked. intros Hnone.
  rewrite (update_rows_no_match _ _ _ Hnone). now rewrite table_eta.
Qed.

(** A checked UPDATE whose SET always succeeds is the plain UPDATE. *)
Lemma update_checked_total (p : R -> bool) (set : R -> option R) (f : R -> R)
    (t : Db.Table R) :
  (forall r, set r = Some (f r)) ->
  Db.update_checked p set t = Some (Db.update p f t).
Proof.
  intros Hset. unfold Db.update_checked, Db.update.
  assert (E : Db.update_rows p set (Db.rows t)
              = Some (map (fun r => if p r then f r else r) (Db.rows t))).
  { induction (Db.rows t) as [|x l IH]; simpl; [reflexivity|].
    rewrite IH, Hset. now destruct (p x). }
  now rewrite E.
Qed.

(** A DELETE whose WHERE selects no row changes nothing. *)
Lemma delete_no_match (p : R -> bool) (t : Db.Table R) :
  Db.get p t = None -> Db.delete p t = t.
Proof.
  destruct t as [l s]. unfold Db.get, Db.delete. simpl. intros Hnone.
  f_equal. rewrite find_none_iff in Hnone.
  induction l as [|x l IH]; simpl; [reflexivity|].
  rewrite (Hnone x (or_introl eq_refl)). simpl. f_equal.
  apply IH. intros r Hr. apply Hnone. now right.
Qed.

(** ORDER BY rearranges the rows and puts them in order. *)
Lemma place_perm (le : R -> R -> bool) (x : R) (l : list R) :
  Permutation (x :: l) (Db.place le x l).
Proof.
  induction l as [|y l IH]; simpl; [reflexivity|].
  destruct (le x y); [reflexivity|].
  rewrite perm_swap. now constructor.
Qed.

Lemma order_by_perm (le : R -> R -> bool) (l : list R) :
  Permutation l (Db.order_by le l).
Proof.
  induction l as [|x l IH]; simpl; [constructor|].
  rewrite <- place_perm. now constructor.
Qed.

Lemma place_sorted (le : R -> R -> bool) (x : R) (l : list R) :
  (forall a b, le a b = false -> le b a = true) ->
  Sorted (fun a b => le a b = true) l ->
  Sorted (fun a b => le a b = true) (Db.place le x l).
Proof.
  intros Htotal. induction l as [|y l IH]; simpl; intros Hs.
  - repeat constructor.
  - destruct (le x y) eqn:E.
    + constructor; [assumption|]. now constructor.
    + inversion Hs as [|? ? Hs' Hhd]; subst.
      constructor; [now apply IH|].
      destruct l as [|z l]; simpl.
      * constructor. now apply Htotal.
      * destruct (le x z).
        -- constructor. now apply Htotal.
        -- inversion Hhd; subst. now constructor.
Qed.

Lemma order_by_sorted (le : R -> R -> bool) (l : list R) :
  (forall a b, le a b = false -> le b a = true) ->
  Sorted (fun a b => le a b = true) (Db.order_by le l).
Proof.
  intros Htotal. induction l as [|x l IH]; simpl; [constructor|].
  now apply place_sorted.
Qed.

Lemma limit_firstn (n : Z) (l : list R) :
  0 <= n -> Db.limit n l = firstn (Z.to_nat n) l.
Proof.
  intros Hn. unfold Db.limit.
  destruct (n <? 0) eqn:E; [apply Z.ltb_lt in E; lia|reflexivity].
Qed.

End DbFacts.

(** ** The session guard *)

Lemma guard_rejects (session : option Session) (next : Handler) (w : World) :
  logged_in session = false ->
  isAuthenticated session next w
  = (failure 401 (Text "Unauthorized. Please login first."), w).
Proof. unfold isAuthenticated. now intros ->. Qed.

Lemma guard_passes (session : option Session) (next : Handler) (w : World) :
  logged_in session = true -> isAuthenticated session next w = next w.
Proof. unfold isAuthenticated. now intros ->. Qed.

(** Every route the specification lists as admin-only has the guard in
    its chain. *)
Lemma admin_only_guarded (dirname : Fs.Path) (now : Z) (req : Request) :
  admin_only req = true -> fst (route dirname now req) = true.
Proof. destruct req; simpl; intros E; (discriminate || reflexivity). Qed.

(** The ids of a table start at 1. *)
Lemma next_id_positive {R : Type} `{Db.Keyed R} (t : Db.Table R) :
  0 <= Db.seq t -> 1 <= Db.next_id t.
Proof. unfold Db.next_id. lia. Qed.

(** What POST /api/news stores and what it answers: the article goes
    into the table under the next id with the current time, and the
    [data] of the answer is the article with id 0, that is none in a
    table whose ids are positive. *)
Lemma create_news_inserts (now : Z) (b : NewsRoutes.Body) (t c : string)
    (w : World) :
  or_null (NewsRoutes.title b) = Some t ->
  or_null (NewsRoutes.content b) = Some c ->
  exists r,
    snd (NewsRoutes.create now b w)
    = with_news w (Db.mkTable (Db.rows (t_news w) ++ [r]) (news.id r))
    /\ news.id r = Db.next_id (t_news w)
    /\ (forall r', In r' (Db.rows (t_news w)) -> news.id r' <> news.id r)
    /\ news.created_at r = now
    /\ news.title r = t /\ news.content r = c
    /\ status (fst (NewsRoutes.create now b w)) = 201
    /\ (0 <= Db.seq (t_news w) ->
        Forall (fun r' => 0 < news.id r') (Db.rows (t_news w)) ->
        data (fst (NewsRoutes.create now b w)) = NewsItem None).
Proof.
  intros Ht Hc. unfold NewsRoutes.create. rewrite Ht, Hc.
  set (mk := fun i : Z => news.mk i t c _ _ _ _ now now).
  unfold Db.insert. cbn [fst snd].
  exists (mk (Db.next_id (t_news w))).
  split; [reflexivity|]. split; [reflexivity|]. split.
  { intros r' Hin. pose proof (next_id_fresh (t_news w) r' Hin) as F.
    intros E. unfold Db.key, news.keyed in F. cbn [mk news.id] in E.
    rewrite E in F. exact (Z.lt_irrefl _ F). }
  do 4 (split; [reflexivity|]).
  intros Hseq Hpos. cbn [data created]. f_equal.
  unfold Db.get. cbn [t_news with_news Db.rows].
  apply find_none_iff. intros r' Hin. unfold NewsRoutes.by_id.
  apply Z.eqb_neq. unfold Db.lastInsertRowid.
  apply in_app_or in Hin as [Hin|[<-|[]]].
  - rewrite Forall_forall in Hpos. specialize (Hpos r' Hin). lia.
  - cbn [mk news.id].
    pose proof (@next_id_positive news.row news.keyed (t_news w) Hseq). lia.
Qed.

(** A request on an admin-only route that carries no session with an
    admin id is answered 401 and leaves the world as it was. *)
Lemma admin_routes_need_session
    (dirname : Fs.Path) (now : Z) (session : option Session)
    (req : Request) (w : World) :
  admin_only req = true ->
  logged_in session = false ->
  handle dirname now session req w
  = (failure 401 (Text "Unauthorized. Please login first."), w).
Proof.
  intros Hadmin Hout.
  pose proof (admin_only_guarded dirname now req Hadmin) as Hg.
  unfold handle. destruct (route dirname now req) as [g h].
  simpl in Hg. subst g. now apply guard_rejects.
Qed.

(** C1.  POST /api/news without a session is answered 401 and stores
    nothing.  The same request with the session of an admin stores the
    article under a new id, with the current time as [created_at], and
    is answered 201; but the [data] of the answer is [null], not the
    article: the handler reads the article back under the
    [lastInsertRowid] of the helper, which is 0. *)
Theorem created_article_is_not_returned :
  handle Sample.dirname 7 None (PostNews Sample.article) Sample.blank
  = (failure 401 (Text "Unauthorized. Please login first."), Sample.blank)
  /\ handle Sample.dirname 7 Sample.admin (PostNews Sample.article)
       Sample.blank
     = (created "News created successfully" (NewsItem None),
        with_news Sample.blank
          (Db.mkTable
             [news.mk 1 "Welcome day" "Saturday at ten" "news" None None
                (Some 1) 7 7] 1)).
Proof. split; reflexivity. Qed.

(** ** The public news listing *)

Lemma desc_total {R : Type} (col : R -> Z) (a b : R) :
  Db.desc col a b = false -> Db.desc col b a = true.
Proof. unfold Db.desc. rewrite Z.leb_gt, Z.leb_le. lia. Qed.

Lemma Forall_perm_filter {A : Type} (P : A -> Prop) (p : A -> bool)
    (l l' : list A) :
  (forall a, p a = true -> P a) ->
  Permutation (filter p l) l' -> Forall P l'.
Proof.
  intros Hp Hperm. apply Forall_forall. intros a Ha.
  apply Hp. apply (Permutation_in _ (Permutation_sym Hperm)) in Ha.
  now apply filter_In in Ha.
Qed.

Lemma unlimited_sorted (q : NewsRoutes.Query) (w : World) :
  Sorted (fun a b => news.created_at b <= news.created_at a) (unlimited q w).
Proof.
  pose proof (order_by_sorted (Db.desc news.created_at)
                (Db.all (fun r => NewsRoutes.where_published q r
                                  && NewsRoutes.where_category q r)
                   (t_news w)) (desc_total _)) as S.
  unfold unlimited.
  induction S as [|a l S IH Hd]; constructor; auto.
  destruct Hd; constructor. unfold Db.desc in *. now apply Z.leb_le.
Qed.

Lemma firstn_sorted {A : Type} (R : A -> A -> Prop) (n : nat) (l : list A) :
  Sorted R l -> Sorted R (firstn n l).
Proof.
  revert l. induction n as [|n IH]; intros l S; simpl; [constructor|].
  destruct S as [|a l S Hd]; constructor; auto.
  destruct n; simpl; [constructor|].
  destruct Hd; constructor; assumption.
Qed.

(** Without a [published] parameter the listing holds published
    articles only, newest first (also after LIMIT); a category other
    than [all] is matched exactly; [all] filters nothing; LIMIT keeps
    the first rows, and a limit of 2^63 or more is answered 500. *)
Lemma news_list_default (q : NewsRoutes.Query) (w : World) :
  NewsRoutes.q_published q = None ->
  snd (NewsRoutes.list q w) = w
  /\ Forall (fun r => news.published r = Some 1) (unlimited q w)
  /\ (forall n,
        Sorted (fun a b => news.created_at b <= news.created_at a)
          (firstn n (unlimited q w)))
  /\ (forall c, NewsRoutes.q_category q = Some c -> c <> "" -> c <> "all" ->
        Forall (fun r => news.category r = c) (unlimited q w))
  /\ (forall c, NewsRoutes.q_category q = Some c -> c = "all" \/ c = "" ->
        Permutation (unlimited q w)
          (Db.all (fun r => Db.eq_int (news.published r) (Some 1))
             (t_news w)))
  /\ (NewsRoutes.q_limit q = None \/ NewsRoutes.q_limit q = Some "" ->
        NewsRoutes.list q w = (ok None (NewsRows (unlimited q w)), w))
  /\ (forall l n, NewsRoutes.q_limit q = Some l -> l <> "" ->
        parseInt l = Some n -> 0 <= n < 2 ^ 63 ->
        NewsRoutes.list q w
        = (ok None (NewsRows (firstn (Z.to_nat n) (unlimited q w))), w))
  /\ (forall l n, NewsRoutes.q_limit q = Some l -> l <> "" ->
        parseInt l = Some n -> 2 ^ 63 <= n ->
        NewsRoutes.list q w = (failure 500 (Text "Error fetching news"), w)).
Proof.
  intros Hp.
  assert (Hfilter :
    forall r, NewsRoutes.where_published q r && NewsRoutes.where_category q r
              = true ->
              news.published r = Some 1 /\ NewsRoutes.where_category q r = true).
  { intros r Hr. apply andb_prop in Hr as [H1 H2]. split; [|assumption].
    unfold NewsRoutes.where_published in H1. rewrite Hp in H1.
    destruct (news.published r) as [p|]; simpl in H1; [|discriminate].
    apply Z.eqb_eq in H1. now subst. }
  split; [|split; [|split; [|split; [|split; [|split; [|split]]]]]].
  - unfold NewsRoutes.list.
    destruct (NewsRoutes.q_limit q) as [l|]; [|reflexivity].
    destruct (truthy_val l); [|reflexivity].
    now destruct (Db.limit_param (parseInt l)).
  - eapply Forall_perm_filter; [|apply order_by_perm].
    intros r Hr. now apply Hfilter in Hr.
  - intros n. apply firstn_sorted, unlimited_sorted.
  - intros c Hc Hne Hall.
    eapply Forall_perm_filter; [|apply order_by_perm].
    intros r Hr. apply Hfilter in Hr as [_ Hr].
    unfold NewsRoutes.where_category in Hr. rewrite Hc in Hr.
    apply String.eqb_neq in Hne, Hall.
    unfold truthy_val, Truthy_string in Hr. rewrite Hne, Hall in Hr.
    simpl in Hr. now apply String.eqb_eq in Hr.
  - intros c Hc Hor. unfold unlimited.
    rewrite <- order_by_perm. unfold Db.all.
    erewrite filter_ext; [reflexivity|].
    intros r. unfold NewsRoutes.where_published, NewsRoutes.where_category.
    rewrite Hp, Hc.
    destruct Hor as [-> | ->]; simpl; now rewrite andb_true_r.
  - unfold NewsRoutes.list, unlimited.
    intros [-> | ->]; reflexivity.
  - intros l n Hl Hne Hparse Hn. unfold NewsRoutes.list. rewrite Hl.
    apply String.eqb_neq in Hne.
    unfold truthy_val, Truthy_string. rewrite Hne. simpl.
    rewrite Hparse. unfold Db.limit_param.
    destruct (Z.ltb_spec (- 2 ^ 63) n); [|lia].
    destruct (Z.ltb_spec n (2 ^ 63)); [|lia].
    cbn [andb]. rewrite limit_firstn by lia. reflexivity.
  - intros l n Hl Hne Hparse Hn. unfold NewsRoutes.list. rewrite Hl.
    apply String.eqb_neq in Hne.
    unfold truthy_val, Truthy_string. rewrite Hne. simpl.
    rewrite Hparse. unfold Db.limit_param.
    destruct (Z.ltb_spec n (2 ^ 63)); [lia|].
    now rewrite andb_false_r.
Qed.

(** C6.  The listing is public and obeys a [published] parameter: an
    unauthenticated [GET /api/news?published=0] is answered with the
    unpublished articles. *)
Theorem public_listing_shows_unpublished :
  logged_in None = false
  /\ handle Sample.dirname 200 None (GetNews Sample.ask_unpublished)
       Sample.newsroom
     = (ok None (NewsRows [Sample.draft]), Sample.newsroom)
  /\ news.published Sample.draft = Some 0.
Proof. repeat split. Qed.

(** ** Membership applications *)

(** The outcomes of a submission, by the guards it passes. *)
Lemma submit_cases (now : Z) (b : MembershipsRoutes.Body) (w : World) :
  (MembershipsRoutes.complete b = false
   /\ MembershipsRoutes.submit now b w
      = (failure 400 (Text "All fields are required"), w))
  \/ (exists fn e ph un mj al wi,
        b = MembershipsRoutes.mkBody (Given fn) (Given e) (Given ph)
              (Given un) (Given mj) (Given al) (Given wi)
        /\ MembershipsRoutes.complete b = true
        /\ ((test emailRegex e = false
             /\ MembershipsRoutes.submit now b w
                = (failure 400 (Text "Invalid email format"), w))
            \/ (test emailRegex e = true
                /\ Db.get (MembershipsRoutes.by_email e) (t_memberships w)
                   <> None
                /\ MembershipsRoutes.submit now b w
                   = (failure 400 (Text "This email is already registered"),
                      w))
            \/ (test emailRegex e = true
                /\ Db.get (MembershipsRoutes.by_email e) (t_memberships w)
                   = None
                /\ MembershipsRoutes.submit now b w
                   = (created "Membership application submitted successfully!"
                        NoData,
                      with_memberships w
                        (Db.mkTable
                           (Db.rows (t_memberships w)
                            ++ [memberships.mk
                                  (Db.next_id (t_memberships w))
                                  fn e ph un mj al wi (Some "pending") now])
                           (Db.next_id (t_memberships w))))))).
Proof.
  destruct b as [f1 f2 f3 f4 f5 f6 f7].
  unfold MembershipsRoutes.submit, MembershipsRoutes.complete. simpl.
  destruct f1 as [| |a1]; simpl; auto.
  destruct (truthy_val a1) eqn:E1; simpl; auto.
  destruct f2 as [| |a2]; simpl; auto.
  destruct (truthy_val a2) eqn:E2; simpl; auto.
  destruct f3 as [| |a3]; simpl; auto.
  destruct (truthy_val a3) eqn:E3; simpl; auto.
  destruct f4 as [| |a4]; simpl; auto.
  destruct (truthy_val a4) eqn:E4; simpl; auto.
  destruct f5 as [| |a5]; simpl; auto.
  destruct (truthy_val a5) eqn:E5; simpl; auto.
  destruct f6 as [| |a6]; simpl; auto.
  destruct (truthy_val a6) eqn:E6; simpl; auto.
  destruct f7 as [| |a7]; simpl; auto.
  destruct (truthy_val a7) eqn:E7; simpl; auto.
  right. exists a1, a2, a3, a4, a5, a6, a7.
  split; [reflexivity|]. split; [reflexivity|].
  destruct (test emailRegex a2) eqn:Et; simpl; [|left; now split].
  right.
  destruct (Db.get (MembershipsRoutes.by_email a2) (t_memberships w)) eqn:Eg.
  - left. repeat split. discriminate.
  - right. repeat split.
Qed.

(** C7.  A submission with all seven fields, a well-formed address and
    no application stored under that address is answered 201; once it
    has been, every submission with the same address is answered 400
    and stores nothing, and if that second form is complete the answer
    is the conflict. *)
Theorem membership_email_is_taken_once
    (dirname : Fs.Path) (now now' : Z) (session session' : option Session)
    (b b' : MembershipsRoutes.Body) (e : string) (w : World) :
  MembershipsRoutes.complete b = true ->
  MembershipsRoutes.email b = Given e ->
  test emailRegex e = true ->
  Db.get (MembershipsRoutes.by_email e) (t_memberships w) = None ->
  MembershipsRoutes.email b' = Given e ->
  let first := handle dirname now session (PostMembership b) w in
  let second := handle dirname now' session' (PostMembership b') (snd first) in
  status (fst first) = 201
  /\ (exists r,
        Db.rows (t_memberships (snd first))
        = (Db.rows (t_memberships w) ++ [r])%list
        /\ memberships.email r = e
        /\ memberships.status r = Some "pending")
  /\ status (fst second) = 400
  /\ snd second = snd first
  /\ (MembershipsRoutes.complete b' = true ->
      fst second = failure 400 (Text "This email is already registered")).
Proof.
  intros Hc He Ht Hfree He'. unfold handle. simpl.
  destruct (submit_cases now b w) as [[Hn _]|Hs]; [congruence|].
  destruct Hs as (fn & e0 & ph & un & mj & al & wi & -> & _ & Hs).
  simpl in He. injection He as ->.
  destruct Hs as [[Hbad _]|[(_ & Hex & _)|(_ & _ & Hs)]]; try congruence.
  rewrite Hs. simpl.
  set (w1 := with_memberships w _).
  assert (Htaken : Db.get (MembershipsRoutes.by_email e) (t_memberships w1)
                   <> None).
  { unfold w1, Db.get. simpl.
    erewrite find_app_new; [discriminate|exact Hfree|].
    unfold MembershipsRoutes.by_email. simpl. apply String.eqb_refl. }
  split; [reflexivity|].
  split; [eexists; repeat split|].
  destruct (submit_cases now' b' w1) as [[Hn Hr]|Hs'].
  - rewrite Hr. simpl. repeat split. congruence.
  - destruct Hs' as (fn' & e' & ph' & un' & mj' & al' & wi' & -> & _ & Hs').
    simpl in He'. injection He' as ->.
    destruct Hs' as [[Hbad _]|[(_ & _ & Hr)|(_ & Hnone & _)]];
      try congruence.
    rewrite Hr. simpl. repeat split.
Qed.

Lemma membership_email_is_taken_once_witness :
  let first :=
    handle Sample.dirname 10 None (PostMembership Sample.applicant)
      Sample.blank in
  let second :=
    handle Sample.dirname 20 None (PostMembership Sample.impostor)
      (snd first) in
  status (fst first) = 201
  /\ (exists r,
        Db.rows (t_memberships (snd first))
        = (Db.rows (t_memberships Sample.blank) ++ [r])%list
        /\ memberships.email r = "aicha@example.org"
        /\ memberships.status r = Some "pending")
  /\ status (fst second) = 400
  /\ snd second = snd first
  /\ (MembershipsRoutes.complete Sample.impostor = true ->
      fst second = failure 400 (Text "This email is already registered")).
Proof.
  apply (membership_email_is_taken_once Sample.dirname 10 20 None None
           Sample.applicant Sample.impostor "aicha@example.org" Sample.blank);
    reflexivity.
Defined.

(** ** The status of membership applications *)

Ltac break_match :=
  match goal with
  | |- context [match bind ?f with _ => _ end] => destruct (bind f) eqn:?
  | |- context [match ?x with _ => _ end] => destruct x eqn:?
  end.

Ltac run_handler :=
  unfold NewsRoutes.list, NewsRoutes.all, NewsRoutes.get, NewsRoutes.create,
    NewsRoutes.update, NewsRoutes.delete, NewsRoutes.toggle_publish,
    MessagesRoutes.submit, MessagesRoutes.list, MessagesRoutes.unread_count,
    MessagesRoutes.get, MessagesRoutes.mark_read, MessagesRoutes.mark_unread,
    MessagesRoutes.delete, MembershipsRoutes.list, MembershipsRoutes.stats,
    MembershipsRoutes.get, MembershipsRoutes.update_status,
    MembershipsRoutes.delete, PagesRoutes.bulk_update,
    PagesRoutes.get_section, PagesRoutes.update_section,
    PagesRoutes.create_section, PagesRoutes.delete_section,
    MediaRoutes.hero_list, MediaRoutes.hero_all, MediaRoutes.hero_create,
    MediaRoutes.hero_update, MediaRoutes.hero_delete,
    MediaRoutes.specialty_create, MediaRoutes.specialty_update,
    MediaRoutes.specialty_delete, MediaRoutes.delete_upload, Db.insert;
  repeat (cbn [fst snd t_memberships with_news with_messages
               with_page_content with_memberships with_hero_slides
               with_specialties with_disk];
          try break_match).

(** What one request can do to the table of applications. *)
Lemma memberships_after (dirname : Fs.Path) (now : Z)
    (session : option Session) (req : Request) (w : World) :
  let t := t_memberships w in
  let t' := t_memberships (snd (handle dirname now session req w)) in
  t' = t
  \/ (exists r, Db.rows t' = (Db.rows t ++ [r])%list
                /\ memberships.status r = Some "pending")
  \/ (exists i s, MembershipsRoutes.allowed_status s = true
                  /\ t' = Db.update (MembershipsRoutes.by_id i)
                            (MembershipsRoutes.set_status s) t)
  \/ (exists i, t' = Db.delete (MembershipsRoutes.by_id i) t).
Proof.
  cbv zeta. unfold handle.
  destruct req; cbn [route]; unfold isAuthenticated;
    try (destruct (logged_in session); [|left; reflexivity]).
  15: { destruct (submit_cases now b w) as [[_ ->]|Hs]; [now left|].
        destruct Hs as (fn & e & ph & un & mj & al & wi & -> & _ & Hs).
        destruct Hs as [[_ ->]|[(_ & _ & ->)|(_ & _ & ->)]];
          [now left|now left|].
        right; left. eexists. split; reflexivity. }
  all: run_handler.
  all: try (left; reflexivity).
  - right; right; left. exists id, s. split; [|reflexivity].
    now apply negb_false_iff.
  - right; right; right. now exists id.
Qed.

Lemma allowed_status_known (s : string) (r : memberships.row) :
  MembershipsRoutes.allowed_status s = true ->
  known_status (MembershipsRoutes.set_status s r).
Proof.
  unfold MembershipsRoutes.allowed_status, known_status. simpl.
  rewrite !orb_true_iff, !String.eqb_eq.
  intros [->|[->|[->|F]]]; auto. discriminate F.
Qed.

Lemma known_status_step (dirname : Fs.Path) (w w' : World) :
  step dirname w w' ->
  Forall known_status (Db.rows (t_memberships w)) ->
  Forall known_status (Db.rows (t_memberships w')).
Proof.
  intros [now session req w0] Hinv.
  destruct (memberships_after dirname now session req w0)
    as [E|[(r & E & Hr)|[(i & s & Hs & E)|(i & E)]]]; rewrite E.
  - assumption.
  - apply Forall_app. split; [assumption|]. repeat constructor.
    unfold known_status. auto.
  - simpl. apply Forall_map. eapply Forall_impl; [|exact Hinv].
    intros r Hr. destruct (MembershipsRoutes.by_id i r); [|assumption].
    now apply allowed_status_known.
  - simpl. apply Forall_forall. intros r Hr. apply filter_In in Hr as [Hr _].
    rewrite Forall_forall in Hinv. now apply Hinv.
Qed.

(** Under the invariant every application is counted by exactly one of
    the three status counters. *)
Lemma counts_add_up (t : Db.Table memberships.row) :
  Forall known_status (Db.rows t) ->
  Db.count (fun _ => true) t
  = Db.count (MembershipsRoutes.by_status "pending") t
    + Db.count (MembershipsRoutes.by_status "approved") t
    + Db.count (MembershipsRoutes.by_status "rejected") t.
Proof.
  unfold Db.count. induction 1 as [|r l Hr _ IH]; [reflexivity|].
  cbn [filter].
  assert (B : forall s, MembershipsRoutes.by_status s r
                        = Db.eq_text (memberships.status r) (Some s))
    by reflexivity.
  rewrite !B.
  destruct Hr as [E|[E|E]]; rewrite E; cbn [Db.eq_text].
  all: repeat match goal with
         | |- context [String.eqb ?a ?b] =>
             let v := eval vm_compute in (String.eqb a b) in
             change (String.eqb a b) with v
         end.
  all: cbn [List.length]; rewrite !Nat2Z.inj_succ; lia.
Qed.

(** C10.  In every world the server can reach, each application has
    status pending, approved or rejected, and the statistics an
    administrator reads satisfy total = pending + approved + rejected. *)
Theorem membership_status_invariant (dirname : Fs.Path) (w : World) :
  reachable dirname w ->
  Forall known_status (Db.rows (t_memberships w))
  /\ (forall now session,
        logged_in session = true ->
        exists total pending approved rejected,
          handle dirname now session GetMembershipsStats w
          = (ok None (Stats total pending approved rejected), w)
          /\ total = pending + approved + rejected).
Proof.
  intros Hreach.
  assert (Hinv : Forall known_status (Db.rows (t_memberships w))).
  { induction Hreach as [w E|w w' _ IH Hstep].
    - rewrite E. constructor.
    - now apply (known_status_step dirname w w'). }
  split; [assumption|].
  intros now session Hin. unfold handle. cbn [route].
  rewrite guard_passes by assumption.
  unfold MembershipsRoutes.stats.
  do 4 eexists. split; [reflexivity|]. now apply counts_add_up.
Qed.

Lemma membership_status_invariant_witness :
  Forall known_status
    (Db.rows (t_memberships
                (snd (handle Sample.dirname 10 None
                        (PostMembership Sample.applicant) Sample.blank))))
  /\ (forall now session,
        logged_in session = true ->
        exists total pending approved rejected,
          handle Sample.dirname now session GetMembershipsStats
            (snd (handle Sample.dirname 10 None
                    (PostMembership Sample.applicant) Sample.blank))
          = (ok None (Stats total pending approved rejected),
             snd (handle Sample.dirname 10 None
                    (PostMembership Sample.applicant) Sample.blank))
          /\ total = pending + approved + rejected).
Proof.
  apply (membership_status_invariant Sample.dirname).
  apply (after Sample.dirname Sample.blank).
  - apply booted. reflexivity.
  - apply served.
Defined.

(** ** Page sections: bulk update *)

Lemma bulk_statement_runs (now : Z) (pageName : string)
    (s : PagesRoutes.Section) (t : Db.Table page_content.row) :
  well_formed s = true ->
  PagesRoutes.bulk_statement now pageName s t
  = Some (apply_section now pageName s t).
Proof.
  unfold well_formed, PagesRoutes.bulk_statement, apply_section.
  destruct (PagesRoutes.s_section_id s) as [| |sid]; try discriminate.
  destruct (PagesRoutes.s_content s) as [| |c]; try discriminate.
  intros _. cbn [bind].
  refine (eq_trans (update_checked_total _ _ _ t (fun r => eq_refl)) _).
  reflexivity.
Qed.

Lemma bulk_loop_runs (now : Z) (pageName : string)
    (l : list PagesRoutes.Section) (t : Db.Table page_content.row) :
  forallb well_formed l = true ->
  PagesRoutes.bulk_loop now pageName l t
  = (fold_left (fun t s => apply_section now pageName s t) l t, true).
Proof.
  revert t. induction l as [|s l IH]; intros t Hwf; simpl; [reflexivity|].
  simpl in Hwf. apply andb_prop in Hwf as [Hs Hl].
  rewrite (bulk_statement_runs _ _ _ _ Hs). now apply IH.
Qed.

(** C2.  A bulk update whose elements each carry a section id and a
    content is answered 200 with the number of elements of the array,
    and the sections afterwards are what applying the elements one
    after the other gives: the section an element names gets its
    content, whether or not any row is that section.  An element whose
    section the page does not have changes nothing and is no error. *)
Theorem bulk_update_counts_elements
    (dirname : Fs.Path) (now : Z) (session : option Session)
    (pageName : string) (l : list PagesRoutes.Section) (w : World) :
  logged_in session = true ->
  forallb well_formed l = true ->
  handle dirname now session (PutPageBulk pageName (Given l)) w
  = (ok (Some (Text ("Updated " ++ PagesRoutes.uint_text (List.length l)
                     ++ " sections successfully"))) NoData,
     with_page_content w
       (fold_left (fun t s => apply_section now pageName s t) l
          (t_page_content w)))
  /\ (forall s t,
        (forall r, In r (Db.rows t) ->
                   page_content.page_name r = pageName ->
                   PagesRoutes.s_section_id s
                   <> Given (page_content.section_id r)) ->
        apply_section now pageName s t = t).
Proof.
  intros Hin Hwf. split.
  - unfold handle. cbn [route]. rewrite guard_passes by assumption.
    unfold PagesRoutes.bulk_update. cbn [or_null truthy_val Truthy_list].
    now rewrite (bulk_loop_runs _ _ _ _ Hwf).
  - intros s t Habsent. unfold apply_section.
    destruct (PagesRoutes.s_section_id s) as [| |sid]; try reflexivity.
    destruct (PagesRoutes.s_content s) as [| |c]; try reflexivity.
    destruct t as [rows sq]. cbn [Db.rows Db.seq] in *. f_equal.
    induction rows as [|x rows IH]; [reflexivity|]. cbn [map].
    rewrite IH by (intros r Hr; apply Habsent; now right). f_equal.
    destruct (String.eqb_spec (page_content.page_name x) pageName) as [E|];
      [|reflexivity].
    destruct (String.eqb_spec (page_content.section_id x) sid) as [E'|];
      [|reflexivity].
    exfalso. apply (Habsent x (or_introl eq_refl) E). now rewrite E'.
Qed.

Lemma bulk_update_counts_elements_witness :
  handle Sample.dirname 60 Sample.admin
    (PutPageBulk "home"
       (Given [Sample.missing_section; Sample.new_welcome])) Sample.home
  = (ok (Some (Text "Updated 2 sections successfully")) NoData,
     with_page_content Sample.home
       (Db.mkTable
          [page_content.mk 1 "home" "hero_title" (Some "Hero Title")
             "Marhaba" "text" 1 60] 1)).
Proof.
  destruct (bulk_update_counts_elements Sample.dirname 60 Sample.admin "home"
              [Sample.missing_section; Sample.new_welcome] Sample.home
              eq_refl eq_refl)
    as [E _].
  exact E.
Defined.

(** ** Page sections: partial update *)

Lemma update_rows_related {R : Type} (p : R -> bool) (f : R -> R)
    (P : R -> R -> Prop) (l : list R) :
  (forall r, p r = true -> P r (f r)) ->
  Forall2 (fun old new => if p old then P old new else new = old)
    l (map (fun r => if p r then f r else r) l).
Proof.
  intros Hf. induction l as [|x l IH]; simpl; constructor; [|assumption].
  destruct (p x) eqn:E; [now apply Hf|reflexivity].
Qed.

(** What [updateSection] does, case by case.  On a section the page
    does not have the answer is 404.  On a section it has: when the
    body leaves out one of [section_title], [content] and
    [content_type], the statement cannot bind it, the answer is 500 and
    nothing is stored; when the body carries all three, as values or as
    [null], the answer is 200, a value replaces the stored one, a
    [null] keeps it, [updated_at] becomes the current time, and no
    other row and no other table changes. *)
Lemma update_section_cases
    (dirname : Fs.Path) (now : Z) (session : option Session)
    (pageName sectionId : string) (b : PagesRoutes.Body) (w : World) :
  logged_in session = true ->
  let here := PagesRoutes.by_section pageName (Some sectionId) in
  let res := handle dirname now session (PutSection pageName sectionId b) w in
  (Db.get here (t_page_content w) = None ->
   res = (failure 404 (Text "Section not found"), w))
  /\ (Db.get here (t_page_content w) <> None ->
      ~ all_given b ->
      res = (failure 500 (Text "Error updating section"), w))
  /\ (Db.get here (t_page_content w) <> None ->
      all_given b ->
      status (fst res) = 200
      /\ Forall2
           (fun old new => if here old then patched now b old new
                           else new = old)
           (Db.rows (t_page_content w))
           (Db.rows (t_page_content (snd res)))
      /\ snd res = with_page_content w (t_page_content (snd res))).
Proof.
  intros Hin here res. subst res. unfold handle. cbn [route].
  rewrite guard_passes by assumption.
  unfold PagesRoutes.update_section, all_given. fold here.
  destruct (Db.get here (t_page_content w)) as [r|] eqn:Eg.
  - split; [discriminate|].
    destruct (PagesRoutes.section_title b) as [| |ti] eqn:E1;
      destruct (PagesRoutes.content b) as [| |c] eqn:E2;
      destruct (PagesRoutes.content_type b) as [| |ty] eqn:E3;
      cbn [bind].
    all: split;
      [intros _ F;
       first [reflexivity
             |exfalso; apply F; repeat split; discriminate]
      |intros _ G;
       first [exfalso; destruct G as (G1 & G2 & G3); congruence|idtac]].
    all: cbn [fst snd status ok t_page_content with_page_content Db.update
              Db.rows].
    all: split; [reflexivity|split; [|reflexivity]].
    all: apply update_rows_related; intros old _.
    all: unfold patched, kept_or_set; rewrite ?E1, ?E2, ?E3; cbn.
    all: repeat split.
  - split; [reflexivity|]. split; intros F; now destruct F.
Qed.

(** C3.  An authenticated [updateSection] on an existing section whose
    body carries [content] and nothing else is answered 500 and stores
    nothing: the title and the type that the body leaves out reach the
    statement as [undefined], which it cannot bind. *)
Theorem update_with_content_only_fails :
  Db.get (PagesRoutes.by_section "home" (Some "hero_title"))
    (t_page_content Sample.home) = Some Sample.hero_title
  /\ handle Sample.dirname 90 Sample.admin
       (PutSection "home" "hero_title" (Sample.only_content "Marhaba"))
       Sample.home
     = (failure 500 (Text "Error updating section"), Sample.home).
Proof. split; reflexivity. Qed.

(** ** Page sections: creation *)

Lemma max_of_is_max (l : list page_content.row) (m : Z) :
  Db.max_of page_content.display_order l = Some m -> is_max_order m l.
Proof.
  revert m. induction l as [|x l IH]; simpl; intros m; [discriminate|].
  destruct (Db.max_of page_content.display_order l) as [v|] eqn:E.
  - intros [= <-]. destruct (IH v eq_refl) as ((r & Hr & Er) & Hub).
    split.
    + destruct (Z.max_spec (page_content.display_order x) v) as [[_ ->]|[_ ->]].
      * exists r. split; [now right|assumption].
      * exists x. split; [now left|reflexivity].
    + intros r' [->|Hin]; [lia|]. specialize (Hub r' Hin). lia.
  - intros [= <-]. destruct l; [|simpl in E; now destruct (Db.max_of _ l)].
    split; [exists x; simpl; auto|].
    intros r' [->|[]]. lia.
Qed.

Lemma max_of_nil (l : list page_content.row) :
  Db.max_of page_content.display_order l = None -> l = [].
Proof.
  destruct l; [reflexivity|]. simpl.
  now destruct (Db.max_of page_content.display_order l).
Qed.

(** [(max || 0) + 1] is one more than the largest order of the page,
    and 1 on a page without sections. *)
Lemma next_order_spec (pageName : string) (w : World) :
  (sections_of pageName w = []
   /\ PagesRoutes.next_order pageName (t_page_content w) = 1)
  \/ (exists m, is_max_order m (sections_of pageName w)
                /\ PagesRoutes.next_order pageName (t_page_content w) = m + 1).
Proof.
  unfold PagesRoutes.next_order, sections_of.
  destruct (Db.max_of page_content.display_order
              (Db.all (PagesRoutes.by_page pageName) (t_page_content w)))
    as [m|] eqn:E.
  - right. exists m. split; [now apply max_of_is_max|].
    unfold truthy_val, Truthy_Z.
    destruct (m =? 0) eqn:Em; simpl; [apply Z.eqb_eq in Em; lia|reflexivity].
  - left. split; [now apply max_of_nil|reflexivity].
Qed.

(** What creating a section answers and stores. *)
Lemma create_section_cases (now : Z) (pageName sid c : string)
    (b : PagesRoutes.Body) (w : World) :
  or_null (PagesRoutes.section_id b) = Some sid ->
  or_null (PagesRoutes.content b) = Some c ->
  let here := PagesRoutes.by_section pageName (Some sid) in
  (Db.get here (t_page_content w) <> None
   /\ PagesRoutes.create_section now pageName b w
      = (failure 400 (Text "Section already exists"), w))
  \/ (Db.get here (t_page_content w) = None
      /\ let r :=
           page_content.mk (Db.next_id (t_page_content w)) pageName sid
             (Some (or_else (PagesRoutes.section_title b) ""))
             c (or_else (PagesRoutes.content_type b) "text")
             (match or_null (PagesRoutes.display_order b) with
              | Some d => d
              | None => PagesRoutes.next_order pageName (t_page_content w)
              end) now in
         PagesRoutes.create_section now pageName b w
         = (created "Section created successfully" (SectionItem (Some r)),
            with_page_content w
              (Db.mkTable (Db.rows (t_page_content w) ++ [r])
                 (Db.next_id (t_page_content w))))).
Proof.
  intros Hs Hc here. unfold PagesRoutes.create_section. rewrite Hs, Hc.
  fold here.
  destruct (Db.get here (t_page_content w)) as [r0|] eqn:Eg.
  - left. split; [discriminate|reflexivity].
  - right. split; [reflexivity|]. cbv zeta.
    unfold Db.insert.
    cbn [t_page_content with_page_content]. unfold Db.get in *.
    cbn [Db.rows].
    erewrite find_app_new; [reflexivity|exact Eg|].
    unfold here, PagesRoutes.by_section, PagesRoutes.by_page. cbn.
    now rewrite !String.eqb_refl.
Qed.

(** Without a display order in the body (or with [null]) the new
    section goes after the last one of its page; a display order other
    than 0 is stored as given. *)
Lemma create_section_order (now : Z) (pageName sid c : string)
    (b : PagesRoutes.Body) (w : World) :
  or_null (PagesRoutes.section_id b) = Some sid ->
  or_null (PagesRoutes.content b) = Some c ->
  Db.get (PagesRoutes.by_section pageName (Some sid)) (t_page_content w)
  = None ->
  exists r,
    Db.rows (t_page_content (snd (PagesRoutes.create_section now pageName b w)))
    = (Db.rows (t_page_content w) ++ [r])%list
    /\ (bind (PagesRoutes.display_order b) = None ->
        (sections_of pageName w = [] /\ page_content.display_order r = 1)
        \/ (exists m, is_max_order m (sections_of pageName w)
                      /\ page_content.display_order r = m + 1))
    /\ (forall d, PagesRoutes.display_order b = Given d -> d <> 0 ->
                  page_content.display_order r = d).
Proof.
  intros Hs Hc Hfree.
  destruct (create_section_cases now pageName sid c b w Hs Hc)
    as [[Hex _]|[_ E]]; [contradiction|].
  cbv zeta in E. rewrite E. eexists. split; [reflexivity|].
  cbn [page_content.display_order]. split.
  - intros Hnone.
    destruct (PagesRoutes.display_order b) as [| |d]; try discriminate;
      cbn [or_null]; exact (next_order_spec pageName w).
  - intros d -> Hd. cbn [or_null]. unfold truthy_val, Truthy_Z.
    apply Z.eqb_neq in Hd. now rewrite Hd.
Qed.

(** C4.  A display order of 0 in the body is not stored: the section is
    placed after the last one of its page, as if no order were given. *)
Theorem create_section_drops_order_zero :
  PagesRoutes.display_order Sample.order_zero = Given 0
  /\ exists r,
       Db.rows (t_page_content
                  (snd (handle Sample.dirname 70 Sample.admin
                          (PostSection "home" Sample.order_zero)
                          Sample.home)))
       = [Sample.hero_title; r]
       /\ page_content.section_id r = "x"
       /\ page_content.display_order r = 2.
Proof. split; [reflexivity|]. eexists. repeat split. Qed.

(** C5.  Creating a section that the page does not have, with a content
    and a type, and then reading it gives that content and that type
    (['text'] when no type came with it); creating one the page has is
    answered 400, Section already exists, and stores nothing. *)
Theorem create_then_get_section
    (dirname : Fs.Path) (now now' : Z) (session reader : option Session)
    (pageName sid c : string) (b : PagesRoutes.Body) (w : World) :
  logged_in session = true ->
  or_null (PagesRoutes.section_id b) = Some sid ->
  or_null (PagesRoutes.content b) = Some c ->
  let here := PagesRoutes.by_section pageName (Some sid) in
  let res := handle dirname now session (PostSection pageName b) w in
  (Db.get here (t_page_content w) = None ->
   status (fst res) = 201
   /\ exists r,
        handle dirname now' reader (GetSection pageName sid) (snd res)
        = (ok None (SectionItem (Some r)), snd res)
        /\ page_content.content r = c
        /\ page_content.content_type r
           = or_else (PagesRoutes.content_type b) "text"
        /\ (forall ty, PagesRoutes.content_type b = Given ty -> ty <> "" ->
                       page_content.content_type r = ty))
  /\ (Db.get here (t_page_content w) <> None ->
      res = (failure 400 (Text "Section already exists"), w)).
Proof.
  intros Hin Hs Hc here res. subst res. unfold handle. cbn [route].
  rewrite guard_passes by assumption.
  destruct (create_section_cases now pageName sid c b w Hs Hc)
    as [[Hex E]|[Hfree E]]; fold here in Hex || fold here in Hfree.
  - split; [intros F; contradiction|now intros _].
  - split; [intros _|intros F; contradiction].
    cbv zeta in E. rewrite E. cbn [fst snd status created].
    split; [reflexivity|].
    eexists. split; [|split; [|split]].
    + unfold PagesRoutes.get_section.
      cbn [t_page_content with_page_content]. unfold Db.get in *.
      cbn [Db.rows].
      erewrite find_app_new; [reflexivity|exact Hfree|].
      unfold PagesRoutes.by_section, PagesRoutes.by_page. cbn.
      now rewrite !String.eqb_refl.
    + reflexivity.
    + reflexivity.
    + intros ty -> Hty. cbn. unfold truthy_val, Truthy_string.
      apply String.eqb_neq in Hty. now rewrite Hty.
Qed.

Lemma create_then_get_section_witness :
  let b := PagesRoutes.mkBody (Given "cta") Undefined (Given "<b>Join</b>")
             (Given "html") Undefined in
  let res := handle Sample.dirname 80 Sample.admin (PostSection "home" b)
               Sample.home in
  status (fst res) = 201
  /\ exists r,
       handle Sample.dirname 81 None (GetSection "home" "cta") (snd res)
       = (ok None (SectionItem (Some r)), snd res)
       /\ page_content.content r = "<b>Join</b>"
       /\ page_content.content_type r = "html".
Proof.
  cbv zeta.
  destruct (create_then_get_section Sample.dirname 80 81 Sample.admin None
              "home" "cta" "<b>Join</b>"
              (PagesRoutes.mkBody (Given "cta") Undefined
                 (Given "<b>Join</b>") (Given "html") Undefined)
              Sample.home eq_refl eq_refl eq_refl) as [C _].
  destruct (C eq_refl) as (S & r & G & Hc & Ht & _).
  split; [exact S|]. exists r. split; [exact G|]. split; [exact Hc|exact Ht].
Defined.

(** ** Uploaded files *)

(** The guards of [deleteUpload]: a url that is missing, empty or
    without the upload prefix is answered 400, a path that does not
    exist 404; neither touches the world.  A deletion removes the one
    path the url resolves to. *)
Lemma delete_upload_guards (dirname : Fs.Path) (url : Field string)
    (w : World) :
  (or_null url = None ->
   MediaRoutes.delete_upload dirname url w = (failure 400 FileUrlInvalid, w))
  /\ (forall u, or_null url = Some u ->
        startsWith u "/assets/uploads/" = false ->
        MediaRoutes.delete_upload dirname url w
        = (failure 400 FileUrlInvalid, w))
  /\ (forall u, or_null url = Some u ->
        startsWith u "/assets/uploads/" = true ->
        Fs.existsSync (disk w) (Fs.join_frontend dirname u) = false ->
        MediaRoutes.delete_upload dirname url w
        = (failure 404 FileNotFound, w))
  /\ (forall u, or_null url = Some u ->
        status (fst (MediaRoutes.delete_upload dirname url w)) = 200 ->
        startsWith u "/assets/uploads/" = true
        /\ snd (MediaRoutes.delete_upload dirname url w)
           = with_disk w
               (filter (fun e => negb (Fs.path_eqb (fst e)
                                         (fst (Fs.join_frontend dirname u))))
                  (disk w))).
Proof.
  unfold MediaRoutes.delete_upload.
  split; [now intros ->|].
  split; [now intros u -> ->|].
  split; [now intros u -> -> ->|].
  intros u ->.
  destruct (startsWith u "/assets/uploads/"); cbn [negb]; [|discriminate].
  destruct (Fs.existsSync (disk w) (Fs.join_frontend dirname u));
    [|discriminate].
  unfold Fs.unlinkSync.
  destruct (Fs.lookup (disk w) (fst (Fs.join_frontend dirname u)))
    as [[|]|]; try discriminate.
  intros _. split; reflexivity.
Qed.

(** C8.  The guard of [deleteUpload] looks at the text of the url, not
    at the path it resolves to: a url with the upload prefix that climbs
    with [..] is accepted, and the file it names outside the upload
    directory is deleted. *)
Theorem delete_upload_leaves_upload_root :
  startsWith Sample.climbing_url "/assets/uploads/" = true
  /\ Fs.join_frontend Sample.dirname Sample.climbing_url
     = (Sample.front_page, false)
  /\ Fs.below (MediaRoutes.uploadsDir Sample.dirname) Sample.front_page
     = false
  /\ Fs.existsSync (disk Sample.site) (Sample.front_page, false) = true
  /\ handle Sample.dirname 0 Sample.admin
       (DeleteUpload (Given Sample.climbing_url)) Sample.site
     = (ok (Some FileDeleted) NoData,
        with_disk Sample.site [(Sample.upload, Fs.File)]).
Proof. repeat split. Qed.

(** ** Hero slides and specialties *)

Lemma with_hero_slides_same (w : World) : with_hero_slides w (t_hero_slides w) = w.
Proof. now destruct w. Qed.

Lemma with_specialties_same (w : World) : with_specialties w (t_specialties w) = w.
Proof. now destruct w. Qed.

Lemma bind_defined {A : Type} (f : Field A) :
  defined f = match bind f with Some _ => true | None => false end.
Proof. now destruct f. Qed.

Lemma defined_itemsJson (f : Field MediaRoutes.ItemsValue) :
  defined (MediaRoutes.itemsJson f) = defined f.
Proof. now destruct f as [| |[l|x]]. Qed.

(** The next parameter of the statement in the goal: it is bound, or
    the statement throws and the body is not complete. *)
Ltac bind_next :=
  match goal with
  | |- context [bind ?f] =>
      let D := fresh "D" in
      pose proof (bind_defined f) as D;
      destruct (bind f);
      [|rewrite D, ?andb_false_r; cbn [andb]; reflexivity]
  end.

(** An update of a slide or a specialty that no row answers to: with a
    body that carries every bound field the statement runs and changes
    nothing; with a field left out it throws. *)
Lemma hero_update_absent (i : Z) (b : MediaRoutes.SlideBody) (w : World) :
  Db.get (MediaRoutes.slide_by_id i) (t_hero_slides w) = None ->
  MediaRoutes.hero_update i b w
  = if slide_complete b then (ok (Some SlideUpdated) NoData, w)
    else (failure 500 SlideUpdateError, w).
Proof.
  intros Hnone. unfold MediaRoutes.hero_update, slide_complete.
  repeat bind_next.
  rewrite update_checked_no_match by assumption.
  rewrite with_hero_slides_same.
  repeat match goal with D : _ = true |- _ => rewrite D; clear D end.
  reflexivity.
Qed.

Lemma specialty_update_absent (now i : Z) (b : MediaRoutes.SpecialtyBody)
    (w : World) :
  Db.get (MediaRoutes.specialty_by_id i) (t_specialties w) = None ->
  MediaRoutes.specialty_update now i b w
  = if specialty_complete b then (ok (Some SpecialtyUpdated) NoData, w)
    else (failure 500 SpecialtyUpdateError, w).
Proof.
  intros Hnone. unfold MediaRoutes.specialty_update, specialty_complete.
  rewrite <- (defined_itemsJson (MediaRoutes.items b)).
  repeat bind_next.
  rewrite update_checked_no_match by assumption.
  rewrite with_specialties_same.
  repeat match goal with D : _ = true |- _ => rewrite D; clear D end.
  reflexivity.
Qed.

(** C9.  Updating or deleting a hero slide or a specialty whose id the
    table does not hold never answers 404 and changes nothing: the
    delete answers success, and so does the update when its body
    carries every field the statement binds, as a value or as [null];
    with a field left out the update answers 500.  News, messages,
    memberships and page sections answer 404. *)
Theorem media_routes_skip_existence_check
    (dirname : Fs.Path) (now : Z) (session : option Session) (i : Z)
    (w : World) :
  logged_in session = true ->
  (Db.get (MediaRoutes.slide_by_id i) (t_hero_slides w) = None ->
   (forall b, slide_complete b = true ->
              handle dirname now session (PutHero i b) w
              = (ok (Some SlideUpdated) NoData, w))
   /\ (forall b, slide_complete b = false ->
                 handle dirname now session (PutHero i b) w
                 = (failure 500 SlideUpdateError, w))
   /\ handle dirname now session (DeleteHero i) w
      = (ok (Some SlideDeleted) NoData, w))
  /\ (Db.get (MediaRoutes.specialty_by_id i) (t_specialties w) = None ->
      (forall b, specialty_complete b = true ->
                 handle dirname now session (PutSpecialty i b) w
                 = (ok (Some SpecialtyUpdated) NoData, w))
      /\ (forall b, specialty_complete b = false ->
                    handle dirname now session (PutSpecialty i b) w
                    = (failure 500 SpecialtyUpdateError, w))
      /\ handle dirname now session (DeleteSpecialty i) w
         = (ok (Some SpecialtyDeleted) NoData, w))
  /\ (Db.get (NewsRoutes.by_id i) (t_news w) = None ->
      (forall b, handle dirname now session (PutNews i b) w
                 = (failure 404 (Text "News not found"), w))
      /\ handle dirname now session (DeleteNews i) w
         = (failure 404 (Text "News not found"), w))
  /\ (Db.get (MessagesRoutes.by_id i) (t_messages w) = None ->
      handle dirname now session (DeleteMessage i) w
      = (failure 404 (Text "Message not found"), w))
  /\ (Db.get (MembershipsRoutes.by_id i) (t_memberships w) = None ->
      handle dirname now session (PatchMembershipStatus i (Given "approved")) w
      = (failure 404 (Text "Application not found"), w)
      /\ handle dirname now session (DeleteMembership i) w
         = (failure 404 (Text "Application not found"), w))
  /\ (forall pageName sectionId,
        Db.get (PagesRoutes.by_section pageName (Some sectionId))
          (t_page_content w) = None ->
        (forall b, handle dirname now session
                     (PutSection pageName sectionId b) w
                   = (failure 404 (Text "Section not found"), w))
        /\ handle dirname now session (DeleteSection pageName sectionId) w
           = (failure 404 (Text "Section not found"), w)).
Proof.
  intros Hin. unfold handle. cbn [route].
  rewrite !guard_passes by assumption.
  repeat apply conj.
  - intros Hnone. split; [|split].
    + intros b Hb. rewrite guard_passes by assumption.
      rewrite hero_update_absent by assumption. now rewrite Hb.
    + intros b Hb. rewrite guard_passes by assumption.
      rewrite hero_update_absent by assumption. now rewrite Hb.
    + unfold MediaRoutes.hero_delete. rewrite Hnone.
      rewrite delete_no_match by assumption.
      now rewrite with_hero_slides_same.
  - intros Hnone. split; [|split].
    + intros b Hb. rewrite guard_passes by assumption.
      rewrite specialty_update_absent by assumption. now rewrite Hb.
    + intros b Hb. rewrite guard_passes by assumption.
      rewrite specialty_update_absent by assumption. now rewrite Hb.
    + unfold MediaRoutes.specialty_delete. rewrite Hnone.
      rewrite delete_no_match by assumption.
      now rewrite with_specialties_same.
  - intros Hnone. split.
    + intros b. rewrite guard_passes by assumption.
      unfold NewsRoutes.update. now rewrite Hnone.
    + unfold NewsRoutes.delete. now rewrite Hnone.
  - intros Hnone. unfold MessagesRoutes.delete. now rewrite Hnone.
  - intros Hnone. split.
    + unfold MembershipsRoutes.update_status. cbn. now rewrite Hnone.
    + unfold MembershipsRoutes.delete. now rewrite Hnone.
  - intros pageName sectionId Hnone. rewrite guard_passes by assumption.
    split.
    + intros b. rewrite guard_passes by assumption.
      unfold PagesRoutes.update_section. now rewrite Hnone.
    + unfold PagesRoutes.delete_section. now rewrite Hnone.
Qed.

Lemma media_routes_skip_existence_check_witness :
  handle Sample.dirname 5 Sample.admin (PutHero 99 Sample.full_slide)
    Sample.site
  = (ok (Some SlideUpdated) NoData, Sample.site)
  /\ handle Sample.dirname 5 Sample.admin (DeleteHero 99) Sample.site
     = (ok (Some SlideDeleted) NoData, Sample.site)
  /\ handle Sample.dirname 5 Sample.admin
       (PutSpecialty 99 Sample.full_specialty) Sample.site
     = (ok (Some SpecialtyUpdated) NoData, Sample.site)
  /\ handle Sample.dirname 5 Sample.admin (DeleteSpecialty 99) Sample.site
     = (ok (Some SpecialtyDeleted) NoData, Sample.site).
Proof.
  destruct (media_routes_skip_existence_check Sample.dirname 5 Sample.admin
              99 Sample.site eq_refl) as (H & S & _).
  destruct (H eq_refl) as (H1 & _ & H2).
  destruct (S eq_refl) as (S1 & _ & S2).
  split; [exact (H1 Sample.full_slide eq_refl)|].
  split; [exact H2|].
  split; [exact (S1 Sample.full_specialty eq_refl)|exact S2].
Defined.

(** C9, as first stated, fails: the update of a slide and of a
    specialty the table does not hold, with the body [{}], is answered
    500, not success. *)
Lemma media_update_of_absent_id_fails :
  Db.get (MediaRoutes.slide_by_id 99) (t_hero_slides Sample.site) = None
  /\ handle Sample.dirname 5 Sample.admin (PutHero 99 Sample.empty_slide)
       Sample.site
     = (failure 500 SlideUpdateError, Sample.site)
  /\ Db.get (MediaRoutes.specialty_by_id 99) (t_specialties Sample.site)
     = None
  /\ handle Sample.dirname 5 Sample.admin
       (PutSpecialty 99 Sample.empty_specialty) Sample.site
     = (failure 500 SpecialtyUpdateError, Sample.site).
Proof. repeat split. Qed.

(* ================================================================== *)
(** * Further properties of the routes *)

(** ** What no route does *)

Ltac unfold_routes :=
  unfold NewsRoutes.list, NewsRoutes.all, NewsRoutes.get, NewsRoutes.create,
    NewsRoutes.update, NewsRoutes.delete, NewsRoutes.toggle_publish,
    MessagesRoutes.submit, MessagesRoutes.list, MessagesRoutes.unread_count,
    MessagesRoutes.get, MessagesRoutes.mark_read, MessagesRoutes.mark_unread,
    MessagesRoutes.delete, MembershipsRoutes.submit, MembershipsRoutes.list,
    MembershipsRoutes.stats, MembershipsRoutes.get,
    MembershipsRoutes.update_status, MembershipsRoutes.delete,
    PagesRoutes.bulk_update, PagesRoutes.get_section,
    PagesRoutes.update_section, PagesRoutes.create_section,
    PagesRoutes.delete_section, MediaRoutes.hero_list, MediaRoutes.hero_all,
    MediaRoutes.hero_create, MediaRoutes.hero_update, MediaRoutes.hero_delete,
    MediaRoutes.specialty_create, MediaRoutes.specialty_update,
    MediaRoutes.specialty_delete, MediaRoutes.delete_upload, Db.insert.

Ltac enter_route req session :=
  unfold handle; destruct req; cbn [route]; unfold isAuthenticated;
  try destruct (logged_in session); unfold_routes.

Ltac settle_response :=
  cbn [fst snd status success ok created failure].

(** A request that is refused (400, 401 or 404) has written nothing:
    every check of every route comes before its first statement. *)
Theorem refused_request_writes_nothing
    (dirname : Fs.Path) (now : Z) (session : option Session)
    (req : Request) (w : World) :
  refused (fst (handle dirname now session req w)) ->
  snd (handle dirname now session req w) = w.
Proof.
  unfold refused. enter_route req session.
  all: repeat (settle_response; try break_match).
  all: settle_response; intros [E|[E|E]]; try discriminate E; reflexivity.
Qed.

Lemma refused_request_writes_nothing_witness :
  snd (handle Sample.dirname 3 None (DeleteNews 1) Sample.newsroom)
  = Sample.newsroom.
Proof.
  apply refused_request_writes_nothing. right; left. reflexivity.
Defined.

(** A GET route writes nothing, whatever it answers and whoever asks. *)
Theorem get_routes_write_nothing
    (dirname : Fs.Path) (now : Z) (session : option Session)
    (req : Request) (w : World) :
  is_get req = true ->
  snd (handle dirname now session req w) = w.
Proof.
  enter_route req session; cbn [is_get]; intros E; try discriminate E.
  all: repeat (settle_response; try break_match); reflexivity.
Qed.

Lemma get_routes_write_nothing_witness :
  snd (handle Sample.dirname 3 Sample.admin GetNewsAll Sample.newsroom)
  = Sample.newsroom.
Proof. apply get_routes_write_nothing. reflexivity. Defined.

(** Every answer is 200, 201, 400, 401, 404 or 500, and its [success]
    flag is set exactly for 200 and 201. *)
Theorem success_flag_follows_status
    (dirname : Fs.Path) (now : Z) (session : option Session)
    (req : Request) (w : World) :
  let r := fst (handle dirname now session req w) in
  (success r = true /\ (status r = 200 \/ status r = 201))
  \/ (success r = false
      /\ (status r = 400 \/ status r = 401 \/ status r = 404
          \/ status r = 500)).
Proof.
  cbv zeta. enter_route req session.
  all: repeat (settle_response; try break_match).
  all: settle_response; auto 8.
Qed.

(** ** Primary keys *)

Section KeyFacts.
Context {R : Type} `{Db.Keyed R}.

Lemma map_key_update (p : R -> bool) (f : R -> R) (l : list R) :
  (forall r, Db.key (f r) = Db.key r) ->
  map Db.key (map (fun r => if p r then f r else r) l) = map Db.key l.
Proof.
  intros Hf. induction l as [|x l IH]; simpl; [reflexivity|].
  rewrite IH. now destruct (p x); [rewrite Hf|].
Qed.

Lemma map_key_update_rows (p : R -> bool) (f : R -> option R) (l l' : list R) :
  (forall r r', f r = Some r' -> Db.key r' = Db.key r) ->
  Db.update_rows p f l = Some l' ->
  map Db.key l' = map Db.key l.
Proof.
  intros Hf. revert l'. induction l as [|x l IH]; simpl; intros l' E.
  - now injection E as <-.
  - destruct (if p x then f x else Some x) as [x'|] eqn:Ex; [|discriminate].
    destruct (Db.update_rows p f l) as [l''|]; [|discriminate].
    injection E as <-. simpl. rewrite (IH l'' eq_refl). f_equal.
    destruct (p x); [now apply Hf|now injection Ex as <-].
Qed.

Lemma update_checked_kept (p : R -> bool) (f : R -> option R)
    (t t' : Db.Table R) :
  (forall r r', f r = Some r' -> Db.key r' = Db.key r) ->
  Db.update_checked p f t = Some t' -> evolves t t'.
Proof.
  intros Hf. unfold Db.update_checked.
  destruct (Db.update_rows p f (Db.rows t)) as [l|] eqn:E; [|discriminate].
  intros [= <-]. apply kept; [|reflexivity].
  exact (map_key_update_rows p f _ _ Hf E).
Qed.

Lemma update_kept (p : R -> bool) (f : R -> R) (t : Db.Table R) :
  (forall r, Db.key (f r) = Db.key r) -> evolves t (Db.update p f t).
Proof.
  intros Hf. apply kept; [|reflexivity]. now apply map_key_update.
Qed.

Lemma delete_shrunk (p : R -> bool) (t : Db.Table R) :
  evolves t (Db.delete p t).
Proof. now apply (shrunk t _ (fun r => negb (p r))). Qed.

Lemma insert_grown (mk : Z -> R) (t : Db.Table R) :
  (forall i, Db.key (mk i) = i) -> evolves t (fst (Db.insert mk t)).
Proof.
  intros Hmk. apply (grown t _ (mk (Db.next_id t))); try reflexivity.
  apply Hmk.
Qed.

Lemma same_kept (t : Db.Table R) : evolves t t.
Proof. now apply kept. Qed.

Lemma NoDup_map_filter {B : Type} (k : R -> B) (q : R -> bool) (l : list R) :
  NoDup (map k l) -> NoDup (map k (filter q l)).
Proof.
  induction l as [|x l IH]; simpl; intros Hnd; [constructor|].
  apply NoDup_cons_iff in Hnd as [Hx Hl].
  destruct (q x); simpl; [|now apply IH].
  constructor; [|now apply IH].
  intros Hin. apply Hx. apply in_map_iff in Hin as (y & Ey & Hy).
  apply filter_In in Hy as [Hy _]. apply in_map_iff. now exists y.
Qed.

(** A table that evolves keeps its ids unique and below the counter,
    and the counter never goes down. *)
Lemma evolves_keys_ok (t t' : Db.Table R) :
  keys_ok t -> evolves t t' -> keys_ok t' /\ Db.seq t <= Db.seq t'.
Proof.
  intros [Hnd Hle] [K S|r K1 K2 S|q K S].
  - split; [|lia]. split; [now rewrite K|].
    rewrite S. apply Forall_forall. intros x Hx.
    apply (in_map Db.key) in Hx. rewrite K in Hx.
    apply in_map_iff in Hx as (y & <- & Hy).
    rewrite Forall_forall in Hle. now apply Hle.
  - assert (Hfresh : forall x, In x (Db.rows t) -> Db.key x < Db.next_id t)
      by (intros x; apply next_id_fresh).
    split; [|unfold Db.next_id in S; lia]. split.
    + rewrite K1, map_app. simpl. apply NoDup_app.
      * assumption.
      * repeat constructor. intros [].
      * intros a Ha [<-|[]]. apply in_map_iff in Ha as (x & Ex & Hx).
        specialize (Hfresh x Hx). lia.
    + rewrite K1, S. apply Forall_app. split.
      * apply Forall_forall. intros x Hx. specialize (Hfresh x Hx). lia.
      * repeat constructor. lia.
  - split; [|lia]. split.
    + rewrite K. now apply NoDup_map_filter.
    + rewrite K, S. apply Forall_forall. intros x Hx.
      apply filter_In in Hx as [Hx _].
      rewrite Forall_forall in Hle. now apply Hle.
Qed.

End KeyFacts.

Lemma update_checked_keys {R : Type} `{Db.Keyed R} (p : R -> bool)
    (f : R -> option R) (t t' : Db.Table R) :
  (forall r r', f r = Some r' -> Db.key r' = Db.key r) ->
  Db.update_checked p f t = Some t' ->
  map Db.key (Db.rows t') = map Db.key (Db.rows t) /\ Db.seq t' = Db.seq t.
Proof.
  intros Hf. unfold Db.update_checked.
  destruct (Db.update_rows p f (Db.rows t)) as [l|] eqn:E; [|discriminate].
  intros [= <-]. split; [|reflexivity].
  exact (map_key_update_rows p f _ _ Hf E).
Qed.

Lemma bulk_set_keeps_id (now : Z) (c : option string) (title : Field string)
    (r r' : page_content.row) :
  PagesRoutes.bulk_set now c title r = Some r' ->
  page_content.id r' = page_content.id r
  /\ page_content.page_name r' = page_content.page_name r
  /\ page_content.section_id r' = page_content.section_id r
  /\ page_content.content_type r' = page_content.content_type r
  /\ page_content.display_order r' = page_content.display_order r.
Proof.
  unfold PagesRoutes.bulk_set.
  destruct c; [|discriminate].
  intros [= <-]. repeat split.
Qed.

(** A statement of a bulk update that ran had its two parameters. *)
Lemma bulk_statement_some (now : Z) (pageName : string)
    (s : PagesRoutes.Section) (t t' : Db.Table page_content.row) :
  PagesRoutes.bulk_statement now pageName s t = Some t' ->
  exists c sid,
    bind (PagesRoutes.s_content s) = Some c
    /\ bind (PagesRoutes.s_section_id s) = Some sid
    /\ Db.update_checked (PagesRoutes.by_section pageName sid)
         (PagesRoutes.bulk_set now c (PagesRoutes.s_section_title s)) t
       = Some t'.
Proof.
  unfold PagesRoutes.bulk_statement.
  destruct (bind (PagesRoutes.s_content s)) as [c|]; [|discriminate].
  destruct (bind (PagesRoutes.s_section_id s)) as [sid|]; [|discriminate].
  intros E. now exists c, sid.
Qed.

Lemma bulk_loop_kept (now : Z) (pageName : string)
    (l : list PagesRoutes.Section) (t t' : Db.Table page_content.row)
    (done : bool) :
  PagesRoutes.bulk_loop now pageName l t = (t', done) -> evolves t t'.
Proof.
  intros E.
  assert (K : map Db.key (Db.rows t') = map Db.key (Db.rows t)
              /\ Db.seq t' = Db.seq t).
  { revert t E. induction l as [|s l IH]; simpl; intros t E.
    - injection E as <- _. now split.
    - destruct (PagesRoutes.bulk_statement now pageName s t) as [t1|] eqn:E1.
      + destruct (IH t1 E) as [K S].
        apply bulk_statement_some in E1 as (c & sid & _ & _ & E1).
        apply update_checked_keys in E1 as [K1 S1]; [split; congruence|].
        intros r r' Er. now apply bulk_set_keeps_id in Er.
      + injection E as <- _. now split. }
  now apply kept.
Qed.

Ltac keeps_key E :=
  repeat match type of E with
         | context [match ?x with _ => _ end] => destruct x
         end;
  try discriminate E; injection E as <-; reflexivity.

Ltac solve_evolves :=
  first
    [ apply same_kept
    | apply update_kept; intros; reflexivity
    | apply delete_shrunk
    | eapply grown; reflexivity
    | eapply bulk_loop_kept; eassumption
    | eapply update_checked_kept; [|eassumption];
      let E := fresh "E" in intros ? ? E; keeps_key E ].

Ltac walk_route req session :=
  cbv zeta; enter_route req session;
  repeat (cbn [fst snd t_news t_messages t_page_content t_memberships
               t_hero_slides t_specialties disk with_news with_messages
               with_page_content with_memberships with_hero_slides
               with_specialties with_disk];
          try break_match).

Lemma news_evolves dirname now session req w :
  evolves (t_news w) (t_news (snd (handle dirname now session req w))).
Proof. walk_route req session; solve_evolves. Qed.

Lemma messages_evolves dirname now session req w :
  evolves (t_messages w) (t_messages (snd (handle dirname now session req w))).
Proof. walk_route req session; solve_evolves. Qed.

Lemma page_content_evolves dirname now session req w :
  evolves (t_page_content w)
    (t_page_content (snd (handle dirname now session req w))).
Proof. walk_route req session; solve_evolves. Qed.

Lemma memberships_evolves dirname now session req w :
  evolves (t_memberships w)
    (t_memberships (snd (handle dirname now session req w))).
Proof. walk_route req session; solve_evolves. Qed.

Lemma hero_slides_evolves dirname now session req w :
  evolves (t_hero_slides w)
    (t_hero_slides (snd (handle dirname now session req w))).
Proof. walk_route req session; solve_evolves. Qed.

Lemma specialties_evolves dirname now session req w :
  evolves (t_specialties w)
    (t_specialties (snd (handle dirname now session req w))).
Proof. walk_route req session; solve_evolves. Qed.

Lemma evolves_no_id_reused {R : Type} `{Db.Keyed R} (t t' : Db.Table R) :
  evolves t t' -> no_id_reused R _ t t'.
Proof.
  intros [K S|r K1 K2 S|q K S]; split.
  - lia.
  - intros r' Hr. left. rewrite <- K. now apply in_map.
  - unfold Db.next_id in S. lia.
  - intros r' Hr. rewrite K1 in Hr. apply in_app_or in Hr as [Hr|[<-|[]]].
    + left. now apply in_map.
    + right. rewrite K2. unfold Db.next_id. lia.
  - lia.
  - intros r' Hr. rewrite K in Hr. apply filter_In in Hr as [Hr _].
    left. now apply in_map.
Qed.

(** Serving a request keeps the ids of every table pairwise different
    and never hands out an id again: a new row gets an id above the
    counter, also after rows were deleted, and no route rewrites an
    id. *)
Theorem ids_stay_unique_and_fresh (dirname : Fs.Path) (w w' : World) :
  step dirname w w' ->
  world_keys_ok w ->
  world_keys_ok w' /\ every_table no_id_reused w w'.
Proof.
  intros [now session req w0] (K1 & K2 & K3 & K4 & K5 & K6).
  pose proof (news_evolves dirname now session req w0) as E1.
  pose proof (messages_evolves dirname now session req w0) as E2.
  pose proof (page_content_evolves dirname now session req w0) as E3.
  pose proof (memberships_evolves dirname now session req w0) as E4.
  pose proof (hero_slides_evolves dirname now session req w0) as E5.
  pose proof (specialties_evolves dirname now session req w0) as E6.
  split.
  - repeat split;
      first [ apply (evolves_keys_ok _ _ K1 E1)
            | apply (evolves_keys_ok _ _ K2 E2)
            | apply (evolves_keys_ok _ _ K3 E3)
            | apply (evolves_keys_ok _ _ K4 E4)
            | apply (evolves_keys_ok _ _ K5 E5)
            | apply (evolves_keys_ok _ _ K6 E6) ].
  - repeat apply conj; now apply evolves_no_id_reused.
Qed.

Lemma ids_stay_unique_and_fresh_witness :
  world_keys_ok
    (snd (handle Sample.dirname 10 None (PostMembership Sample.applicant)
            Sample.blank)).
Proof.
  apply (ids_stay_unique_and_fresh Sample.dirname Sample.blank).
  - apply served.
  - unfold world_keys_ok, keys_ok. simpl. repeat split; constructor.
Defined.

(** ** Applications and messages are written once *)

Lemma Forall2_update {R : Type} (P : R -> R -> Prop) (p : R -> bool)
    (f : R -> R) (l : list R) :
  (forall r, P r r) -> (forall r, P r (f r)) ->
  Forall2 P l (map (fun r => if p r then f r else r) l).
Proof.
  intros Hrefl Hf. induction l as [|x l IH]; simpl; constructor; auto.
  now destruct (p x).
Qed.

Lemma Forall2_same {R : Type} (P : R -> R -> Prop) (l : list R) :
  (forall r, P r r) -> Forall2 P l l.
Proof. intros Hrefl. induction l; constructor; auto. Qed.

Lemma Forall2_map_eq {R B : Type} (P : R -> R -> Prop) (k : R -> B)
    (l l' : list R) :
  Forall2 P l l' -> (forall a a', P a a' -> k a' = k a) ->
  map k l' = map k l.
Proof.
  intros F Hk. induction F as [|a a' l l' Ha _ IH]; simpl; [reflexivity|].
  now rewrite IH, (Hk a a' Ha).
Qed.

Lemma same_but_status_refl (r : memberships.row) : same_but_status r r.
Proof. repeat split. Qed.

Lemma same_but_read_refl (r : messages.row) : same_but_read r r.
Proof. repeat split. Qed.

Lemma applications_after
    (dirname : Fs.Path) (w w' : World) :
  step dirname w w' ->
  let old := Db.rows (t_memberships w) in
  let new := Db.rows (t_memberships w') in
  Forall2 same_but_status old new
  \/ (exists r, new = (old ++ [r])%list
                /\ memberships.status r = Some "pending"
                /\ forall r0, In r0 old ->
                              memberships.email r0 <> memberships.email r)
  \/ (exists q, new = filter q old).
Proof.
  intros [now session req w0]. cbv zeta.
  unfold handle.
  destruct req; cbn [route]; unfold isAuthenticated;
    try (destruct (logged_in session);
         [|left; apply Forall2_same, same_but_status_refl]).
  15: { destruct (submit_cases now b w0) as [[_ ->]|Hs];
          [left; apply Forall2_same, same_but_status_refl|].
        destruct Hs as (fn & e & ph & un & mj & al & wi & -> & _ & Hs).
        destruct Hs as [[_ ->]|[(_ & _ & ->)|(_ & Hfree & ->)]];
          [left; apply Forall2_same, same_but_status_refl
          |left; apply Forall2_same, same_but_status_refl|].
        right; left. eexists. split; [reflexivity|]. split; [reflexivity|].
        intros r0 Hr0. cbn [memberships.email].
        unfold Db.get in Hfree.
        apply (find_none _ _ Hfree) in Hr0.
        unfold MembershipsRoutes.by_email in Hr0.
        now apply String.eqb_neq in Hr0. }
  all: run_handler.
  all: try (left; apply Forall2_same, same_but_status_refl).
  - left. cbn [Db.update Db.rows].
    apply Forall2_update; [apply same_but_status_refl|].
    intros ?. repeat split.
  - right; right. now eexists.
Qed.

(** Whatever the request, the applications afterwards are the ones
    before with at most their status rewritten, or those plus one
    pending application under an address no other has, or some of
    those. *)
Theorem applications_change_by_status_only
    (dirname : Fs.Path) (w w' : World) :
  step dirname w w' ->
  let old := Db.rows (t_memberships w) in
  let new := Db.rows (t_memberships w') in
  Forall2 same_but_status old new
  \/ (exists r, new = (old ++ [r])%list
                /\ memberships.status r = Some "pending"
                /\ forall r0, In r0 old ->
                              memberships.email r0 <> memberships.email r)
  \/ (exists q, new = filter q old).
Proof. exact (applications_after dirname w w'). Qed.

Lemma applications_change_by_status_only_witness :
  let old := Db.rows (t_memberships Sample.blank) in
  let new :=
    Db.rows (t_memberships
               (snd (handle Sample.dirname 10 None
                       (PostMembership Sample.applicant) Sample.blank))) in
  Forall2 same_but_status old new
  \/ (exists r, new = (old ++ [r])%list
                /\ memberships.status r = Some "pending"
                /\ forall r0, In r0 old ->
                              memberships.email r0 <> memberships.email r)
  \/ (exists q, new = filter q old).
Proof.
  apply (applications_change_by_status_only Sample.dirname Sample.blank).
  apply served.
Defined.

(** No two applications in a reachable world carry the same address:
    the check before the insert holds the line without a unique index. *)
Theorem application_emails_stay_unique (dirname : Fs.Path) (w : World) :
  reachable dirname w ->
  NoDup (map memberships.email (Db.rows (t_memberships w))).
Proof.
  induction 1 as [w E|w w' _ IH Hstep].
  - rewrite E. constructor.
  - destruct (applications_after dirname w w' Hstep)
      as [F|[(r & E & _ & Hfresh)|(q & E)]].
    + assert (M : map memberships.email (Db.rows (t_memberships w'))
                  = map memberships.email (Db.rows (t_memberships w))).
      { apply (Forall2_map_eq _ _ _ _ F).
        now intros a a' (_ & _ & -> & _). }
      now rewrite M.
    + rewrite E, map_app. simpl. apply NoDup_app; [assumption| |].
      * repeat constructor. intros [].
      * intros a Ha [<-|[]]. apply in_map_iff in Ha as (r0 & E0 & Hr0).
        now apply (Hfresh r0 Hr0).
    + rewrite E. now apply NoDup_map_filter.
Qed.

Lemma application_emails_stay_unique_witness :
  NoDup (map memberships.email
           (Db.rows (t_memberships
                       (snd (handle Sample.dirname 20 None
                               (PostMembership Sample.impostor)
                               (snd (handle Sample.dirname 10 None
                                       (PostMembership Sample.applicant)
                                       Sample.blank))))))).
Proof.
  apply (application_emails_stay_unique Sample.dirname).
  eapply after; [|apply served].
  eapply after; [|apply served].
  apply booted. reflexivity.
Defined.

(** Whatever the request, the messages afterwards are the ones before
    with at most their read flag rewritten, or those plus one unread
    message, or some of those. *)
Theorem messages_change_by_read_flag_only
    (dirname : Fs.Path) (w w' : World) :
  step dirname w w' ->
  let old := Db.rows (t_messages w) in
  let new := Db.rows (t_messages w') in
  Forall2 same_but_read old new
  \/ (exists r, new = (old ++ [r])%list /\ messages.is_read r = 0)
  \/ (exists q, new = filter q old).
Proof.
  intros [now session req w0]. walk_route req session.
  all: cbn [Db.update Db.delete Db.rows].
  all: first
         [ left; apply Forall2_same, same_but_read_refl
         | left; apply Forall2_update;
           [apply same_but_read_refl|intros ?; repeat split]
         | right; left; eexists; split; reflexivity
         | right; right; now eexists ].
Qed.

Lemma messages_change_by_read_flag_only_witness :
  let old := Db.rows (t_messages Sample.inbox) in
  let new :=
    Db.rows (t_messages
               (snd (handle Sample.dirname 10 Sample.admin
                       (PatchMessageRead 1) Sample.inbox))) in
  old = [Sample.question; Sample.greeting]
  /\ new = [messages.mk 1 "Sidi" "sidi@example.org" None "Fees"
              "When are the fees due?" 1 5; Sample.greeting]
  /\ (Forall2 same_but_read old new
      \/ (exists r, new = (old ++ [r])%list /\ messages.is_read r = 0)
      \/ (exists q, new = filter q old)).
Proof.
  split; [reflexivity|]. split; [reflexivity|].
  apply (messages_change_by_read_flag_only Sample.dirname Sample.inbox).
  apply served.
Defined.

(** ** The composite identity of sections *)

Lemma map_update_rows {R B : Type} (k : R -> B) (p : R -> bool)
    (f : R -> option R) (l l' : list R) :
  (forall r r', f r = Some r' -> k r' = k r) ->
  Db.update_rows p f l = Some l' -> map k l' = map k l.
Proof.
  intros Hf. revert l'. induction l as [|x l IH]; simpl; intros l' E.
  - now injection E as <-.
  - destruct (if p x then f x else Some x) as [x'|] eqn:Ex; [|discriminate].
    destruct (Db.update_rows p f l) as [l''|]; [|discriminate].
    injection E as <-. simpl. rewrite (IH l'' eq_refl). f_equal.
    destruct (p x); [now apply Hf|now injection Ex as <-].
Qed.

Lemma bulk_loop_section_keys (now : Z) (pageName : string)
    (l : list PagesRoutes.Section) (t t' : Db.Table page_content.row)
    (done : bool) :
  PagesRoutes.bulk_loop now pageName l t = (t', done) ->
  map section_key (Db.rows t') = map section_key (Db.rows t).
Proof.
  revert t. induction l as [|s l IH]; simpl; intros t E.
  - now injection E as <- _.
  - destruct (PagesRoutes.bulk_statement now pageName s t) as [t1|] eqn:E1.
    + rewrite (IH t1 E).
      apply bulk_statement_some in E1 as (c & sid & _ & _ & E1).
      unfold Db.update_checked in E1.
      destruct (Db.update_rows _ _ (Db.rows t)) as [l1|] eqn:E2;
        [|discriminate].
      injection E1 as <-. cbn [Db.rows].
      eapply map_update_rows; [|exact E2].
      intros r r' Er. apply bulk_set_keeps_id in Er as (_ & Hp & Hs & _).
      unfold section_key. now rewrite Hp, Hs.
    + now injection E as <- _.
Qed.

Lemma by_section_key (pageName sid : string) (r : page_content.row) :
  PagesRoutes.by_section pageName (Some sid) r = false ->
  section_key r <> (pageName, sid).
Proof.
  unfold PagesRoutes.by_section, PagesRoutes.by_page, section_key.
  cbn [Db.eq_text]. intros E [= <- <-].
  now rewrite !String.eqb_refl in E.
Qed.

(** No request makes two sections of one page share a section id:
    creation looks the pair up first and no update touches the page or
    the section id of a row. *)
Theorem section_keys_stay_unique (dirname : Fs.Path) (w w' : World) :
  step dirname w w' ->
  NoDup (map section_key (Db.rows (t_page_content w))) ->
  NoDup (map section_key (Db.rows (t_page_content w'))).
Proof.
  intros [now session req w0] Hnd. revert Hnd. walk_route req session.
  all: cbn [Db.update Db.delete Db.rows]; intros Hnd.
  all: first
         [ assumption
         | erewrite bulk_loop_section_keys by eassumption; assumption
         | now apply NoDup_map_filter
         | erewrite Forall2_map_eq;
           [eassumption
           |apply Forall2_update
              with (P := fun a b => section_key b = section_key a);
            reflexivity
           |auto]
         | idtac ].
  all: rewrite map_app;
    apply NoDup_app;
    [ assumption
    | constructor; [intros []|constructor]
    | intros a Ha [<-|[]]; apply in_map_iff in Ha as (r0 & E0 & Hr0);
      match goal with
      | H : Db.get _ _ = None |- _ =>
          apply (find_none _ _ H) in Hr0; apply by_section_key in Hr0
      end;
      now apply Hr0 ].
Qed.

Lemma section_keys_stay_unique_witness :
  NoDup (map section_key
           (Db.rows (t_page_content
                       (snd (handle Sample.dirname 70 Sample.admin
                               (PostSection "home" Sample.order_zero)
                               Sample.home))))).
Proof.
  apply (section_keys_stay_unique Sample.dirname Sample.home).
  - apply served.
  - repeat constructor; simpl; intuition.
Defined.

(** ** Reading after writing *)

Section ReadAfterWrite.
Context {R : Type} `{Db.Keyed R}.

Lemma get_delete (p : R -> bool) (t : Db.Table R) :
  Db.get p (Db.delete p t) = None.
Proof.
  unfold Db.get, Db.delete. cbn [Db.rows]. apply find_none_iff.
  intros r Hr. apply filter_In in Hr as [_ Hr]. now apply negb_true_iff.
Qed.

Lemma get_update (p : R -> bool) (f : R -> R) (t : Db.Table R) :
  (forall r, p (f r) = p r) ->
  Db.get p (Db.update p f t) = option_map f (Db.get p t).
Proof.
  intros Hp. unfold Db.get, Db.update. cbn [Db.rows].
  induction (Db.rows t) as [|x l IH]; simpl; [reflexivity|].
  destruct (p x) eqn:E.
  - now rewrite Hp, E.
  - now rewrite E.
Qed.

End ReadAfterWrite.

Lemma toggle_publish_on (now i : Z) (r : news.row) (p : Z) (w : World) :
  Db.get (NewsRoutes.by_id i) (t_news w) = Some r ->
  news.published r = Some p ->
  let flipped := if truthy_val p then 0 else 1 in
  let set r0 :=
    news.mk (news.id r0) (news.title r0) (news.content r0)
      (news.category r0) (news.image_url r0) (news.location r0)
      (Some flipped) (news.created_at r0) now in
  data (fst (NewsRoutes.toggle_publish now i w)) = PublishedFlag flipped
  /\ snd (NewsRoutes.toggle_publish now i w)
     = with_news w (Db.update (NewsRoutes.by_id i) set (t_news w))
  /\ Db.get (NewsRoutes.by_id i)
       (t_news (snd (NewsRoutes.toggle_publish now i w)))
     = Some (set r).
Proof.
  intros Hget Hp. cbv zeta. unfold NewsRoutes.toggle_publish.
  rewrite Hget, Hp. cbn [fst snd data ok t_news with_news].
  repeat split. rewrite get_update by reflexivity. now rewrite Hget.
Qed.

(** Toggling the publication of an article whose flag is 0 or 1 flips
    it; toggling again gives the article back as it was, but for
    [updated_at]. *)
Theorem toggle_publish_twice_restores
    (dirname : Fs.Path) (now now' : Z) (session : option Session)
    (i : Z) (r : news.row) (p : Z) (w : World) :
  logged_in session = true ->
  Db.get (NewsRoutes.by_id i) (t_news w) = Some r ->
  news.published r = Some p ->
  p = 0 \/ p = 1 ->
  let once := handle dirname now session (PatchNewsTogglePublish i) w in
  let twice :=
    handle dirname now' session (PatchNewsTogglePublish i) (snd once) in
  data (fst once) = PublishedFlag (1 - p)
  /\ (exists r1, Db.get (NewsRoutes.by_id i) (t_news (snd once)) = Some r1
                 /\ news.published r1 = Some (1 - p))
  /\ data (fst twice) = PublishedFlag p
  /\ Db.get (NewsRoutes.by_id i) (t_news (snd twice))
     = Some (news.mk (news.id r) (news.title r) (news.content r)
               (news.category r) (news.image_url r) (news.location r)
               (news.published r) (news.created_at r) now').
Proof.
  intros Hin Hget Hp Hp01. cbv zeta. unfold handle. cbn [route].
  rewrite !guard_passes by assumption.
  destruct (toggle_publish_on now i r p w Hget Hp) as (D1 & W1 & G1).
  cbv zeta in D1, W1, G1.
  destruct (toggle_publish_on now' i _ _ _ G1 eq_refl) as (D2 & _ & G2).
  cbv zeta in D2, G2. rewrite D1, D2, G1, G2.
  cbn [news.id news.title news.content news.category news.image_url
       news.location news.created_at news.published].
  rewrite Hp.
  destruct Hp01 as [-> | ->]; repeat split; eexists; split; reflexivity.
Qed.

Lemma toggle_publish_twice_restores_witness :
  Db.get (NewsRoutes.by_id 1)
    (t_news
       (snd (handle Sample.dirname 8 Sample.admin (PatchNewsTogglePublish 1)
               (snd (handle Sample.dirname 7 Sample.admin
                       (PatchNewsTogglePublish 1) Sample.newsroom)))))
  = Some (news.mk 1 "Budget vote" "Not to be announced yet" "news" None None
            (Some 0) 100 8).
Proof.
  destruct (toggle_publish_twice_restores Sample.dirname 7 8 Sample.admin 1
              Sample.draft 0 Sample.newsroom eq_refl eq_refl eq_refl
              (or_introl eq_refl)) as (_ & _ & _ & G).
  exact G.
Defined.

(** After a delete that was answered 200 the row is gone for good:
    reading it and deleting it again are answered 404 and write
    nothing.  So for articles, messages, applications and sections. *)
Theorem deleted_rows_are_gone
    (dirname : Fs.Path) (now now' : Z) (session session' : option Session)
    (w : World) :
  logged_in session = true ->
  logged_in session' = true ->
  let gone (del get : Request) (m : string) :=
    status (fst (handle dirname now session del w)) = 200 ->
    let w1 := snd (handle dirname now session del w) in
    handle dirname now' session' get w1 = (failure 404 (Text m), w1)
    /\ handle dirname now' session' del w1 = (failure 404 (Text m), w1) in
  (forall i, gone (DeleteNews i) (GetNewsById i) "News not found")
  /\ (forall i, gone (DeleteMessage i) (GetMessage i) "Message not found")
  /\ (forall i, gone (DeleteMembership i) (GetMembership i)
                  "Application not found")
  /\ (forall p s, gone (DeleteSection p s) (GetSection p s)
                    "Section not found").
Proof.
  intros Hin Hin'. cbv beta zeta. unfold handle. cbn [route].
  repeat apply conj; intros;
    match goal with H : status _ = 200 |- _ => revert H end;
    rewrite ?guard_passes by assumption.
  - unfold NewsRoutes.delete, NewsRoutes.get.
    destruct (Db.get _ (t_news w)); [intros _|discriminate].
    cbn [fst snd t_news with_news]. now rewrite get_delete.
  - unfold MessagesRoutes.delete, MessagesRoutes.get.
    destruct (Db.get _ (t_messages w)); [intros _|discriminate].
    cbn [fst snd t_messages with_messages]. now rewrite get_delete.
  - unfold MembershipsRoutes.delete, MembershipsRoutes.get.
    destruct (Db.get _ (t_memberships w)); [intros _|discriminate].
    cbn [fst snd t_memberships with_memberships]. now rewrite get_delete.
  - unfold PagesRoutes.delete_section, PagesRoutes.get_section.
    destruct (Db.get _ (t_page_content w)); [intros _|discriminate].
    cbn [fst snd t_page_content with_page_content]. now rewrite get_delete.
Qed.

Lemma deleted_rows_are_gone_witness :
  let w1 := snd (handle Sample.dirname 5 Sample.admin (DeleteNews 1)
                   Sample.newsroom) in
  handle Sample.dirname 6 Sample.admin (GetNewsById 1) w1
  = (failure 404 (Text "News not found"), w1)
  /\ handle Sample.dirname 6 Sample.admin (DeleteNews 1) w1
     = (failure 404 (Text "News not found"), w1).
Proof.
  destruct (deleted_rows_are_gone Sample.dirname 5 6 Sample.admin Sample.admin
              Sample.newsroom eq_refl eq_refl) as (N & _).
  exact (N 1 eq_refl).
Defined.

(** ** Articles from creation to the public page *)

Lemma create_news_row (now : Z) (b : NewsRoutes.Body) (t c : string)
    (w : World) :
  or_null (NewsRoutes.title b) = Some t ->
  or_null (NewsRoutes.content b) = Some c ->
  Db.rows (t_news (snd (NewsRoutes.create now b w)))
  = (Db.rows (t_news w)
     ++ [news.mk (Db.next_id (t_news w)) t c
           (or_else (NewsRoutes.category b) "news")
           (or_null (NewsRoutes.image_url b))
           (or_null (NewsRoutes.location b))
           (match NewsRoutes.published b with
            | Undefined => Some 1
            | Null => None
            | Given p => Some p
            end)
           now now])%list.
Proof.
  intros Ht Hc. unfold NewsRoutes.create. now rewrite Ht, Hc.
Qed.

Lemma in_unlimited (q : NewsRoutes.Query) (w : World) (r : news.row) :
  In r (unlimited q w)
  <-> In r (Db.rows (t_news w))
      /\ NewsRoutes.where_published q r && NewsRoutes.where_category q r
         = true.
Proof.
  unfold unlimited, Db.all. split; intros Hin.
  - apply (filter_In (fun r => NewsRoutes.where_published q r
                               && NewsRoutes.where_category q r)).
    eapply Permutation_in; [apply Permutation_sym, order_by_perm|exact Hin].
  - eapply Permutation_in; [apply order_by_perm|].
    now apply filter_In.
Qed.

(** An article created without a [published] field, or with 1, is on
    the public listing at once; created with 0 or [null] it is not, and
    the listing of the administrators has it either way. *)
Theorem created_article_reaches_listing
    (dirname : Fs.Path) (now now' : Z) (session reader : option Session)
    (b : NewsRoutes.Body) (t c : string) (w : World) :
  logged_in session = true ->
  or_null (NewsRoutes.title b) = Some t ->
  or_null (NewsRoutes.content b) = Some c ->
  let w' := snd (handle dirname now session (PostNews b) w) in
  let fresh := Db.next_id (t_news w) in
  exists public everything,
    handle dirname now' reader
      (GetNews (NewsRoutes.mkQuery None None None)) w'
    = (ok None (NewsRows public), w')
    /\ handle dirname now' session GetNewsAll w'
       = (ok None (NewsRows everything), w')
    /\ (exists r, In r everything /\ news.id r = fresh /\ news.title r = t)
    /\ (NewsRoutes.published b = Undefined
        \/ NewsRoutes.published b = Given 1 ->
        exists r, In r public /\ news.id r = fresh /\ news.title r = t
                  /\ news.content r = c)
    /\ (NewsRoutes.published b = Null \/ NewsRoutes.published b = Given 0 ->
        forall r, In r public -> news.id r <> fresh).
Proof.
  intros Hin Ht Hc. cbv zeta. unfold handle. cbn [route].
  rewrite !guard_passes by assumption.
  pose proof (create_news_row now b t c w Ht Hc) as Hrows.
  set (w' := snd (NewsRoutes.create now b w)) in *.
  set (q := NewsRoutes.mkQuery None None None).
  exists (unlimited q w').
  exists (Db.order_by (Db.desc news.created_at)
            (Db.all (fun _ => true) (t_news w'))).
  split; [reflexivity|]. split; [reflexivity|].
  set (r := news.mk _ _ _ _ _ _ _ _ _) in Hrows.
  assert (Hr : In r (Db.rows (t_news w')))
    by (rewrite Hrows; apply in_or_app; right; now left).
  split; [|split].
  - exists r. split; [|split; reflexivity].
    eapply Permutation_in; [apply order_by_perm|].
    unfold Db.all. apply filter_In. now split.
  - intros Hpub. exists r. split; [|repeat split].
    apply in_unlimited. split; [assumption|].
    unfold NewsRoutes.where_published, NewsRoutes.where_category, q, r.
    cbn [NewsRoutes.q_published NewsRoutes.q_category news.published].
    destruct Hpub as [E|E]; rewrite E; reflexivity.
  - intros Hpub x Hx. apply in_unlimited in Hx as [Hx Hq].
    apply andb_prop in Hq as [Hq _].
    unfold NewsRoutes.where_published, q in Hq.
    cbn [NewsRoutes.q_published] in Hq.
    rewrite Hrows in Hx. apply in_app_or in Hx as [Hx|[<-|[]]].
    + pose proof (next_id_fresh (t_news w) x Hx) as F.
      unfold Db.key, news.keyed in F. intros E. rewrite E in F.
      exact (Z.lt_irrefl _ F).
    + unfold r in Hq. cbn [news.published] in Hq.
      destruct Hpub as [E|E]; rewrite E in Hq; discriminate Hq.
Qed.

Lemma created_article_reaches_listing_witness :
  exists public,
    handle Sample.dirname 8 None (GetNews (NewsRoutes.mkQuery None None None))
      (snd (handle Sample.dirname 7 Sample.admin (PostNews Sample.article)
              Sample.newsroom))
    = (ok None (NewsRows public),
       snd (handle Sample.dirname 7 Sample.admin (PostNews Sample.article)
              Sample.newsroom))
    /\ exists r, In r public /\ news.title r = "Welcome day".
Proof.
  destruct (created_article_reaches_listing Sample.dirname 7 8 Sample.admin
              None Sample.article "Welcome day" "Saturday at ten"
              Sample.newsroom eq_refl eq_refl eq_refl)
    as (public & everything & P & _ & _ & Hpub & _).
  exists public. split; [exact P|].
  destruct (Hpub (or_introl eq_refl)) as (r & Hr & _ & Ht & _).
  exists r. now split.
Defined.

(** ** Counters *)

Section CountFacts.
Context {R : Type} `{Db.Keyed R}.

Lemma count_app (q : R -> bool) (l1 l2 : list R) (s : Z) :
  Db.count q (Db.mkTable (l1 ++ l2) s)
  = Db.count q (Db.mkTable l1 s) + Db.count q (Db.mkTable l2 s).
Proof.
  unfold Db.count. cbn [Db.rows].
  rewrite filter_app, length_app. lia.
Qed.

Lemma count_cons (q : R -> bool) (r : R) (l : list R) (s : Z) :
  Db.count q (Db.mkTable (r :: l) s) = hit q r + Db.count q (Db.mkTable l s).
Proof.
  unfold Db.count, hit. cbn [Db.rows filter].
  destruct (q r); cbn [List.length]; lia.
Qed.

Lemma update_other_keys (i : Z) (f : R -> R) (l : list R) :
  ~ In i (map Db.key l) ->
  map (fun x => if Db.key x =? i then f x else x) l = l.
Proof.
  induction l as [|x l IH]; simpl; intros Hni; [reflexivity|].
  destruct (Z.eqb_spec (Db.key x) i) as [E|_]; [tauto|].
  f_equal. apply IH. tauto.
Qed.

(** With unique ids an UPDATE by id rewrites one row. *)
Lemma update_unique (i : Z) (f : R -> R) (l : list R) (r : R) :
  NoDup (map Db.key l) -> In r l -> Db.key r = i ->
  exists l1 l2,
    l = (l1 ++ r :: l2)%list
    /\ map (fun x => if Db.key x =? i then f x else x) l
       = (l1 ++ f r :: l2)%list.
Proof.
  intros Hnd Hin Hk. apply in_split in Hin as (l1 & l2 & ->).
  exists l1, l2. split; [reflexivity|].
  rewrite map_app in Hnd. simpl in Hnd.
  pose proof (NoDup_remove_2 _ _ _ Hnd) as Hni. rewrite Hk in Hni.
  rewrite map_app. simpl. rewrite Hk, Z.eqb_refl.
  rewrite !update_other_keys; [reflexivity| |];
    intros Hi; apply Hni, in_or_app; auto.
Qed.

Lemma count_update_unique (q : R -> bool) (i : Z) (f : R -> R)
    (t : Db.Table R) (r : R) :
  NoDup (map Db.key (Db.rows t)) -> In r (Db.rows t) -> Db.key r = i ->
  Db.count q (Db.update (fun x => Db.key x =? i) f t)
  = Db.count q t - hit q r + hit q (f r).
Proof.
  intros Hnd Hin Hk. destruct t as [l s]. cbn [Db.rows] in *.
  destruct (update_unique i f l r Hnd Hin Hk) as (l1 & l2 & -> & E).
  unfold Db.update. cbn [Db.rows Db.seq]. rewrite E.
  rewrite !count_app, !count_cons. lia.
Qed.

End CountFacts.

Lemma update_twice {R : Type} (p : R -> bool) (f g : R -> R)
    (t : Db.Table R) :
  (forall r, p (f r) = p r) ->
  Db.update p g (Db.update p f t)
  = Db.update p (fun r => g (f r)) t.
Proof.
  intros Hp. unfold Db.update. cbn [Db.rows Db.seq]. f_equal.
  rewrite map_map. apply map_ext. intros r.
  destruct (p r) eqn:E; [now rewrite Hp, E|now rewrite E].
Qed.

Lemma with_messages_twice (w : World) (t t' : Db.Table messages.row) :
  with_messages (with_messages w t) t' = with_messages w t'.
Proof. reflexivity. Qed.

Lemma with_messages_same (w : World) : with_messages w (t_messages w) = w.
Proof. now destruct w. Qed.

(** A contact form that is accepted adds one to the unread counter. *)
Theorem accepted_message_is_unread
    (dirname : Fs.Path) (now now' : Z) (session admin : option Session)
    (b : MessagesRoutes.Body) (w : World) :
  logged_in admin = true ->
  status (fst (handle dirname now session (PostMessage b) w)) = 201 ->
  let w' := snd (handle dirname now session (PostMessage b) w) in
  handle dirname now' admin GetMessagesUnreadCount w
  = (ok None (CountOf (unread w)), w)
  /\ handle dirname now' admin GetMessagesUnreadCount w'
     = (ok None (CountOf (unread w + 1)), w').
Proof.
  intros Hin. cbv zeta. unfold handle. cbn [route].
  rewrite !guard_passes by assumption.
  unfold MessagesRoutes.unread_count, MessagesRoutes.submit, unread, Db.insert.
  repeat (cbn [fst snd status failure created]; try break_match);
    cbn [fst snd status failure created]; intros E; try discriminate E.
  split; [reflexivity|].
  cbn [t_messages with_messages]. do 3 f_equal.
  destruct (t_messages w) as [l sq]. cbn [Db.rows].
  rewrite (count_app _ l _ _), count_cons.
  unfold hit, Db.count. cbn. lia.
Qed.

Lemma accepted_message_is_unread_witness :
  let b := MessagesRoutes.mkBody (Given "A") (Given "a@b.c") Undefined
             (Given "s") (Given "m") in
  let w' := snd (handle Sample.dirname 1 None (PostMessage b) Sample.blank) in
  handle Sample.dirname 2 Sample.admin GetMessagesUnreadCount w'
  = (ok None (CountOf (unread Sample.blank + 1)), w').
Proof.
  cbv zeta.
  apply (accepted_message_is_unread Sample.dirname 1 2 None Sample.admin
           (MessagesRoutes.mkBody (Given "A") (Given "a@b.c") Undefined
              (Given "s") (Given "m")) Sample.blank eq_refl eq_refl).
Defined.

Lemma get_found {R : Type} `{Db.Keyed R} (i : Z) (t : Db.Table R) (r : R) :
  Db.get (fun x => Db.key x =? i) t = Some r ->
  In r (Db.rows t) /\ Db.key r = i.
Proof.
  unfold Db.get. intros E. apply find_some in E as [Hin Hk].
  split; [assumption|now apply Z.eqb_eq].
Qed.

Lemma unread_again (i : Z) (r : messages.row) (t : Db.Table messages.row) :
  NoDup (map messages.id (Db.rows t)) -> In r (Db.rows t) ->
  messages.id r = i -> messages.is_read r = 0 ->
  Db.update (MessagesRoutes.by_id i)
    (fun r0 => MessagesRoutes.set_read 0 (MessagesRoutes.set_read 1 r0)) t
  = t.
Proof.
  intros Hnd Hrin Hrk Hr. destruct t as [l sq]. unfold Db.update.
  cbn [Db.rows Db.seq] in *. f_equal.
  destruct (update_unique i
              (fun r0 => MessagesRoutes.set_read 0
                           (MessagesRoutes.set_read 1 r0))
              l r Hnd Hrin Hrk) as (l1 & l2 & El & E).
  refine (eq_trans E _). rewrite El. do 2 f_equal.
  destruct r. cbn in Hr. subst. reflexivity.
Qed.

(** With unique ids, marking an unread message as read takes one off
    the unread counter; marking it read again changes nothing more, and
    marking it unread gives back the world as it was. *)
Theorem read_flag_round_trip
    (dirname : Fs.Path) (now : Z) (session : option Session)
    (i : Z) (r : messages.row) (w : World) :
  logged_in session = true ->
  NoDup (map messages.id (Db.rows (t_messages w))) ->
  Db.get (MessagesRoutes.by_id i) (t_messages w) = Some r ->
  messages.is_read r = 0 ->
  let w1 := snd (handle dirname now session (PatchMessageRead i) w) in
  unread w1 = unread w - 1
  /\ snd (handle dirname now session (PatchMessageRead i) w1) = w1
  /\ snd (handle dirname now session (PatchMessageUnread i) w1) = w.
Proof.
  intros Hin Hnd Hget Hr. cbv zeta. unfold handle. cbn [route].
  rewrite !guard_passes by assumption.
  assert (W1 : snd (MessagesRoutes.mark_read i w)
               = with_messages w
                   (Db.update (MessagesRoutes.by_id i)
                      (MessagesRoutes.set_read 1) (t_messages w))).
  { unfold MessagesRoutes.mark_read. now rewrite Hget. }
  rewrite !W1. clear W1.
  assert (G1 : Db.get (MessagesRoutes.by_id i)
                 (Db.update (MessagesRoutes.by_id i)
                    (MessagesRoutes.set_read 1) (t_messages w))
               = Some (MessagesRoutes.set_read 1 r)).
  { rewrite get_update by reflexivity. now rewrite Hget. }
  destruct (get_found i (t_messages w) r Hget) as [Hrin Hrk].
  split; [|split].
  - unfold unread. cbn [t_messages with_messages].
    refine (eq_trans
              (count_update_unique (fun x => messages.is_read x =? 0) i
                 (MessagesRoutes.set_read 1) (t_messages w) r Hnd Hrin Hrk)
              _).
    unfold hit. cbn [MessagesRoutes.set_read messages.is_read].
    rewrite Hr. cbn. lia.
  - unfold MessagesRoutes.mark_read. cbn [t_messages with_messages].
    rewrite G1. cbn [snd]. rewrite with_messages_twice. f_equal.
    now rewrite update_twice by reflexivity.
  - unfold MessagesRoutes.mark_unread. cbn [t_messages with_messages].
    rewrite G1. cbn [snd]. rewrite with_messages_twice.
    rewrite update_twice by reflexivity.
    rewrite (unread_again i r (t_messages w) Hnd Hrin Hrk Hr).
    apply with_messages_same.
Qed.

Lemma read_flag_round_trip_witness :
  let m := messages.mk 1 "A" "a@b.c" None "s" "m" 0 5 in
  let w := with_messages Sample.blank (Db.mkTable [m] 1) in
  let w1 := snd (handle Sample.dirname 9 Sample.admin (PatchMessageRead 1) w) in
  unread w1 = unread w - 1
  /\ snd (handle Sample.dirname 9 Sample.admin (PatchMessageRead 1) w1) = w1
  /\ snd (handle Sample.dirname 9 Sample.admin (PatchMessageUnread 1) w1) = w.
Proof.
  cbv zeta.
  apply (read_flag_round_trip Sample.dirname 9 Sample.admin 1
           (messages.mk 1 "A" "a@b.c" None "s" "m" 0 5)
           (with_messages Sample.blank
              (Db.mkTable [messages.mk 1 "A" "a@b.c" None "s" "m" 0 5] 1))).
  - reflexivity.
  - repeat constructor. intros [].
  - reflexivity.
  - reflexivity.
Defined.

(** With unique ids, approving a pending application moves exactly one
    application from the pending to the approved count; the total and
    the rejected count stay. *)
Theorem approval_moves_one_application
    (dirname : Fs.Path) (now : Z) (session : option Session)
    (i : Z) (r : memberships.row) (w : World)
    (total pending approved rejected : Z) :
  logged_in session = true ->
  NoDup (map memberships.id (Db.rows (t_memberships w))) ->
  Db.get (MembershipsRoutes.by_id i) (t_memberships w) = Some r ->
  memberships.status r = Some "pending" ->
  handle dirname now session GetMembershipsStats w
  = (ok None (Stats total pending approved rejected), w) ->
  let res :=
    handle dirname now session (PatchMembershipStatus i (Given "approved")) w in
  fst res = ok (Some (Text "Membership approved successfully")) NoData
  /\ handle dirname now session GetMembershipsStats (snd res)
     = (ok None (Stats total (pending - 1) (approved + 1) rejected), snd res).
Proof.
  intros Hin Hnd Hget Hr. cbv zeta. unfold handle. cbn [route].
  rewrite !guard_passes by assumption.
  assert (P : MembershipsRoutes.update_status i (Given "approved") w
              = (ok (Some (Text "Membership approved successfully")) NoData,
                 with_memberships w
                   (Db.update (MembershipsRoutes.by_id i)
                      (MembershipsRoutes.set_status "approved")
                      (t_memberships w)))).
  { unfold MembershipsRoutes.update_status.
    assert (O : or_null (Given "approved") = Some "approved") by reflexivity.
    assert (A : negb (MembershipsRoutes.allowed_status "approved") = false)
      by reflexivity.
    rewrite O, A, Hget. reflexivity. }
  rewrite P. clear P. cbn [fst snd].
  unfold MembershipsRoutes.stats. cbn [t_memberships with_memberships].
  intros [= <- <- <- <-]. split; [reflexivity|].
  destruct (get_found i (t_memberships w) r Hget) as [Hrin Hrk].
  assert (C : forall s,
    Db.count (MembershipsRoutes.by_status s)
      (Db.update (MembershipsRoutes.by_id i)
         (MembershipsRoutes.set_status "approved") (t_memberships w))
    = Db.count (MembershipsRoutes.by_status s) (t_memberships w)
      - hit (MembershipsRoutes.by_status s) r
      + hit (MembershipsRoutes.by_status s)
          (MembershipsRoutes.set_status "approved" r)).
  { intros s.
    exact (count_update_unique (MembershipsRoutes.by_status s) i
             (MembershipsRoutes.set_status "approved") (t_memberships w) r
             Hnd Hrin Hrk). }
  assert (T :
    Db.count (fun _ => true)
      (Db.update (MembershipsRoutes.by_id i)
         (MembershipsRoutes.set_status "approved") (t_memberships w))
    = Db.count (fun _ => true) (t_memberships w)).
  { refine (eq_trans
              (count_update_unique (fun _ => true) i
                 (MembershipsRoutes.set_status "approved") (t_memberships w)
                 r Hnd Hrin Hrk) _).
    unfold hit. lia. }
  rewrite T, !C. unfold hit, MembershipsRoutes.by_status.
  cbn [MembershipsRoutes.set_status memberships.status]. rewrite Hr.
  do 2 f_equal. cbn. f_equal; lia.
Qed.

Lemma approval_moves_one_application_witness :
  let w := snd (handle Sample.dirname 10 None
                  (PostMembership Sample.applicant) Sample.blank) in
  let res := handle Sample.dirname 11 Sample.admin
               (PatchMembershipStatus 1 (Given "approved")) w in
  fst res = ok (Some (Text "Membership approved successfully")) NoData
  /\ handle Sample.dirname 11 Sample.admin GetMembershipsStats (snd res)
     = (ok None (Stats 1 (1 - 1) (0 + 1) 0), snd res).
Proof.
  cbv zeta.
  apply (approval_moves_one_application Sample.dirname 11 Sample.admin 1
           (memberships.mk 1 "Aicha Sy" "aicha@example.org" "0550000000"
              "USTHB" "Physics" "L3" "Nouakchott" (Some "pending") 10)).
  - reflexivity.
  - repeat constructor. intros [].
  - reflexivity.
  - reflexivity.
  - reflexivity.
Defined.

(** ** More on sections *)

Lemma filter_out_none {R : Type} (p : R -> bool) (l : list R) :
  find p l = None -> filter (fun r => negb (p r)) l = l.
Proof.
  induction l as [|x l IH]; simpl; [reflexivity|].
  destruct (p x); [discriminate|]. intros E. simpl. now rewrite IH.
Qed.

(** Creating a section and deleting it leaves the sections as they
    were; only the id counter has moved on, so the id is not handed out
    again. *)
Theorem create_then_delete_section
    (dirname : Fs.Path) (now now' : Z) (session : option Session)
    (pageName sid c : string) (b : PagesRoutes.Body) (w : World) :
  logged_in session = true ->
  or_null (PagesRoutes.section_id b) = Some sid ->
  or_null (PagesRoutes.content b) = Some c ->
  Db.get (PagesRoutes.by_section pageName (Some sid)) (t_page_content w)
  = None ->
  let w1 := snd (handle dirname now session (PostSection pageName b) w) in
  handle dirname now' session (DeleteSection pageName sid) w1
  = (ok (Some (Text "Section deleted successfully")) NoData,
     with_page_content w
       (Db.mkTable (Db.rows (t_page_content w))
          (Db.next_id (t_page_content w)))).
Proof.
  intros Hin Hs Hc Hfree. cbv zeta. unfold handle. cbn [route].
  rewrite !guard_passes by assumption.
  destruct (create_section_cases now pageName sid c b w Hs Hc)
    as [[Hex _]|[_ E]]; [contradiction|].
  cbv zeta in E. rewrite E. cbn [snd].
  unfold PagesRoutes.delete_section. cbn [t_page_content with_page_content].
  unfold Db.get in *. cbn [Db.rows].
  assert (Hhere : PagesRoutes.by_section pageName (Some sid)
                    (page_content.mk (Db.next_id (t_page_content w)) pageName
                       sid
                       (Some (or_else (PagesRoutes.section_title b) ""))
                       c (or_else (PagesRoutes.content_type b) "text")
                       (match or_null (PagesRoutes.display_order b) with
                        | Some d => d
                        | None =>
                            PagesRoutes.next_order pageName (t_page_content w)
                        end) now) = true).
  { unfold PagesRoutes.by_section, PagesRoutes.by_page. cbn.
    now rewrite !String.eqb_refl. }
  rewrite (find_app_new _ _ _ Hfree Hhere).
  unfold Db.delete. cbn [Db.rows Db.seq].
  rewrite filter_app, (filter_out_none _ _ Hfree). cbn [filter].
  rewrite Hhere. cbn [negb]. now rewrite app_nil_r.
Qed.

Lemma create_then_delete_section_witness :
  let b := PagesRoutes.mkBody (Given "cta") Undefined (Given "Join")
             Undefined Undefined in
  Db.rows (t_page_content
             (snd (handle Sample.dirname 81 Sample.admin
                     (DeleteSection "home" "cta")
                     (snd (handle Sample.dirname 80 Sample.admin
                             (PostSection "home" b) Sample.home)))))
  = [Sample.hero_title].
Proof.
  cbv zeta.
  rewrite (create_then_delete_section Sample.dirname 80 81 Sample.admin
             "home" "cta" "Join"
             (PagesRoutes.mkBody (Given "cta") Undefined (Given "Join")
                Undefined Undefined)
             Sample.home eq_refl eq_refl eq_refl eq_refl).
  reflexivity.
Defined.

Lemma update_rows_fails {R : Type} (p : R -> bool) (f : R -> option R)
    (l : list R) (r : R) :
  find p l = Some r -> (forall x, f x = None) ->
  Db.update_rows p f l = None.
Proof.
  intros Hfind Hf. induction l as [|x l IH]; simpl in *; [discriminate|].
  destruct (p x).
  - now rewrite Hf.
  - rewrite (IH Hfind). reflexivity.
Qed.

Lemma bulk_loop_app (now : Z) (pageName : string)
    (l1 l2 : list PagesRoutes.Section) (t : Db.Table page_content.row) :
  forallb well_formed l1 = true ->
  PagesRoutes.bulk_loop now pageName (l1 ++ l2)%list t
  = PagesRoutes.bulk_loop now pageName l2
      (fold_left (fun t s => apply_section now pageName s t) l1 t).
Proof.
  revert t. induction l1 as [|s l1 IH]; intros t Hwf; simpl; [reflexivity|].
  simpl in Hwf. apply andb_prop in Hwf as [Hs Hl].
  rewrite (bulk_statement_runs _ _ _ _ Hs). now apply IH.
Qed.

Lemma find_in {R : Type} (p : R -> bool) (l : list R) (r : R) :
  In r l -> p r = true -> exists r', find p l = Some r'.
Proof.
  induction l as [|x l IH]; simpl; intros Hin Hp; [contradiction|].
  destruct (p x) eqn:Ex; [now exists x|].
  destruct Hin as [->|Hin]; [congruence|auto].
Qed.

Lemma bulk_statement_throws (now : Z) (pageName : string)
    (s : PagesRoutes.Section) (t : Db.Table page_content.row) :
  cannot_run pageName s t ->
  PagesRoutes.bulk_statement now pageName s t = None.
Proof.
  unfold PagesRoutes.bulk_statement.
  intros [E|[E|(E & r & Hin & Hp & Hs)]].
  - now rewrite E.
  - rewrite E. now destruct (bind (PagesRoutes.s_content s)).
  - rewrite E, Hs. cbn [bind]. unfold Db.update_checked.
    destruct (find_in (PagesRoutes.by_section pageName
                         (Some (page_content.section_id r)))
                (Db.rows t) r Hin) as [r' Hfind].
    { unfold PagesRoutes.by_section, PagesRoutes.by_page. cbn [Db.eq_text].
      now rewrite Hp, !String.eqb_refl. }
    now rewrite (update_rows_fails _ _ _ r' Hfind).
Qed.

(** A bulk update is not all-or-nothing.  When the elements before some
    element each carry a section id and a content, and that element
    cannot be run on what they have written (its content or its section
    id is left out, or its content is [null] and its section exists),
    the answer is 500, the elements before it stay written and those
    after it are not run. *)
Theorem bulk_update_stops_half_way
    (dirname : Fs.Path) (now : Z) (session : option Session)
    (pageName : string) (l1 l2 : list PagesRoutes.Section)
    (bad : PagesRoutes.Section) (w : World) :
  logged_in session = true ->
  forallb well_formed l1 = true ->
  let written :=
    fold_left (fun t s => apply_section now pageName s t) l1
      (t_page_content w) in
  cannot_run pageName bad written ->
  handle dirname now session
    (PutPageBulk pageName (Given (l1 ++ bad :: l2)%list)) w
  = (failure 500 (Text "Error updating sections"),
     with_page_content w written).
Proof.
  intros Hin Hwf written Hbad. unfold handle. cbn [route].
  rewrite guard_passes by assumption.
  unfold PagesRoutes.bulk_update. cbn [or_null truthy_val Truthy_list].
  rewrite (bulk_loop_app _ _ _ _ _ Hwf). fold written.
  cbn [PagesRoutes.bulk_loop].
  now rewrite (bulk_statement_throws _ _ _ _ Hbad).
Qed.

Lemma bulk_update_stops_half_way_witness :
  let good := PagesRoutes.mkSection (Given "hero_title") (Given "Ahlan")
                Undefined in
  let bad := PagesRoutes.mkSection (Given "hero_title") Undefined Undefined in
  handle Sample.dirname 60 Sample.admin
    (PutPageBulk "home" (Given ([good] ++ bad :: [good])%list)) Sample.home
  = (failure 500 (Text "Error updating sections"),
     with_page_content Sample.home
       (Db.mkTable
          [page_content.mk 1 "home" "hero_title" (Some "Hero Title") "Ahlan"
             "text" 1 60] 1)).
Proof.
  cbv zeta.
  apply (bulk_update_stops_half_way Sample.dirname 60 Sample.admin "home"
           [PagesRoutes.mkSection (Given "hero_title") (Given "Ahlan")
              Undefined]
           [PagesRoutes.mkSection (Given "hero_title") (Given "Ahlan")
              Undefined]
           (PagesRoutes.mkSection (Given "hero_title") Undefined Undefined)
           Sample.home eq_refl eq_refl).
  left. reflexivity.
Defined.

Lemma update_rows_Forall2 {R : Type} (p : R -> bool) (f : R -> option R)
    (l l' : list R) :
  Db.update_rows p f l = Some l' ->
  Forall2 (fun a b => (p a = true /\ f a = Some b) \/ (p a = false /\ b = a))
    l l'.
Proof.
  revert l'. induction l as [|x l IH]; simpl; intros l' E.
  - injection E as <-. constructor.
  - destruct (p x) eqn:Ep.
    + destruct (f x) as [x'|] eqn:Ef; [|discriminate].
      destruct (Db.update_rows p f l) as [l''|]; [|discriminate].
      injection E as <-. constructor; auto.
    + destruct (Db.update_rows p f l) as [l''|]; [|discriminate].
      injection E as <-. constructor; auto.
Qed.

Lemma bulk_frame_refl (pageName : string) (r : page_content.row) :
  bulk_frame pageName r r.
Proof. repeat split. Qed.

Lemma bulk_frame_trans (pageName : string) (a b c : page_content.row) :
  bulk_frame pageName a b -> bulk_frame pageName b c ->
  bulk_frame pageName a c.
Proof.
  intros (A1 & A2 & A3 & A4 & A5 & A6) (B1 & B2 & B3 & B4 & B5 & B6).
  repeat split; try congruence.
  intros Hp. rewrite B6, A6; auto. now rewrite A2.
Qed.

Lemma Forall2_trans {R : Type} (P : R -> R -> Prop) (l1 l2 l3 : list R) :
  (forall a b c, P a b -> P b c -> P a c) ->
  Forall2 P l1 l2 -> Forall2 P l2 l3 -> Forall2 P l1 l3.
Proof.
  intros Ht F. revert l3. induction F as [|a b l1 l2 Hab _ IH]; intros l3 G.
  - inversion G. constructor.
  - inversion G as [|b' c l2' l3' Hbc G']; subst. constructor; eauto.
Qed.

Lemma bulk_loop_frame (now : Z) (pageName : string)
    (l : list PagesRoutes.Section) (t t' : Db.Table page_content.row)
    (done : bool) :
  PagesRoutes.bulk_loop now pageName l t = (t', done) ->
  Forall2 (bulk_frame pageName) (Db.rows t) (Db.rows t').
Proof.
  revert t. induction l as [|s l IH]; simpl; intros t E.
  - injection E as <- _. apply Forall2_same, bulk_frame_refl.
  - destruct (PagesRoutes.bulk_statement now pageName s t) as [t1|] eqn:E1.
    + apply (Forall2_trans _ _ (Db.rows t1)).
      * apply bulk_frame_trans.
      * apply bulk_statement_some in E1 as (c & sid & _ & _ & E1).
        unfold Db.update_checked in E1.
        destruct (Db.update_rows _ _ (Db.rows t)) as [l1|] eqn:E2;
          [|discriminate].
        injection E1 as <-. cbn [Db.rows].
        apply update_rows_Forall2 in E2.
        eapply Forall2_impl; [|exact E2].
        intros a b [[Hp Hf]|[_ ->]]; [|apply bulk_frame_refl].
        apply bulk_set_keeps_id in Hf as (F1 & F2 & F3 & F4 & F5).
        repeat split; try assumption.
        intros Hne. exfalso. apply Hne.
        unfold PagesRoutes.by_section, PagesRoutes.by_page in Hp.
        apply andb_prop in Hp as [Hp _]. now apply String.eqb_eq.
      * now apply IH.
    + injection E as <- _. apply Forall2_same, bulk_frame_refl.
Qed.

(** Whatever its elements, and whether it ends with 200 or 500, a bulk
    update of one page leaves the sections of every other page as they
    are, keeps the id, section id, type and display order of every
    section, adds and removes none, and touches no other table. *)
Theorem bulk_update_stays_on_its_page
    (dirname : Fs.Path) (now : Z) (session : option Session)
    (pageName : string) (sections : Field (list PagesRoutes.Section))
    (w : World) :
  let w' := snd (handle dirname now session (PutPageBulk pageName sections) w)
  in
  Forall2 (bulk_frame pageName)
    (Db.rows (t_page_content w)) (Db.rows (t_page_content w'))
  /\ w' = with_page_content w (t_page_content w').
Proof.
  cbv zeta. unfold handle. cbn [route]. unfold isAuthenticated.
  assert (Hsame : with_page_content w (t_page_content w) = w)
    by now destruct w.
  destruct (logged_in session);
    [|cbn [snd]; split; [apply Forall2_same, bulk_frame_refl
                        |now rewrite Hsame]].
  unfold PagesRoutes.bulk_update.
  destruct (or_null sections) as [l|];
    [|cbn [snd]; split; [apply Forall2_same, bulk_frame_refl
                        |now rewrite Hsame]].
  destruct (PagesRoutes.bulk_loop now pageName l (t_page_content w))
    as [t' done] eqn:E.
  apply bulk_loop_frame in E.
  destruct done; cbn [snd t_page_content with_page_content]; now split.
Qed.

(** ** The address check of the two public forms *)

Lemma nullable_matches (r : Re) : nullable r = true <-> matches r [].
Proof.
  split.
  - induction r; simpl; intros E; try discriminate.
    + constructor.
    + apply andb_prop in E as [E1 E2].
      change (@nil Z) with (@nil Z ++ [])%list. constructor; auto.
    + apply orb_prop in E as [E|E]; [apply m_alt_l|apply m_alt_r]; auto.
    + constructor.
  - intros M. remember (@nil Z) as l eqn:El.
    induction M; simpl; try reflexivity; try discriminate.
    + apply app_eq_nil in El as [-> ->].
      now rewrite IHM1, IHM2.
    + now rewrite IHM.
    + rewrite IHM; [apply orb_true_r|assumption].
Qed.

Lemma deriv_sound (c : Z) (r : Re) (l : list Z) :
  matches (deriv c r) l -> matches r (c :: l).
Proof.
  revert l. induction r; simpl; intros l M.
  - inversion M.
  - inversion M.
  - destruct (p c) eqn:E; inversion M; subst. now constructor.
  - destruct (nullable r1) eqn:N.
    + inversion M as [| | | ? ? ? M'| ? ? ? M'| |]; subst.
      * inversion M' as [| |? ? l1 l2 M1 M2| | | |]; subst.
        change (c :: l1 ++ l2)%list with ((c :: l1) ++ l2)%list.
        constructor; auto.
      * change (c :: l) with ([] ++ c :: l)%list.
        constructor; [now apply nullable_matches|auto].
    + inversion M as [| |? ? l1 l2 M1 M2| | | |]; subst.
      change (c :: l1 ++ l2)%list with ((c :: l1) ++ l2)%list.
      constructor; auto.
  - inversion M; subst; [apply m_alt_l|apply m_alt_r]; auto.
  - inversion M as [| |? ? l1 l2 M1 M2| | | |]; subst.
    change (c :: l1 ++ l2)%list with ((c :: l1) ++ l2)%list.
    constructor; auto.
Qed.

Lemma deriv_complete (r : Re) (l' : list Z) :
  matches r l' ->
  forall c l, l' = c :: l -> matches (deriv c r) l.
Proof.
  induction 1 as [|p c0 Hp|r1 r2 l1 l2 M1 IH1 M2 IH2|r1 r2 l0 M IH
                  |r1 r2 l0 M IH|r0|r0 l1 l2 M1 IH1 M2 IH2];
    intros c l E; simpl.
  - discriminate.
  - injection E as -> <-. rewrite Hp. constructor.
  - destruct l1 as [|c1 l1]; simpl in E.
    + assert (N : nullable r1 = true) by now apply nullable_matches.
      rewrite N. apply m_alt_r. now apply IH2.
    + injection E as -> <-.
      destruct (nullable r1); [apply m_alt_l|]; constructor; auto.
  - apply m_alt_l. now apply IH.
  - apply m_alt_r. now apply IH.
  - discriminate.
  - destruct l1 as [|c1 l1]; simpl in E.
    + now apply IH2.
    + injection E as -> <-. constructor; auto.
Qed.

(** The derivative test decides the match of the whole word. *)
Lemma accepts_matches (r : Re) (l : list Z) :
  accepts r l = true <-> matches r l.
Proof.
  revert r. induction l as [|c l IH]; intros r; simpl.
  - apply nullable_matches.
  - rewrite IH. split; [apply deriv_sound|].
    intros M. now apply (deriv_complete r _ M).
Qed.

Lemma star_class (p : Z -> bool) (l : list Z) :
  matches (ReStar (ReClass p)) l <-> forallb p l = true.
Proof.
  split.
  - intros M. remember (ReStar (ReClass p)) as r eqn:Er.
    induction M; try discriminate; [reflexivity|].
    injection Er as ->. inversion M1; subst. simpl.
    rewrite IHM2 by reflexivity. now rewrite H0.
  - induction l as [|c l IH]; simpl; intros E; [constructor|].
    apply andb_prop in E as [Ec El].
    change (c :: l) with ([c] ++ l)%list.
    constructor; [now constructor|auto].
Qed.

Lemma plus_class (l : list Z) :
  matches (RePlus (ReClass not_space_at)) l <-> address_part l.
Proof.
  unfold RePlus, address_part. split.
  - intros M. inversion M as [| |? ? l1 l2 M1 M2| | | |]; subst.
    inversion M1; subst. simpl. apply star_class in M2.
    split; [discriminate|]. now rewrite H0, M2.
  - intros [Hne Hall]. destruct l as [|c l]; [congruence|].
    simpl in Hall. apply andb_prop in Hall as [Hc Hl].
    change (c :: l) with ([c] ++ l)%list.
    constructor; [now constructor|now apply star_class].
Qed.

Lemma lit_matches (c : Z) (l : list Z) :
  matches (lit c) l <-> l = [c].
Proof.
  unfold lit. split.
  - intros M. inversion M; subst. now apply Z.eqb_eq in H0 as ->.
  - intros ->. constructor. apply Z.eqb_refl.
Qed.

Lemma email_shape (s : string) :
  test emailRegex s = true <-> address (units s).
Proof.
  unfold test, address. rewrite accepts_matches. unfold emailRegex. split.
  - intros M.
    inversion M as [| |? ? a l1 Ma M1 Ea| | | |]; subst.
    inversion M1 as [| |? ? at_ l2 Mat M2| | | |]; subst.
    inversion M2 as [| |? ? b l3 Mb M3| | | |]; subst.
    inversion M3 as [| |? ? dot c Mdot Mc| | | |]; subst.
    apply lit_matches in Mat, Mdot. subst.
    exists a, b, c. split; [now symmetry|].
    repeat split; try (apply plus_class; assumption).
  - intros (a & b & c & -> & Ha & Hb & Hc).
    constructor; [now apply plus_class|].
    constructor; [now apply lit_matches|].
    constructor; [now apply plus_class|].
    constructor; [now apply lit_matches|now apply plus_class].
Qed.

(** White space is that of [\s] on code units: an address with U+2003
    in it is refused, and one with the letter U+00E0, whose UTF-8
    encoding ends in the byte 160, is accepted. *)
Lemma email_check_beyond_ascii :
  units Sample.spaced_address = [97; 8195; 98; 64; 99; 46; 100]
  /\ test emailRegex Sample.spaced_address = false
  /\ units Sample.accented_address = [97; 224; 64; 98; 46; 99]
  /\ test emailRegex Sample.accented_address = true.
Proof. repeat split. Qed.

(** The address check accepts exactly the strings whose UTF-16 code
    units read [local@domain.tld], the three parts non-empty and free
    of white space and [@] (the domain and the tld may hold further
    dots). *)
Theorem email_check_shape (s : string) :
  test emailRegex s = true <-> address (units s).
Proof. exact (email_shape s). Qed.


(** ** Video addresses *)

Lemma append_empty (s1 s2 : string) : s1 ++ s2 = "" -> s1 = "" /\ s2 = "".
Proof. destruct s1; simpl; [auto|discriminate]. Qed.

Lemma append_nil_r (s : string) : s ++ "" = s.
Proof. induction s; simpl; congruence. Qed.

Lemma append_assoc (a b c : string) : (a ++ b) ++ c = a ++ (b ++ c).
Proof. induction a; simpl; congruence. Qed.

Module VideoFacts.
Import VideoUrl.

Lemma search_found (f : string -> option string) (s v : string) :
  search f s = Some v -> exists t, f t = Some v.
Proof.
  induction s as [|c s IH]; simpl.
  - destruct (f "") eqn:E; [intros [= <-]; eauto|discriminate].
  - destruct (f (String c s)) eqn:E; [intros [= <-]; eauto|exact IH].
Qed.

Lemma search_none (f : string -> option string) (s : string) :
  (forall t, f t = None) -> search f s = None.
Proof.
  intros Hf. induction s as [|c s IH]; simpl; now rewrite Hf.
Qed.

Lemma take_exact_spec (n : nat) (p : ascii -> bool) (s t : string) :
  take_exact n p s = Some t ->
  String.length t = n /\ all_chars p t = true.
Proof.
  revert s t. induction n as [|n IH]; simpl; intros s t E.
  - now injection E as <-.
  - destruct s as [|c r]; [discriminate|].
    destruct (p c) eqn:Ec; [|discriminate].
    destruct (take_exact n p r) as [t'|] eqn:Et; [|discriminate].
    injection E as <-. destruct (IH r t' Et) as [L A].
    simpl. now rewrite L, Ec, A.
Qed.

Lemma take_exact_self (p : ascii -> bool) (t rest : string) :
  all_chars p t = true ->
  take_exact (String.length t) p (t ++ rest) = Some t.
Proof.
  induction t as [|c t IH]; simpl; intros A; [reflexivity|].
  apply andb_prop in A as [Ec At]. now rewrite Ec, (IH At).
Qed.

Lemma take_while_all (p : ascii -> bool) (s : string) :
  all_chars p (take_while p s) = true.
Proof.
  induction s as [|c s IH]; simpl; [reflexivity|].
  destruct (p c) eqn:Ec; simpl; [now rewrite Ec|reflexivity].
Qed.

Lemma take_some_spec (p : ascii -> bool) (s t : string) :
  take_some p s = Some t -> t <> "" /\ all_chars p t = true.
Proof.
  unfold take_some. pose proof (take_while_all p s) as A.
  destruct (take_while p s) as [|c r]; [discriminate|].
  intros [= <-]. split; [discriminate|assumption].
Qed.

Lemma take_some_self (p : ascii -> bool) (t : string) (c : ascii)
    (rest : string) :
  t <> "" -> all_chars p t = true -> p c = false ->
  take_some p (t ++ String c rest) = Some t.
Proof.
  intros Hne A Hc. unfold take_some.
  assert (W : take_while p (t ++ String c rest) = t).
  { clear Hne. induction t as [|a t IH]; simpl in *; [now rewrite Hc|].
    apply andb_prop in A as [Ea At]. now rewrite Ea, (IH At). }
  rewrite W. now destruct t.
Qed.

Lemma take_some_whole (p : ascii -> bool) (t : string) :
  t <> "" -> all_chars p t = true -> take_some p t = Some t.
Proof.
  intros Hne A. unfold take_some.
  assert (W : take_while p t = t).
  { clear Hne. induction t as [|a t IH]; simpl in *; [reflexivity|].
    apply andb_prop in A as [Ea At]. now rewrite Ea, (IH At). }
  rewrite W. now destruct t.
Qed.

Lemma video_shape (url : string) (info : Info) :
  parseVideoUrl url = Some info ->
  (type info = "youtube"
   /\ String.length (id info) = 11%nat
   /\ all_chars id_char (id info) = true
   /\ embedUrl info = "https://www.youtube.com/embed/" ++ id info)
  \/ (type info = "vimeo"
      /\ id info <> "" /\ all_chars digit (id info) = true
      /\ embedUrl info = "https://player.vimeo.com/video/" ++ id info
      /\ search youtube_at url = None)
  \/ (type info = "drive"
      /\ id info <> "" /\ all_chars id_char (id info) = true
      /\ embedUrl info
         = "https://drive.google.com/file/d/" ++ id info ++ "/preview"
      /\ search youtube_at url = None /\ search vimeo_at url = None).
Proof.
  unfold parseVideoUrl.
  destruct (search youtube_at url) as [v|] eqn:Ey.
  - intros [= <-]. left. cbn [type id embedUrl].
    apply search_found in Ey as (t & Et). unfold youtube_at in Et.
    assert (T : exists r, take_exact 11 id_char r = Some v).
    { repeat match type of Et with
             | context [match ?x with _ => _ end] => destruct x eqn:?
             end; try discriminate;
        try injection Et as <-;
        repeat match goal with
               | H : match strip_prefix ?pre ?t with _ => _ end = Some _
                 |- _ => destruct (strip_prefix pre t); [|discriminate H]
               end;
        eauto. }
    destruct T as (r & T). apply take_exact_spec in T as [L A]. auto.
  - destruct (search vimeo_at url) as [v|] eqn:Ev.
    + intros [= <-]. right; left. cbn [type id embedUrl].
      apply search_found in Ev as (t & Et). unfold vimeo_at in Et.
      destruct (strip_prefix _ t); [|discriminate].
      apply take_some_spec in Et as [Hne A]. auto.
    + destruct (search drive_at url) as [v|] eqn:Ed; [|discriminate].
      intros [= <-]. right; right. cbn [type id embedUrl].
      apply search_found in Ed as (t & Et). unfold drive_at in Et.
      destruct (strip_prefix _ t); [|discriminate].
      apply take_some_spec in Et as [Hne A]. auto 6.
Qed.

(** What a recognised address yields: the kind of video, an
    identifier of the shape the expression captures, and the embed
    address built from it. *)
Theorem recognised_video_shape (url : string) (info : Info) :
  parseVideoUrl url = Some info ->
  (type info = "youtube"
   /\ String.length (id info) = 11%nat
   /\ all_chars id_char (id info) = true
   /\ embedUrl info = "https://www.youtube.com/embed/" ++ id info)
  \/ (type info = "vimeo"
      /\ id info <> "" /\ all_chars digit (id info) = true
      /\ embedUrl info = "https://player.vimeo.com/video/" ++ id info
      /\ search youtube_at url = None)
  \/ (type info = "drive"
      /\ id info <> "" /\ all_chars id_char (id info) = true
      /\ embedUrl info
         = "https://drive.google.com/file/d/" ++ id info ++ "/preview"
      /\ search youtube_at url = None /\ search vimeo_at url = None).
Proof. exact (video_shape url info). Qed.

Lemma recognised_video_shape_witness :
  String.length "dQw4w9WgXcQ" = 11%nat
  /\ all_chars id_char "dQw4w9WgXcQ" = true.
Proof.
  destruct (recognised_video_shape "https://youtu.be/dQw4w9WgXcQ"
              (mkInfo "youtube" "dQw4w9WgXcQ"
                 "https://www.youtube.com/embed/dQw4w9WgXcQ") eq_refl)
    as [(_ & L & A & _)|[(T & _)|(T & _)]].
  - split; [exact L|exact A].
  - discriminate T.
  - discriminate T.
Defined.

(** *** Reading back the embed address *)

Lemma strip_prefix_eq (pre s r : string) :
  strip_prefix pre s = Some r -> s = pre ++ r.
Proof.
  revert s. induction pre as [|a pre IH]; simpl; intros s E.
  - now injection E as ->.
  - destruct s as [|b s]; [discriminate|].
    destruct (Ascii.eqb_spec a b) as [->|_]; [|discriminate].
    now rewrite (IH s E).
Qed.

Lemma no_dot_app (a b : string) :
  no_dot (a ++ b) = no_dot a && no_dot b.
Proof.
  unfold no_dot. induction a as [|c a IH]; simpl; [reflexivity|].
  now rewrite IH, andb_assoc.
Qed.

Lemma no_dot_prefix (pre s : string) :
  no_dot pre = false -> no_dot s = true -> strip_prefix pre s = None.
Proof.
  intros Hpre Hs. destruct (strip_prefix pre s) as [r0|] eqn:E; [|reflexivity].
  apply strip_prefix_eq in E. subst s.
  rewrite no_dot_app, Hpre in Hs. discriminate.
Qed.

Lemma no_dot_tail (c : ascii) (s : string) :
  no_dot (String c s) = true -> no_dot s = true.
Proof. unfold no_dot. simpl. intros E. now apply andb_prop in E. Qed.

(** The three expressions all need a dot. *)
Lemma no_dot_no_video (s : string) :
  no_dot s = true ->
  search youtube_at s = None /\ search vimeo_at s = None
  /\ search drive_at s = None.
Proof.
  assert (H : forall t, no_dot t = true ->
                youtube_at t = None /\ vimeo_at t = None
                /\ drive_at t = None).
  { intros t Ht. unfold youtube_at, vimeo_at, drive_at.
    rewrite (no_dot_prefix "youtube.com/watch?v=" t eq_refl Ht),
      (no_dot_prefix "youtube.com/embed/" t eq_refl Ht),
      (no_dot_prefix "youtu.be/" t eq_refl Ht),
      (no_dot_prefix "vimeo.com/" t eq_refl Ht),
      (no_dot_prefix "drive.google.com/file/d/" t eq_refl Ht).
    auto. }
  induction s as [|c s IH]; intros Hs; destruct (H _ Hs) as (Y & V & D);
    cbn [search]; rewrite Y, V, D; [auto|].
  apply IH. now apply no_dot_tail in Hs.
Qed.

Lemma id_char_no_dot (s : string) :
  all_chars id_char s = true -> no_dot s = true.
Proof.
  unfold no_dot. induction s as [|c s IH]; simpl; [reflexivity|].
  intros E. apply andb_prop in E as [Ec Es]. rewrite (IH Es), andb_true_r.
  destruct (Ascii.eqb_spec c ".") as [->|_]; [discriminate Ec|reflexivity].
Qed.

Lemma digit_id_char (s : string) :
  all_chars digit s = true -> all_chars id_char s = true.
Proof.
  induction s as [|c s IH]; simpl; [reflexivity|].
  intros E. apply andb_prop in E as [Ec Es]. rewrite (IH Es), andb_true_r.
  unfold id_char. unfold digit in Ec. rewrite Ec.
  now rewrite orb_true_r.
Qed.

Lemma youtube_embed_found (v : string) :
  String.length v = 11%nat -> all_chars id_char v = true ->
  search youtube_at ("https://www.youtube.com/embed/" ++ v) = Some v.
Proof.
  intros L A.
  assert (E : take_exact 11 id_char v = Some v).
  { rewrite <- L. rewrite <- (append_nil_r v) at 2.
    now apply take_exact_self. }
  cbn -[take_exact]. now rewrite E.
Qed.

Lemma vimeo_embed_lost (v : string) :
  all_chars digit v = true ->
  parseVideoUrl ("https://player.vimeo.com/video/" ++ v) = None.
Proof.
  intros A.
  destruct (no_dot_no_video v (id_char_no_dot v (digit_id_char v A)))
    as (Y & V & D).
  unfold parseVideoUrl.
  assert (Y' : search youtube_at ("https://player.vimeo.com/video/" ++ v)
               = None) by exact Y.
  assert (D' : search drive_at ("https://player.vimeo.com/video/" ++ v)
               = None) by exact D.
  assert (V' : search vimeo_at ("https://player.vimeo.com/video/" ++ v)
               = None).
  { cbn -[take_some]. exact V. }
  now rewrite Y', V', D'.
Qed.

Lemma drive_embed_found (v : string) :
  v <> "" -> all_chars id_char v = true ->
  parseVideoUrl ("https://drive.google.com/file/d/" ++ v ++ "/preview")
  = Some (mkInfo "drive" v
            ("https://drive.google.com/file/d/" ++ v ++ "/preview")).
Proof.
  intros Hne A.
  assert (N : no_dot (v ++ "/preview") = true)
    by (rewrite no_dot_app, (id_char_no_dot v A); reflexivity).
  destruct (no_dot_no_video _ N) as (Y & V & _).
  unfold parseVideoUrl.
  assert (Y' : search youtube_at
                 ("https://drive.google.com/file/d/" ++ v ++ "/preview")
               = None) by exact Y.
  assert (V' : search vimeo_at
                 ("https://drive.google.com/file/d/" ++ v ++ "/preview")
               = None) by exact V.
  assert (D' : search drive_at
                 ("https://drive.google.com/file/d/" ++ v ++ "/preview")
               = Some v).
  { cbn -[take_some].
    now rewrite (take_some_self id_char v "/" "preview" Hne A eq_refl). }
  now rewrite Y', V', D'.
Qed.

(** The embed address returned for a YouTube or a Drive video is itself
    recognised, as the same video; the one returned for a Vimeo video
    is not recognised at all. *)
Theorem embed_address_read_back (url : string) (info : Info) :
  parseVideoUrl url = Some info ->
  (type info = "youtube" \/ type info = "drive" ->
   parseVideoUrl (embedUrl info) = Some info)
  /\ (type info = "vimeo" -> parseVideoUrl (embedUrl info) = None).
Proof.
  intros P.
  destruct (video_shape url info P)
    as [(T & L & A & E)|[(T & Hne & A & E & _)|(T & Hne & A & E & _)]];
    destruct info as [ty v em]; cbn [type id embedUrl] in *; subst ty em.
  - split; [intros _|intros F; discriminate F].
    unfold parseVideoUrl. now rewrite (youtube_embed_found v L A).
  - split; [intros [F|F]; discriminate F|intros _].
    now apply vimeo_embed_lost.
  - split; [intros _|intros F; discriminate F].
    now apply drive_embed_found.
Qed.

Lemma embed_address_read_back_witness :
  parseVideoUrl "https://www.youtube.com/embed/dQw4w9WgXcQ"
  = Some (mkInfo "youtube" "dQw4w9WgXcQ"
            "https://www.youtube.com/embed/dQw4w9WgXcQ").
Proof.
  destruct (embed_address_read_back "https://youtu.be/dQw4w9WgXcQ"
              (mkInfo "youtube" "dQw4w9WgXcQ"
                 "https://www.youtube.com/embed/dQw4w9WgXcQ") eq_refl)
    as [R _].
  exact (R (or_introl eq_refl)).
Defined.

End VideoFacts.

(** ** The contact form *)

Lemma or_null_text (f : Field string) (a : string) :
  or_null f = Some a <-> f = Given a /\ a <> "".
Proof.
  destruct f as [| |x]; simpl; try (split; [discriminate|intros [F _]; discriminate F]).
  unfold truthy_val, Truthy_string.
  destruct (String.eqb_spec x "") as [->|Hne]; simpl; split.
  - discriminate.
  - intros [[= <-] F]. congruence.
  - intros [= <-]. now split.
  - intros [[= <-] _]. reflexivity.
Qed.

(** A contact form is accepted (201) exactly when name, subject and
    message are there and not empty and the code units of the address
    read [local@domain.tld], the parts non-empty and free of white
    space and [@]; the phone number plays no part. *)
Theorem contact_form_accepted_iff
    (dirname : Fs.Path) (now : Z) (session : option Session)
    (b : MessagesRoutes.Body) (w : World) :
  status (fst (handle dirname now session (PostMessage b) w)) = 201
  <-> exists n e s m,
        MessagesRoutes.name b = Given n /\ n <> ""
        /\ MessagesRoutes.email b = Given e
        /\ MessagesRoutes.subject b = Given s /\ s <> ""
        /\ MessagesRoutes.message b = Given m /\ m <> ""
        /\ address (units e).
Proof.
  unfold handle. cbn [route]. unfold MessagesRoutes.submit, Db.insert.
  split.
  - destruct (or_null (MessagesRoutes.name b)) as [n|] eqn:En;
      [|discriminate].
    destruct (or_null (MessagesRoutes.email b)) as [e|] eqn:Ee;
      [|discriminate].
    destruct (or_null (MessagesRoutes.subject b)) as [s|] eqn:Es;
      [|discriminate].
    destruct (or_null (MessagesRoutes.message b)) as [m|] eqn:Em;
      [|discriminate].
    destruct (test emailRegex e) eqn:Et; [|discriminate]. intros _.
    apply or_null_text in En as [En Hn], Ee as [Ee _], Es as [Es Hs],
        Em as [Em Hm].
    exists n, e, s, m. repeat (split; [assumption|]).
    now apply email_shape.
  - intros (n & e & s & m & En & Hn & Ee & Es & Hs & Em & Hm & Hshape).
    assert (He : e <> "").
    { destruct Hshape as (l & d & t & E & [Hl _] & _).
      intros ->. cbn [units] in E. destruct l; [congruence|discriminate]. }
    apply email_shape in Hshape.
    rewrite (proj2 (or_null_text _ n) (conj En Hn)),
      (proj2 (or_null_text _ e) (conj Ee He)),
      (proj2 (or_null_text _ s) (conj Es Hs)),
      (proj2 (or_null_text _ m) (conj Em Hm)), Hshape.
    reflexivity.
Qed.

(** ** The carousel *)

Lemma asc_null_total {R : Type} (col : R -> option Z) (a b : R) :
  Db.asc_null col a b = false -> Db.asc_null col b a = true.
Proof.
  unfold Db.asc_null. destruct (col a), (col b); try reflexivity;
    try discriminate.
  rewrite Z.leb_gt, Z.leb_le. lia.
Qed.

(** A slide that was just created is on the public carousel, which
    shows active slides only, in ascending display order with the
    slides without an order first.  The slide is stored under the next
    id of the table; the id the answer reports is not that one but 0,
    the [lastInsertRowid] of the helper. *)
Theorem created_slide_is_shown
    (dirname : Fs.Path) (now now' : Z) (session reader : option Session)
    (b : MediaRoutes.SlideBody) (img : string) (w : World) :
  logged_in session = true ->
  or_null (MediaRoutes.image_url b) = Some img ->
  let res := handle dirname now session (PostHero b) w in
  fst res = ok (Some SlideAdded) (InsertedId 0)
  /\ exists shown,
       handle dirname now' reader GetHero (snd res)
       = (ok None (SlideRows shown), snd res)
       /\ Forall (fun r => hero_slides.is_active r = 1) shown
       /\ Sorted (fun x y => Db.asc_null hero_slides.display_order x y = true)
            shown
       /\ exists r, In r shown
                    /\ hero_slides.id r = Db.next_id (t_hero_slides w)
                    /\ hero_slides.image_url r = img
                    /\ hero_slides.display_order r
                       = Some (or_else (MediaRoutes.display_order b) 0).
Proof.
  intros Hin Himg. cbv zeta. unfold handle. cbn [route].
  rewrite guard_passes by assumption.
  unfold MediaRoutes.hero_create, MediaRoutes.hero_list, Db.insert.
  rewrite Himg. cbn [fst snd t_hero_slides with_hero_slides].
  split; [reflexivity|]. eexists. split; [reflexivity|].
  split; [|split].
  - eapply Forall_perm_filter; [|apply order_by_perm].
    intros r Hr. now apply Z.eqb_eq.
  - apply order_by_sorted. intros x y. apply asc_null_total.
  - eexists. split.
    + eapply Permutation_in; [apply order_by_perm|].
      unfold Db.all. cbn [Db.rows]. apply filter_In. split.
      * apply in_or_app. right. now left.
      * reflexivity.
    + repeat split.
Qed.

Lemma created_slide_is_shown_witness :
  let b := MediaRoutes.mkSlideBody Undefined Undefined
             (Given "/assets/uploads/hero/a.png") Undefined Undefined
             Undefined Undefined in
  let res := handle Sample.dirname 1 Sample.admin (PostHero b) Sample.site in
  fst res = ok (Some SlideAdded) (InsertedId 0)
  /\ handle Sample.dirname 2 None GetHero (snd res)
     = (ok None
          (SlideRows
             [hero_slides.mk 1 (Some "") (Some "")
                "/assets/uploads/hero/a.png" (Some "") (Some "") (Some 0)
                1 1]),
        snd res).
Proof.
  cbv zeta. split; [|reflexivity].
  apply (created_slide_is_shown Sample.dirname 1 2 Sample.admin None
           (MediaRoutes.mkSlideBody Undefined Undefined
              (Given "/assets/uploads/hero/a.png") Undefined Undefined
              Undefined Undefined)
           "/assets/uploads/hero/a.png" Sample.site eq_refl eq_refl).
Defined.

Lemma remove_image_cases (dirname : Fs.Path) (url : option string)
    (d d' : Fs.Tree) :
  MediaRoutes.remove_image dirname url d = Some d' ->
  d' = d
  \/ exists u, url = Some u
               /\ startsWith u "/assets/uploads/" = true
               /\ d' = filter (fun e => negb (Fs.path_eqb (fst e)
                                               (fst (Fs.join_frontend dirname u))))
                         d.
Proof.
  unfold MediaRoutes.remove_image.
  destruct url as [u|]; [|intros [= <-]; now left].
  destruct (truthy_val u); cbn [andb]; [|intros [= <-]; now left].
  destruct (startsWith u "/assets/uploads/") eqn:Es;
    [|intros [= <-]; now left].
  destruct (Fs.existsSync d (Fs.join_frontend dirname u));
    [|intros [= <-]; now left].
  unfold Fs.unlinkSync.
  destruct (Fs.lookup d (fst (Fs.join_frontend dirname u))) as [[|]|];
    try discriminate.
  intros [= <-]. right. exists u. auto.
Qed.

(** Deleting a slide or a specialty that exists removes its row; of the
    files it removes at most the one its image address resolves to, and
    none when that address is not a local upload. *)
Theorem media_delete_and_its_file
    (dirname : Fs.Path) (now : Z) (session : option Session) (i : Z)
    (w : World) :
  logged_in session = true ->
  let local u := startsWith u "/assets/uploads/" in
  let without u :=
    filter (fun e => negb (Fs.path_eqb (fst e)
                            (fst (Fs.join_frontend dirname u)))) (disk w) in
  (forall s,
     Db.get (MediaRoutes.slide_by_id i) (t_hero_slides w) = Some s ->
     let res := handle dirname now session (DeleteHero i) w in
     Db.get (MediaRoutes.slide_by_id i) (t_hero_slides (snd res)) = None
     /\ (local (hero_slides.image_url s) = false ->
         res = (ok (Some SlideDeleted) NoData,
                with_hero_slides w
                  (Db.delete (MediaRoutes.slide_by_id i) (t_hero_slides w))))
     /\ (disk (snd res) = disk w
         \/ disk (snd res) = without (hero_slides.image_url s)))
  /\ (forall s,
        Db.get (MediaRoutes.specialty_by_id i) (t_specialties w) = Some s ->
        let res := handle dirname now session (DeleteSpecialty i) w in
        Db.get (MediaRoutes.specialty_by_id i) (t_specialties (snd res))
        = None
        /\ (forall u, specialties.image_url s = Some u -> local u = false ->
              res = (ok (Some SpecialtyDeleted) NoData,
                     with_specialties w
                       (Db.delete (MediaRoutes.specialty_by_id i)
                          (t_specialties w))))
        /\ (disk (snd res) = disk w
            \/ exists u, specialties.image_url s = Some u
                         /\ disk (snd res) = without u)).
Proof.
  intros Hin. cbv zeta. unfold handle. cbn [route].
  rewrite !guard_passes by assumption. split; intros s Hget.
  - unfold MediaRoutes.hero_delete. rewrite Hget.
    cbn [disk with_hero_slides].
    split; [|split].
    + destruct (MediaRoutes.remove_image _ _ _);
        cbn [snd t_hero_slides with_hero_slides with_disk];
        apply get_delete.
    + intros Hl. unfold MediaRoutes.remove_image.
      rewrite Hl, andb_false_r. cbn [with_disk]. now destruct w.
    + destruct (MediaRoutes.remove_image _ _ _) as [d'|] eqn:E;
        cbn [snd disk with_disk with_hero_slides]; [|now left].
      apply remove_image_cases in E as [->|(u & [= <-] & _ & ->)]; auto.
  - unfold MediaRoutes.specialty_delete. rewrite Hget.
    cbn [disk with_specialties].
    split; [|split].
    + destruct (MediaRoutes.remove_image _ _ _);
        cbn [snd t_specialties with_specialties with_disk];
        apply get_delete.
    + intros u Hu Hl. unfold MediaRoutes.remove_image.
      rewrite Hu, Hl, andb_false_r. cbn [with_disk]. now destruct w.
    + destruct (MediaRoutes.remove_image _ _ _) as [d'|] eqn:E;
        cbn [snd disk with_disk with_specialties]; [|now left].
      apply remove_image_cases in E as [->|(u & Hu & _ & ->)]; eauto.
Qed.

Lemma media_delete_and_its_file_witness :
  let s := hero_slides.mk 1 None None "/assets/uploads/hero/a.png" None None
             None 1 0 in
  let w := with_hero_slides Sample.site (Db.mkTable [s] 1) in
  disk (snd (handle Sample.dirname 3 Sample.admin (DeleteHero 1) w))
  = [(Sample.front_page, Fs.File)].
Proof.
  cbv zeta.
  destruct (media_delete_and_its_file Sample.dirname 3 Sample.admin 1
              (with_hero_slides Sample.site
                 (Db.mkTable
                    [hero_slides.mk 1 None None "/assets/uploads/hero/a.png"
                       None None None 1 0] 1)) eq_refl) as [H _].
  destruct (H _ eq_refl) as (_ & _ & [E|E]); [discriminate E|exact E].
Defined.

(** ** Logging in and out *)

Section AuthFacts.

Variable compareSync : string -> string -> bool.
Variable hashSync : string -> string -> Z -> string.

Abbreviation login := (AuthRoutes.login compareSync).
Abbreviation change_password :=
  (AuthRoutes.change_password compareSync hashSync).
Abbreviation createDefaultAdmin :=
  (AuthRoutes.createDefaultAdmin hashSync).

(** An unknown user name and a wrong password get the same answer, and
    neither touches the session. *)
Theorem login_failures_look_alike
    (session : option Session) (b : AuthRoutes.Credentials) (u p : string)
    (t : Db.Table admins.row) :
  logged_in session = false ->
  or_null (AuthRoutes.username b) = Some u ->
  or_null (AuthRoutes.password b) = Some p ->
  Db.get (AuthRoutes.by_username u) t = None
  \/ (exists a, Db.get (AuthRoutes.by_username u) t = Some a
                /\ compareSync p (admins.password a) = false) ->
  login session b t
  = (AuthRoutes.refuse 401 "Invalid username or password", session).
Proof.
  intros Hout Hu Hp Hbad. unfold AuthRoutes.login. rewrite Hout, Hu, Hp.
  destruct Hbad as [->|(a & -> & ->)]; reflexivity.
Qed.

(** The life of a session: a login that is answered 200 opens every
    admin route, a second login is refused as already logged in, the
    check reports the admin, and after logout the admin routes answer
    401 again. *)
Theorem session_life_cycle
    (dirname : Fs.Path) (now : Z) (session : option Session)
    (b : AuthRoutes.Credentials) (t : Db.Table admins.row) :
  (forall a, In a (Db.rows t) -> admins.id a <> 0) ->
  AuthRoutes.code (fst (login session b t)) = 200 ->
  let session' := snd (login session b t) in
  logged_in session' = true
  /\ (forall req w,
        handle dirname now session' req w = snd (route dirname now req) w)
  /\ (forall b', login session' b' t
                 = (AuthRoutes.refuse 400 "Already logged in.", session'))
  /\ AuthRoutes.authenticated (AuthRoutes.check session') = Some true
  /\ snd (AuthRoutes.logout false session') = None
  /\ (forall req w,
        admin_only req = true ->
        handle dirname now (snd (AuthRoutes.logout false session')) req w
        = (failure 401 (Text "Unauthorized. Please login first."), w)).
Proof.
  intros Hids. unfold AuthRoutes.login.
  destruct (logged_in session) eqn:Hout; [discriminate|].
  destruct (or_null (AuthRoutes.username b)) as [u|]; [|discriminate].
  destruct (or_null (AuthRoutes.password b)) as [p|]; [|discriminate].
  destruct (Db.get (AuthRoutes.by_username u) t) as [a|] eqn:Eg;
    [|discriminate].
  destruct (compareSync p (admins.password a)); [|discriminate].
  destruct session as [s|]; [|discriminate]. intros _. cbn [snd negb].
  assert (Hin : logged_in (Some (mkSession (Given (admins.id a))
                                   (Given (admins.username a)))) = true).
  { unfold Db.get in Eg. apply find_some in Eg as [Ha _].
    specialize (Hids a Ha). cbn. unfold truthy_val, Truthy_Z.
    apply Z.eqb_neq in Hids. now rewrite Hids. }
  split; [exact Hin|]. split; [|split; [|split; [|split]]].
  - intros req w. unfold handle.
    destruct (route dirname now req) as [[|] h]; cbn [snd];
      [now apply guard_passes|reflexivity].
  - intros b'. now rewrite Hin.
  - unfold AuthRoutes.check. cbn [adminId]. cbn [logged_in adminId] in Hin.
    now rewrite Hin.
  - unfold AuthRoutes.logout. now rewrite Hin.
  - intros req w Hadm. unfold AuthRoutes.logout. rewrite Hin. cbn [snd].
    unfold handle.
    pose proof (admin_only_guarded dirname now req Hadm) as Hg.
    destruct (route dirname now req) as [g h]. cbn [fst] in Hg. subst g.
    now apply guard_rejects.
Qed.

Lemma get_update_other {R : Type} `{Db.Keyed R} (q p : R -> bool)
    (f : R -> R) (t : Db.Table R) :
  (forall r, q (f r) = q r) ->
  Db.get q (Db.update p f t)
  = option_map (fun r => if p r then f r else r) (Db.get q t).
Proof.
  intros Hq. unfold Db.get, Db.update. cbn [Db.rows].
  induction (Db.rows t) as [|x l IH]; [reflexivity|].
  cbn [map find option_map].
  assert (E : q (if p x then f x else x) = q x)
    by (destruct (p x); [apply Hq|reflexivity]).
  rewrite E. destruct (q x); [reflexivity|exact IH].
Qed.

(** The table of admins changes under a change of password only when
    the request comes with a session, the current password verifies
    against the stored hash of the admin of the session, and the new
    password has at least six UTF-16 code units (its [length]); the
    answer is then 200, and every admin keeps its id, its user name and
    its date. *)
Theorem password_changes_only_when_verified
    (salt : string) (session : option Session)
    (b : AuthRoutes.PasswordChange) (t : Db.Table admins.row) :
  snd (change_password salt session b t) <> t ->
  exists s cur new a,
    session = Some s
    /\ AuthRoutes.currentPassword b = Given cur
    /\ AuthRoutes.newPassword b = Given new
    /\ 6 <= Z.of_nat (List.length (units new))
    /\ adminId s = Given (admins.id a)
    /\ In a (Db.rows t)
    /\ compareSync cur (admins.password a) = true
    /\ AuthRoutes.code (fst (change_password salt session b t)) = 200
    /\ Forall2
         (fun r r' =>
            admins.id r' = admins.id r
            /\ admins.username r' = admins.username r
            /\ admins.created_at r' = admins.created_at r)
         (Db.rows t) (Db.rows (snd (change_password salt session b t))).
Proof.
  unfold AuthRoutes.change_password.
  destruct session as [s|]; [|intros F; now destruct F].
  destruct (truthy (adminId s)); [|intros F; now destruct F].
  destruct (or_null (AuthRoutes.currentPassword b)) as [cur|] eqn:Ec;
    [|intros F; now destruct F].
  destruct (or_null (AuthRoutes.newPassword b)) as [new|] eqn:En;
    [|intros F; now destruct F].
  apply or_null_text in Ec as [Ec _]. apply or_null_text in En as [En _].
  destruct (Z.ltb_spec (strlen new) 6) as [|Hlen];
    [intros F; now destruct F|].
  set (mine := fun r : admins.row =>
                  Db.eq_int (Some (admins.id r)) (AuthRoutes.session_id s)).
  destruct (Db.get mine t) as [a|] eqn:Eg; [|intros F; now destruct F].
  destruct (compareSync cur (admins.password a)) eqn:Ev;
    [|intros F; now destruct F].
  intros _. exists s, cur, new, a. cbn [negb fst snd AuthRoutes.code].
  split; [reflexivity|]. split; [exact Ec|]. split; [exact En|].
  split; [exact Hlen|].
  unfold Db.get in Eg. apply find_some in Eg as [Ha Hmine].
  split.
  { subst mine. cbv beta in Hmine. unfold AuthRoutes.session_id in Hmine.
    destruct (adminId s) as [| |i]; try discriminate Hmine.
    cbn [Db.eq_int] in Hmine. apply Z.eqb_eq in Hmine. now rewrite Hmine. }
  split; [exact Ha|]. split; [exact Ev|].
  split; [reflexivity|]. clear Ha.
  unfold Db.update. cbn [Db.rows].
  induction (Db.rows t) as [|x l IH]; [constructor|].
  cbn [map]. constructor; [|exact IH].
  destruct (mine x); repeat split.
Qed.

Hypothesis hash_verifies :
  forall salt p rounds, compareSync p (hashSync salt p rounds) = true.

(** After a change of password that was answered 200, the admin logs in
    with the new password. *)
Theorem new_password_logs_in
    (salt : string) (s : Session) (b : AuthRoutes.PasswordChange)
    (new u : string) (a : admins.row) (t : Db.Table admins.row) :
  adminId s = Given (admins.id a) ->
  Db.get (AuthRoutes.by_username u) t = Some a ->
  u <> "" ->
  AuthRoutes.newPassword b = Given new ->
  AuthRoutes.code (fst (change_password salt (Some s) b t)) = 200 ->
  let t' := snd (change_password salt (Some s) b t) in
  AuthRoutes.code
    (fst (login anonymous
            (AuthRoutes.mkCredentials (Given u) (Given new)) t'))
  = 200.
Proof.
  intros Hid Hget Hu Hnew. unfold AuthRoutes.change_password.
  destruct (truthy (adminId s)); [|discriminate].
  destruct (or_null (AuthRoutes.currentPassword b)) as [cur|];
    [|discriminate].
  destruct (or_null (AuthRoutes.newPassword b)) as [n|] eqn:En;
    [|discriminate].
  apply or_null_text in En as [En Hne]. rewrite Hnew in En.
  injection En as <-.
  destruct (strlen new <? 6); [discriminate|].
  set (mine := fun r : admins.row =>
                  Db.eq_int (Some (admins.id r)) (AuthRoutes.session_id s)).
  destruct (Db.get mine t) as [a0|]; [|discriminate].
  destruct (compareSync cur (admins.password a0)); [|discriminate].
  intros _. cbn [snd negb]. subst mine.
  unfold AuthRoutes.login, anonymous.
  change (logged_in (Some (mkSession Undefined Undefined))) with false.
  cbv iota. cbn [AuthRoutes.username AuthRoutes.password].
  rewrite (proj2 (or_null_text (Given u) u) (conj eq_refl Hu)),
    (proj2 (or_null_text (Given new) new) (conj eq_refl Hne)).
  rewrite get_update_other by reflexivity. rewrite Hget. cbn [option_map].
  unfold AuthRoutes.session_id. rewrite Hid. cbn [Db.eq_int].
  rewrite Z.eqb_refl.
  cbn [admins.password]. now rewrite hash_verifies.
Qed.

(** Booting again does not touch the admins: the default admin is
    created only while no admin of that name exists, so a password that
    was changed stays changed. *)
Theorem default_admin_is_created_once
    (salt salt' : string) (now now' : Z) (t : Db.Table admins.row) :
  let booted := createDefaultAdmin salt now t in
  Db.get (AuthRoutes.by_username "admin") booted <> None
  /\ createDefaultAdmin salt' now' booted = booted
  /\ (Db.get (AuthRoutes.by_username "admin") t <> None -> booted = t).
Proof.
  cbv zeta. unfold AuthRoutes.createDefaultAdmin, Db.all, Db.get.
  destruct (filter (AuthRoutes.by_username "admin") (Db.rows t))
    as [|x l] eqn:E.
  - unfold Db.insert. cbn [fst Db.rows].
    assert (Hnone : find (AuthRoutes.by_username "admin") (Db.rows t) = None).
    { apply find_none_iff. intros r Hr.
      destruct (AuthRoutes.by_username "admin" r) eqn:Er; [|reflexivity].
      assert (Hin : In r (filter (AuthRoutes.by_username "admin") (Db.rows t)))
        by (apply filter_In; now split).
      rewrite E in Hin. destruct Hin. }
    split; [|split].
    + erewrite find_app_new; [discriminate|exact Hnone|reflexivity].
    + rewrite filter_app, E. reflexivity.
    + intros F. now rewrite Hnone in F.
  - split; [|split].
    + assert (Hin : In x (filter (AuthRoutes.by_username "admin") (Db.rows t)))
        by (rewrite E; now left).
      apply filter_In in Hin as [Hin Hx].
      intros F. apply (find_none _ _ F) in Hin. congruence.
    + now rewrite E.
    + reflexivity.
Qed.

End AuthFacts.

Lemma password_changes_only_when_verified_witness :
  let t := AuthRoutes.createDefaultAdmin toy_hash "s" 0 Sample.empty in
  let b := AuthRoutes.mkPasswordChange (Given "admin123")
             (Given "better-one") in
  exists s cur new a,
    Sample.admin = Some s
    /\ AuthRoutes.currentPassword b = Given cur
    /\ AuthRoutes.newPassword b = Given new
    /\ 6 <= Z.of_nat (List.length (units new))
    /\ adminId s = Given (admins.id a)
    /\ In a (Db.rows t)
    /\ toy_compare cur (admins.password a) = true
    /\ AuthRoutes.code
         (fst (AuthRoutes.change_password toy_compare toy_hash "s2"
                 Sample.admin b t)) = 200
    /\ Forall2
         (fun r r' =>
            admins.id r' = admins.id r
            /\ admins.username r' = admins.username r
            /\ admins.created_at r' = admins.created_at r)
         (Db.rows t)
         (Db.rows (snd (AuthRoutes.change_password toy_compare toy_hash "s2"
                          Sample.admin b t))).
Proof.
  cbv zeta.
  apply (password_changes_only_when_verified toy_compare toy_hash "s2"
           Sample.admin
           (AuthRoutes.mkPasswordChange (Given "admin123")
              (Given "better-one"))
           (AuthRoutes.createDefaultAdmin toy_hash "s" 0 Sample.empty)).
  vm_compute. intros F. discriminate F.
Defined.

Lemma login_failures_look_alike_witness :
  AuthRoutes.login toy_compare anonymous
    (AuthRoutes.mkCredentials (Given "nobody") (Given "x")) Sample.empty
  = (AuthRoutes.refuse 401 "Invalid username or password", anonymous).
Proof.
  apply (login_failures_look_alike toy_compare anonymous
           (AuthRoutes.mkCredentials (Given "nobody") (Given "x"))
           "nobody" "x" Sample.empty eq_refl eq_refl eq_refl).
  left. reflexivity.
Defined.

Lemma session_life_cycle_witness :
  let t := AuthRoutes.createDefaultAdmin toy_hash "s" 0 Sample.empty in
  let session' :=
    snd (AuthRoutes.login toy_compare anonymous
           (AuthRoutes.mkCredentials (Given "admin") (Given "admin123")) t) in
  logged_in session' = true.
Proof.
  cbv zeta.
  apply (session_life_cycle toy_compare Sample.dirname 0 anonymous
           (AuthRoutes.mkCredentials (Given "admin") (Given "admin123"))
           (AuthRoutes.createDefaultAdmin toy_hash "s" 0 Sample.empty)).
  - intros a [<-|[]]. discriminate.
  - reflexivity.
Defined.

Lemma new_password_logs_in_witness :
  let t := AuthRoutes.createDefaultAdmin toy_hash "s" 0 Sample.empty in
  let b := AuthRoutes.mkPasswordChange (Given "admin123")
             (Given "better-one") in
  AuthRoutes.code
    (fst (AuthRoutes.login toy_compare anonymous
            (AuthRoutes.mkCredentials (Given "admin") (Given "better-one"))
            (snd (AuthRoutes.change_password toy_compare toy_hash "s2"
                    Sample.admin b t))))
  = 200.
Proof.
  cbv zeta.
  apply (new_password_logs_in toy_compare toy_hash
           (fun salt p rounds => String.eqb_refl _)
           "s2" (mkSession (Given 1) (Given "admin"))
           (AuthRoutes.mkPasswordChange (Given "admin123")
              (Given "better-one"))
           "better-one" "admin"
           (admins.mk 1 "admin" (toy_hash "s" "admin123" 10) 0)
           (AuthRoutes.createDefaultAdmin toy_hash "s" 0 Sample.empty)).
  - reflexivity.
  - reflexivity.
  - discriminate.
  - reflexivity.
  - reflexivity.
Defined.

Lemma default_admin_is_created_once_witness :
  let t :=
    snd (AuthRoutes.change_password toy_compare toy_hash "s2" Sample.admin
           (AuthRoutes.mkPasswordChange (Given "admin123")
              (Given "better-one"))
           (AuthRoutes.createDefaultAdmin toy_hash "s" 0 Sample.empty)) in
  AuthRoutes.createDefaultAdmin toy_hash "s3" 9 t = t.
Proof.
  cbv zeta.
  apply (proj2 (proj2 (default_admin_is_created_once toy_hash "s3" "s3" 9 9
                         (snd (AuthRoutes.change_password toy_compare
                                 toy_hash "s2" Sample.admin
                                 (AuthRoutes.mkPasswordChange
                                    (Given "admin123") (Given "better-one"))
                                 (AuthRoutes.createDefaultAdmin toy_hash "s"
                                    0 Sample.empty)))))).
  vm_compute. discriminate.
Defined.
